(** * The message-to-Claude bridge (wechat-cc, JavaScript sources)

    A shallow embedding of the metadata store (database.js), the
    configuration loader (config.js), the Docker manager
    (docker-manager.js), the Claude executor (claude-executor.js), the
    message router (message-router.js) and the outbound chunking of
    index.js, followed by the properties of the specification that were
    checked against them. *)

From stdpp Require Import base gmap sets list strings.
From Stdlib Require Import ZArith NArith Lia DecimalString.

(* ===================================================================== *)
(** * Part I: the embedding                                               *)
(* ===================================================================== *)

(** ** JavaScript values

    A JavaScript string is a sequence of UTF-16 code units; [length],
    [substring] and [lastIndexOf] count code units.  Source literals are
    written as Rocq strings (UTF-8 bytes) and converted with [utf16]. *)

Module JS.

Abbreviation jsstring := (list N).

(** UTF-8 decoding of a source literal into code points. *)
Fixpoint utf8_go (need : nat) (acc : N) (bs : list N) : list N :=
  match bs with
  | [] => []
  | b :: bs' =>
      match need with
      | O => if (b <? 128)%N then b :: utf8_go 0 0%N bs'
             else if (b <? 224)%N then utf8_go 1 (b mod 32)%N bs'
             else if (b <? 240)%N then utf8_go 2 (b mod 16)%N bs'
             else utf8_go 3 (b mod 8)%N bs'
      | S O => (acc * 64 + b mod 64)%N :: utf8_go 0 0%N bs'
      | S n => utf8_go n (acc * 64 + b mod 64)%N bs'
      end
  end.

(** The UTF-16 code units of one code point. *)
Definition units_of (cp : N) : list N :=
  if (cp <? 65536)%N then [cp]
  else [(55296 + (cp - 65536) / 1024)%N; (56320 + (cp - 65536) mod 1024)%N].

Definition utf16 (s : string) : jsstring :=
  flat_map units_of
    (utf8_go 0 0%N (map Ascii.N_of_ascii (String.list_ascii_of_string s))).

Definition is_high_surrogate (u : N) : bool := (55296 <=? u)%N && (u <=? 56319)%N.
Definition is_low_surrogate (u : N) : bool := (56320 <=? u)%N && (u <=? 57343)%N.

(** A string is well formed when every surrogate code unit belongs to a
    pair: a high surrogate immediately followed by a low one.  A lone
    surrogate is a fragment of a character that takes two code units. *)
Fixpoint well_formed (s : jsstring) : bool :=
  match s with
  | [] => true
  | u :: s' =>
      if is_high_surrogate u then
        match s' with
        | v :: s'' => is_low_surrogate v && well_formed s''
        | [] => false
        end
      else negb (is_low_surrogate u) && well_formed s'
  end.

(** A string in which no character takes two code units. *)
Definition no_surrogates (s : jsstring) : Prop :=
  Forall (fun u => is_high_surrogate u = false /\ is_low_surrogate u = false) s.

(** The code points a well-formed string denotes; a lone surrogate is
    read as U+FFFD, as a UTF-8 conversion does. *)
Fixpoint code_points (s : jsstring) : list N :=
  match s with
  | [] => []
  | u :: s' =>
      if is_high_surrogate u then
        match s' with
        | v :: s'' =>
            if is_low_surrogate v
            then (65536 + (u - 55296) * 1024 + (v - 56320))%N :: code_points s''
            else 65533%N :: code_points s'
        | [] => [65533%N]
        end
      else if is_low_surrogate u then 65533%N :: code_points s'
      else u :: code_points s'
  end.

(** [a || b] on strings: the empty string is falsy. *)
Definition or_str (a b : jsstring) : jsstring :=
  match a with [] => b | _ => a end.

(** [a || b] where [a] may be [undefined] or [null]. *)
Definition or_opt (a : option jsstring) (b : jsstring) : jsstring :=
  match a with Some (u :: s) => u :: s | _ => b end.

(** [s.length] *)
Definition length (s : jsstring) : Z := Z.of_nat (List.length s).

(** [s.substring(a, b)]: both arguments are clamped to [0, s.length] and
    swapped when [a > b]. *)
Definition clamp (s : jsstring) (i : Z) : nat := Z.to_nat (Z.min (Z.max 0 i) (length s)).

Definition substring (s : jsstring) (a b : Z) : jsstring :=
  let lo := Nat.min (clamp s a) (clamp s b) in
  let hi := Nat.max (clamp s a) (clamp s b) in
  firstn (hi - lo) (skipn lo s).

(** [s.substring(a)] *)
Definition substring_from (s : jsstring) (a : Z) : jsstring := skipn (clamp s a) s.

(** [s.lastIndexOf(c, pos)] for a one-character search string: the
    largest index [k <= max 0 pos] with [s[k] = c], or -1. *)
Fixpoint last_index_upto (c : N) (s : jsstring) (i pos best : Z) : Z :=
  match s with
  | [] => best
  | x :: s' =>
      if (pos <? i)%Z then best
      else last_index_upto c s' (i + 1) pos (if (x =? c)%N then i else best)
  end.

Definition lastIndexOf (s : jsstring) (c : N) (pos : Z) : Z :=
  last_index_upto c s 0 (Z.max 0 pos) (-1).

(** White space and line terminators, as [trim] and [\s] understand them. *)
Definition is_white_space (u : N) : bool :=
  ((9 <=? u) && (u <=? 13) || (u =? 32) || (u =? 160) || (u =? 5760)
   || (8192 <=? u) && (u <=? 8202) || (u =? 8232) || (u =? 8233)
   || (u =? 8239) || (u =? 8287) || (u =? 12288) || (u =? 65279))%N.

Fixpoint trimStart (s : jsstring) : jsstring :=
  match s with
  | u :: s' => if is_white_space u then trimStart s' else s
  | [] => []
  end.

Definition trimEnd (s : jsstring) : jsstring := rev (trimStart (rev s)).
Definition trim (s : jsstring) : jsstring := trimEnd (trimStart s).

(** A JavaScript number that may be NaN.  Every comparison with NaN is
    false, and arithmetic on NaN yields NaN. *)
Inductive num := Num (z : Z) | NaN.

Definition sub (a b : num) : num :=
  match a, b with Num x, Num y => Num (x - y) | _, _ => NaN end.

Definition gt (a b : num) : bool :=
  match a, b with Num x, Num y => (y <? x)%Z | _, _ => false end.

(** The result of running a piece of code: a value, or a thrown
    exception (a rejected promise for an async function). *)
Inductive outcome (A : Type) := Ok (a : A) | Throw (e : string).
Arguments Ok {A} a.
Arguments Throw {A} e.

End JS.

(** ** database.js: the metadata store

    A table is the list of its rows in rowid order; a full scan visits
    them in that order.  A statement that violates a constraint throws. *)

Module Database.
Import JS.

(** *** friends *)

Record friend := {
  wxid : jsstring;                 (* TEXT PRIMARY KEY *)
  nickname : option jsstring;      (* TEXT *)
  remark_name : option jsstring;   (* TEXT *)
  permission : jsstring;           (* TEXT NOT NULL DEFAULT 'normal' CHECK(...) *)
  added_at : jsstring;             (* DATETIME DEFAULT CURRENT_TIMESTAMP *)
  added_by : option jsstring;      (* TEXT *)
  notes : option jsstring          (* TEXT *)
}.

(** The second argument of [friendsDB.upsert]; [None] is a property that
    is absent ([undefined]), which the driver binds as NULL. *)
Record upsert_fields := {
  u_nickname : option jsstring;
  u_remark_name : option jsstring;
  u_permission : option jsstring;
  u_added_by : option jsstring;
  u_notes : option jsstring
}.

Definition eqb_str (a b : jsstring) : bool := bool_decide (a = b).

(** Text comparison, code unit by code unit. *)
Fixpoint str_ltb (a b : jsstring) : bool :=
  match a, b with
  | _, [] => false
  | [], _ :: _ => true
  | x :: a', y :: b' => (x <? y)%N || (x =? y)%N && str_ltb a' b'
  end.

(** CHECK(permission IN ('admin','trusted','normal','blocked')) *)
Definition permission_check (p : jsstring) : bool :=
  eqb_str p (utf16 "admin") || eqb_str p (utf16 "trusted")
  || eqb_str p (utf16 "normal") || eqb_str p (utf16 "blocked").

(** SQL [COALESCE(x, y)] on a nullable column, and on a NOT NULL one. *)
Definition COALESCE {A} (x y : option A) : option A :=
  match x with Some _ => x | None => y end.

Definition COALESCE1 {A} (x : option A) (y : A) : A :=
  match x with Some v => v | None => y end.

(** [SELECT * FROM friends WHERE wxid = ?] *)
Definition get (t : list friend) (w : jsstring) : option friend :=
  find (fun r => eqb_str (wxid r) w) t.

(** The row [INSERT INTO friends (...) VALUES (?, ?, ?, ?, ?, ?)] would
    add; the fourth bound value is [permission || 'normal']. *)
Definition excluded (ts w : jsstring) (f : upsert_fields) : friend :=
  {| wxid := w;
     nickname := u_nickname f;
     remark_name := u_remark_name f;
     permission := or_opt (u_permission f) (utf16 "normal");
     added_at := ts;
     added_by := u_added_by f;
     notes := u_notes f |}.

(** [ON CONFLICT(wxid) DO UPDATE SET ...] applied to the stored row. *)
Definition do_update (old ex : friend) : friend :=
  {| wxid := wxid old;
     nickname := COALESCE (nickname ex) (nickname old);
     remark_name := COALESCE (remark_name ex) (remark_name old);
     permission := COALESCE1 (Some (permission ex)) (permission old);
     added_at := added_at old;
     added_by := added_by old;
     notes := COALESCE (notes ex) (notes old) |}.

Fixpoint update_row (w : jsstring) (g : friend -> friend) (t : list friend)
  : list friend :=
  match t with
  | [] => []
  | r :: t' => if eqb_str (wxid r) w then g r :: t' else r :: update_row w g t'
  end.

(** [friendsDB.upsert(wxid, fields)]; [ts] is CURRENT_TIMESTAMP.  The
    CHECK constraint is tested on the row to insert before the conflict
    on the primary key is resolved. *)
Definition upsert (ts : jsstring) (t : list friend) (w : jsstring)
    (f : upsert_fields) : outcome (list friend) :=
  let ex := excluded ts w f in
  if negb (permission_check (permission ex)) then Throw "SQLITE_CONSTRAINT_CHECK"
  else match get t w with
       | None => Ok (t ++ [ex])
       | Some _ => Ok (update_row w (fun old => do_update old ex) t)
       end.

(** [friendsDB.getPermission(wxid)]: [row?.permission || null] *)
Definition getPermission (t : list friend) (w : jsstring) : option jsstring :=
  match get t w with
  | Some r => match permission r with [] => None | p => Some p end
  | None => None
  end.

(** [friendsDB.setPermission(wxid, permission)] *)
Definition setPermission (t : list friend) (w p : jsstring)
  : outcome (list friend) :=
  match get t w with
  | None => Ok t
  | Some _ =>
      if permission_check p
      then Ok (update_row w (fun old =>
                 {| wxid := wxid old; nickname := nickname old;
                    remark_name := remark_name old; permission := p;
                    added_at := added_at old; added_by := added_by old;
                    notes := notes old |}) t)
      else Throw "SQLITE_CONSTRAINT_CHECK"
  end.

(** [friendsDB.listAll()]: [ORDER BY added_at DESC], equal values in
    rowid order. *)
Fixpoint insert_friend (r : friend) (l : list friend) : list friend :=
  match l with
  | [] => [r]
  | x :: l' => if str_ltb (added_at r) (added_at x) then x :: insert_friend r l'
               else r :: l
  end.

Definition listAll (t : list friend) : list friend := fold_right insert_friend [] t.

(** *** The LIKE operator

    [%] matches any sequence of characters, [_] any single character;
    every other pattern character matches itself, ASCII letters without
    regard to case.  No ESCAPE character is in effect.  Characters are
    code points. *)

Definition PERCENT : N := 37.
Definition UNDERSCORE : N := 95.

Definition to_lower (c : N) : N :=
  if ((65 <=? c) && (c <=? 90))%N then (c + 32)%N else c.

Definition like_char (p c : N) : bool := (to_lower p =? to_lower c)%N.

(** [any_suffix f s]: [f] holds of some suffix of [s]. *)
Fixpoint any_suffix (f : list N -> bool) (s : list N) : bool :=
  f s || match s with [] => false | _ :: s' => any_suffix f s' end.

Fixpoint like (pat s : list N) : bool :=
  match pat with
  | [] => match s with [] => true | _ => false end
  | p :: pat' =>
      if (p =? PERCENT)%N then any_suffix (like pat') s
      else match s with
           | [] => false
           | c :: s' => ((p =? UNDERSCORE)%N || like_char p c) && like pat' s'
           end
  end.

(** [x LIKE pat] on a nullable column: NULL is not a match. *)
Definition LIKE (x : option jsstring) (pat : jsstring) : bool :=
  match x with
  | Some s => like (code_points pat) (code_points s)
  | None => false
  end.

(** [friendsDB.findByNickname(nickname)] *)
Definition findByNickname (t : list friend) (q : jsstring) : list friend :=
  let pat := [PERCENT] ++ q ++ [PERCENT] in
  List.filter (fun r => LIKE (nickname r) pat || LIKE (remark_name r) pat) t.

(** *** rate_limits

    [window_start] holds [minuteWindow.toISOString()], the current time
    with seconds and milliseconds cleared.  For the years 0000 to 9999
    these strings have a fixed width, so two of them are equal exactly
    when they name the same minute, and they compare as the minutes do;
    a row is represented by the number of its minute since the epoch.  The day prefix
    [now.toISOString().split('T')[0]] is represented by the number of the
    day, and [window_start >= dayWindow] holds exactly when the row's
    minute lies on that day or a later one. *)

Record rate_row := {
  r_wxid : jsstring;
  window_start : Z;      (* minute since the epoch *)
  request_count : Z      (* INTEGER DEFAULT 1 *)
}.

Record rate_result := { allowed : bool; reason : option jsstring }.

Definition MINUTE_MS : Z := 60000.
Definition DAY_MS : Z := 86400000.
Definition MINUTES_PER_DAY : Z := 1440.

Definition minuteKey (now : Z) : Z := (now / MINUTE_MS)%Z.
Definition dayWindow (now : Z) : Z := (now / DAY_MS)%Z.

Definition TOO_FREQUENT : jsstring := utf16 "请求过于频繁，请稍后再试".
Definition DAY_USED_UP : jsstring := utf16 "今日请求次数已用完".

(** [SELECT request_count FROM rate_limits WHERE wxid = ? AND window_start = ?] *)
Definition minuteRow (t : list rate_row) (w : jsstring) (k : Z) : option rate_row :=
  find (fun r => eqb_str (r_wxid r) w && (window_start r =? k)%Z) t.

(** [SELECT COALESCE(SUM(request_count), 0) ... WHERE wxid = ? AND window_start >= ?] *)
Definition dayCount (t : list rate_row) (w : jsstring) (d : Z) : Z :=
  fold_right Z.add 0%Z
    (map request_count
       (List.filter (fun r => eqb_str (r_wxid r) w
                              && (d <=? window_start r / MINUTES_PER_DAY)%Z) t)).

(** [INSERT ... VALUES (?, ?, 1) ON CONFLICT(wxid, window_start) DO UPDATE
    SET request_count = request_count + 1] *)
Fixpoint increment (t : list rate_row) (w : jsstring) (k : Z) : list rate_row :=
  match t with
  | [] => [{| r_wxid := w; window_start := k; request_count := 1 |}]
  | r :: t' =>
      if eqb_str (r_wxid r) w && (window_start r =? k)%Z
      then {| r_wxid := r_wxid r; window_start := window_start r;
              request_count := (request_count r + 1)%Z |} :: t'
      else r :: increment t' w k
  end.

(** [rateLimitDB.checkAndIncrement(wxid, maxPerMinute, maxPerDay)] at
    time [now] (milliseconds since the epoch). *)
Definition checkAndIncrement (now : Z) (t : list rate_row) (w : jsstring)
    (maxPerMinute maxPerDay : Z) : rate_result * list rate_row :=
  let k := minuteKey now in
  match minuteRow t w k with
  | Some r =>
      if (maxPerMinute <=? request_count r)%Z
      then ({| allowed := false; reason := Some TOO_FREQUENT |}, t)
      else if (maxPerDay <=? dayCount t w (dayWindow now))%Z
      then ({| allowed := false; reason := Some DAY_USED_UP |}, t)
      else ({| allowed := true; reason := None |}, increment t w k)
  | None =>
      if (maxPerDay <=? dayCount t w (dayWindow now))%Z
      then ({| allowed := false; reason := Some DAY_USED_UP |}, t)
      else ({| allowed := true; reason := None |}, increment t w k)
  end.

(** *** sessions *)

Record session := {
  id : jsstring;                       (* TEXT PRIMARY KEY *)
  s_wxid : jsstring;                   (* TEXT NOT NULL REFERENCES friends(wxid) *)
  claude_session : option jsstring;    (* TEXT *)
  created_at : jsstring;               (* DATETIME DEFAULT CURRENT_TIMESTAMP *)
  last_active : jsstring;              (* DATETIME DEFAULT CURRENT_TIMESTAMP *)
  message_count : Z                    (* INTEGER DEFAULT 0 *)
}.

(** [SELECT * FROM sessions WHERE wxid = ? ORDER BY last_active DESC LIMIT 1].
    SQL leaves open which of several rows with the same [last_active]
    comes first; the model returns the one with the lowest rowid. *)
Definition getActive (t : list session) (w : jsstring) : option session :=
  fold_left
    (fun best r =>
       if eqb_str (s_wxid r) w then
         match best with
         | None => Some r
         | Some b => if str_ltb (last_active b) (last_active r) then Some r else best
         end
       else best)
    t None.

(** [sessionsDB.create(id, wxid, claudeSession)]; [fs] is the friends
    table the foreign key refers to (foreign_keys = ON). *)
Definition create (ts : jsstring) (fs : list friend) (t : list session)
    (i w : jsstring) (cs : option jsstring) : outcome (list session) :=
  if existsb (fun r => eqb_str (id r) i) t then Throw "SQLITE_CONSTRAINT_PRIMARYKEY"
  else match get fs w with
       | None => Throw "SQLITE_CONSTRAINT_FOREIGNKEY"
       | Some _ =>
           Ok (t ++ [{| id := i; s_wxid := w; claude_session := cs;
                        created_at := ts; last_active := ts; message_count := 0 |}])
       end.

(** [sessionsDB.touch(id)] *)
Definition touch (ts : jsstring) (t : list session) (i : jsstring) : list session :=
  map (fun r =>
         if eqb_str (id r) i
         then {| id := id r; s_wxid := s_wxid r; claude_session := claude_session r;
                 created_at := created_at r; last_active := ts;
                 message_count := (message_count r + 1)%Z |}
         else r) t.

(** [sessionsDB.setClaudeSession(id, claudeSession)] *)
Definition setClaudeSession (t : list session) (i cs : jsstring) : list session :=
  map (fun r =>
         if eqb_str (id r) i
         then {| id := id r; s_wxid := s_wxid r; claude_session := Some cs;
                 created_at := created_at r; last_active := last_active r;
                 message_count := message_count r |}
         else r) t.

(** [sessionsDB.clearUser(wxid)] *)
Definition clearUser (t : list session) (w : jsstring) : list session :=
  List.filter (fun r => negb (eqb_str (s_wxid r) w)) t.

(** [friendsDB.remove(wxid)]; [ss] is the sessions table, whose [wxid]
    column refers to the friends (foreign_keys = ON, no ON DELETE
    action): the row of a friend who still has a session cannot be
    deleted. *)
Definition remove (t : list friend) (ss : list session) (w : jsstring)
  : outcome (list friend) :=
  if existsb (fun r => eqb_str (wxid r) w) t
     && existsb (fun s => eqb_str (s_wxid s) w) ss
  then Throw "SQLITE_CONSTRAINT_FOREIGNKEY"
  else Ok (filter (fun r => wxid r ≠ w) t).

(** *** audit_log *)

Inductive direction := DirIn | DirOut.

Record audit := {
  a_wxid : jsstring;
  a_nickname : jsstring;
  a_direction : direction;             (* CHECK(direction IN ('in','out')) *)
  a_message : jsstring;
  a_claude_session : option jsstring;
  a_timestamp : jsstring
}.

(** [auditDB.log(wxid, nickname, direction, message)] *)
Definition log (ts : jsstring) (t : list audit) (w n : jsstring) (d : direction)
    (m : jsstring) : list audit :=
  t ++ [{| a_wxid := w; a_nickname := n; a_direction := d; a_message := m;
           a_claude_session := None; a_timestamp := ts |}].

(** [ORDER BY timestamp DESC]: latest first, equal timestamps in rowid
    order (SQL leaves their order open). *)
Fixpoint insert_desc (r : audit) (l : list audit) : list audit :=
  match l with
  | [] => [r]
  | x :: l' => if str_ltb (a_timestamp r) (a_timestamp x) then x :: insert_desc r l'
               else r :: l
  end.

Definition order_desc (l : list audit) : list audit := fold_right insert_desc [] l.

(** [auditDB.getByUser(wxid, limit)] and [auditDB.getRecent(limit)] *)
Definition getByUser (t : list audit) (w : jsstring) (limit : nat) : list audit :=
  firstn limit (order_desc (List.filter (fun r => eqb_str (a_wxid r) w) t)).

Definition getRecent (t : list audit) (limit : nat) : list audit :=
  firstn limit (order_desc t).

End Database.

(** ** config.js *)

Module Config.
Import JS.

(** The parsed config.yaml; [None] is a key that is absent. *)
Record raw_config := {
  raw_admin_wxid : option jsstring;
  raw_cli_path : option jsstring;
  raw_timeout : option Z;
  raw_image : option jsstring;
  raw_container_prefix : option jsstring;
  raw_data_dir : option jsstring;
  raw_memory : option jsstring;
  raw_admin_memory : option jsstring;
  raw_cpus : option N;
  raw_admin_cpus : option N;
  raw_pids : option N;
  raw_tmp_size : option jsstring;
  raw_network_admin : option jsstring;
  raw_network_trusted : option jsstring;
  raw_network_normal : option jsstring;
  raw_notify_unauthorized : option bool;
  raw_unauthorized_message : option jsstring;
  raw_default_level : option jsstring;
  raw_expire_minutes : option Z;
  raw_max_history : option Z;
  raw_max_per_minute : option Z;
  raw_max_per_day : option Z;
  raw_blocked_patterns : option (list jsstring);
  raw_trusted_file_access : option bool;
  raw_log_level : option jsstring;
  raw_log_file : option jsstring;
  raw_log_message_content : option bool
}.

(** The object [loadConfig] returns, its nested keys flattened:
    [docker.limits.memory] is [memory], [docker.network.admin] is
    [network_admin], and so on.  CPU and PID counts are whole numbers. *)
Record config := {
  admin_wxid : jsstring;
  cli_path : jsstring;
  timeout : Z;
  image : jsstring;
  container_prefix : jsstring;
  data_dir : jsstring;
  memory : jsstring;
  admin_memory : jsstring;
  cpus : N;
  admin_cpus : N;
  pids : N;
  tmp_size : jsstring;
  network_admin : jsstring;
  network_trusted : jsstring;
  network_normal : jsstring;
  notify_unauthorized : bool;
  unauthorized_message : jsstring;
  default_level : jsstring;
  expire_minutes : Z;
  max_history : Z;
  max_per_minute : Z;
  max_per_day : Z;
  blocked_patterns : list jsstring;
  trusted_file_access : bool;
  log_level : jsstring;
  log_file : jsstring;
  log_message_content : bool
}.

(** [x || d] on numbers: 0 and an absent value are falsy. *)
Definition or_Z (x : option Z) (d : Z) : Z :=
  match x with Some 0%Z | None => d | Some z => z end.

Definition or_N (x : option N) (d : N) : N :=
  match x with Some 0%N | None => d | Some n => n end.

(** [x || []] *)
Definition or_list {A} (x : option (list A)) : list A :=
  match x with Some l => l | None => [] end.

(** [x ?? d] *)
Definition nullish {A} (x : option A) (d : A) : A :=
  match x with Some v => v | None => d end.

Definition loadConfig (c : raw_config) : config :=
  {| admin_wxid := or_opt (raw_admin_wxid c) [];
     cli_path := or_opt (raw_cli_path c) (utf16 "claude");
     timeout := or_Z (raw_timeout c) 120;
     image := or_opt (raw_image c) (utf16 "claude-sandbox:latest");
     container_prefix := or_opt (raw_container_prefix c) (utf16 "claude-friend-");
     data_dir := or_opt (raw_data_dir c) (utf16 "~/claude-bridge-data");
     memory := or_opt (raw_memory c) (utf16 "512m");
     admin_memory := or_opt (raw_admin_memory c) (utf16 "2g");
     cpus := or_N (raw_cpus c) 1;
     admin_cpus := or_N (raw_admin_cpus c) 2;
     pids := or_N (raw_pids c) 100;
     tmp_size := or_opt (raw_tmp_size c) (utf16 "100m");
     network_admin := or_opt (raw_network_admin c) (utf16 "bridge");
     network_trusted := or_opt (raw_network_trusted c) (utf16 "claude-limited");
     network_normal := or_opt (raw_network_normal c) (utf16 "none");
     notify_unauthorized := nullish (raw_notify_unauthorized c) true;
     unauthorized_message :=
       or_opt (raw_unauthorized_message c) (utf16 "抱歉，你还没有被授权使用此服务。");
     default_level := or_opt (raw_default_level c) (utf16 "normal");
     expire_minutes := or_Z (raw_expire_minutes c) 60;
     max_history := or_Z (raw_max_history c) 50;
     max_per_minute := or_Z (raw_max_per_minute c) 10;
     max_per_day := or_Z (raw_max_per_day c) 200;
     blocked_patterns := or_list (raw_blocked_patterns c);
     trusted_file_access := nullish (raw_trusted_file_access c) true;
     log_level := or_opt (raw_log_level c) (utf16 "info");
     log_file := or_opt (raw_log_file c) (utf16 "logs/bridge.log");
     log_message_content := nullish (raw_log_message_content c) true |}.

(** A config.yaml that sets no key. *)
Definition empty_yaml : raw_config :=
  {| raw_admin_wxid := None; raw_cli_path := None; raw_timeout := None;
     raw_image := None; raw_container_prefix := None; raw_data_dir := None;
     raw_memory := None; raw_admin_memory := None; raw_cpus := None;
     raw_admin_cpus := None; raw_pids := None; raw_tmp_size := None;
     raw_network_admin := None; raw_network_trusted := None;
     raw_network_normal := None; raw_notify_unauthorized := None;
     raw_unauthorized_message := None; raw_default_level := None;
     raw_expire_minutes := None; raw_max_history := None;
     raw_max_per_minute := None; raw_max_per_day := None;
     raw_blocked_patterns := None; raw_trusted_file_access := None;
     raw_log_level := None; raw_log_file := None;
     raw_log_message_content := None |}.

End Config.

(** ** The process state and its surroundings

    Everything the modules mutate is gathered in one [world]; what they
    call outside the process (the docker CLI, the file system, the UUID
    generator, the regular-expression engine, the clock) answers through
    an [env], whose answers may depend on everything that was invoked
    before.  Each invocation is recorded in the [trace]. *)

Module World.
Import JS.

Inductive event :=
| Docker (args : list jsstring)     (* execFile('docker', args) *)
| Spawn (args : list jsstring)      (* spawn('docker', args) *)
| Mkdir (path : jsstring)           (* mkdirSync(path, { recursive: true }) *)
| Uuid                              (* uuidv4() *)
| Sql (statement : string).         (* a statement run on the metadata store *)

(** How a spawned process ends for [execClaude]: the 'close' event with
    the exit code (any value other than 0 also stands for the [null] of
    a process that a signal ended) and what was written to stdout and
    stderr, the 'error' event, or the timer firing first.  [spawn] may
    also throw before it returns a process (every failure to start one
    that it does not report through the 'error' event). *)
Inductive spawn_result :=
| Close (code : Z) (stdout stderr : jsstring)
| SpawnError (message : string)
| TimerFired
| SpawnThrows (message : string).

(** The fields of the line [docker stats] prints, after [JSON.parse]. *)
Record stats := { cpu : jsstring; mem : jsstring; net : jsstring; stat_pids : jsstring }.

Record env := {
  execFile : list event -> list jsstring -> outcome jsstring;
  spawn : list event -> list jsstring -> spawn_result;
  mkdirSync : list event -> jsstring -> outcome unit;
  uuidv4 : list event -> jsstring;
  (** [new RegExp(pattern, 'i').test(message)]; a malformed pattern throws *)
  RegExp_test : jsstring -> jsstring -> outcome bool;
  (** [new Date(s).getTime()] *)
  Date_getTime : jsstring -> num;
  (** CURRENT_TIMESTAMP at a time given in milliseconds since the epoch *)
  CURRENT_TIMESTAMP : Z -> jsstring;
  JSON_parse_stats : jsstring -> outcome stats;
  (** [process.env] *)
  process_env : gmap string jsstring
}.

Record world := {
  friends : list Database.friend;
  sessions : list Database.session;
  audit_log : list Database.audit;
  rate_limits : list Database.rate_row;
  activeTasks : gset jsstring;      (* ClaudeExecutor's [activeTasks] *)
  now : Z;                          (* Date.now() *)
  trace : list event;
  (** A handler runs until it awaits a child process; while it waits,
      the event loop runs the handlers of other messages, which find the
      in-flight set as it is at that moment.  [awaits] notes this set at
      each await so far, in order.  It is a record of the run, like the
      trace: no function of the program reads it. *)
  awaits : list (gset jsstring)
}.

(** A computation that reads and writes the world and may throw.  What
    it wrote before throwing stays written. *)
Definition M (A : Type) : Type := world -> outcome A * world.

Definition ret {A} (a : A) : M A := fun w => (Ok a, w).

Definition bind {A B} (m : M A) (k : A -> M B) : M B :=
  fun w => match m w with
           | (Ok a, w') => k a w'
           | (Throw e, w') => (Throw e, w')
           end.

Definition throw {A} (e : string) : M A := fun w => (Throw e, w).

(** [try { m } catch (error) { h error }] *)
Definition try_catch {A} (m : M A) (h : string -> M A) : M A :=
  fun w => match m w with
           | (Ok a, w') => (Ok a, w')
           | (Throw e, w') => h e w'
           end.

(** [try { m } finally { f }]: [f] runs on both exits; the result of [m]
    stands unless [f] itself throws. *)
Definition try_finally {A} (m : M A) (f : M unit) : M A :=
  fun w => match m w with
           | (r, w') => match f w' with
                        | (Ok _, w'') => (r, w'')
                        | (Throw e, w'') => (Throw e, w'')
                        end
           end.

Definition lift {A} (o : outcome A) : M A := fun w => (o, w).

Definition gets {A} (f : world -> A) : M A := fun w => (Ok (f w), w).

Definition modify (f : world -> world) : M unit := fun w => (Ok tt, f w).

(** Record updates: the world with one field replaced. *)
Definition with_friends (t : list Database.friend) (w : world) : world :=
  {| friends := t; sessions := sessions w; audit_log := audit_log w;
     rate_limits := rate_limits w; activeTasks := activeTasks w; now := now w;
     trace := trace w; awaits := awaits w |}.

Definition with_sessions (t : list Database.session) (w : world) : world :=
  {| friends := friends w; sessions := t; audit_log := audit_log w;
     rate_limits := rate_limits w; activeTasks := activeTasks w; now := now w;
     trace := trace w; awaits := awaits w |}.

Definition with_audit_log (t : list Database.audit) (w : world) : world :=
  {| friends := friends w; sessions := sessions w; audit_log := t;
     rate_limits := rate_limits w; activeTasks := activeTasks w; now := now w;
     trace := trace w; awaits := awaits w |}.

Definition with_rate_limits (t : list Database.rate_row) (w : world) : world :=
  {| friends := friends w; sessions := sessions w; audit_log := audit_log w;
     rate_limits := t; activeTasks := activeTasks w; now := now w;
     trace := trace w; awaits := awaits w |}.

Definition with_activeTasks (s : gset jsstring) (w : world) : world :=
  {| friends := friends w; sessions := sessions w; audit_log := audit_log w;
     rate_limits := rate_limits w; activeTasks := s; now := now w;
     trace := trace w; awaits := awaits w |}.

Definition with_trace (tr : list event) (w : world) : world :=
  {| friends := friends w; sessions := sessions w; audit_log := audit_log w;
     rate_limits := rate_limits w; activeTasks := activeTasks w; now := now w;
     trace := tr; awaits := awaits w |}.

Definition with_awaits (a : list (gset jsstring)) (w : world) : world :=
  {| friends := friends w; sessions := sessions w; audit_log := audit_log w;
     rate_limits := rate_limits w; activeTasks := activeTasks w; now := now w;
     trace := trace w; awaits := a |}.

Definition record (e : event) : M unit :=
  modify (fun w => with_trace (trace w ++ [e]) w).

(** The world after a child process was started and awaited: the
    invocation is in the trace, and the in-flight set as it is at the
    await is noted. *)
Definition awaited (e : event) (w : world) : world :=
  with_awaits (awaits w ++ [activeTasks w]) (with_trace (trace w ++ [e]) w).

Definition set_friends (t : list Database.friend) : M unit := modify (with_friends t).
Definition set_sessions (t : list Database.session) : M unit := modify (with_sessions t).
Definition set_audit_log (t : list Database.audit) : M unit := modify (with_audit_log t).
Definition set_rate_limits (t : list Database.rate_row) : M unit :=
  modify (with_rate_limits t).
Definition set_activeTasks (s : gset jsstring) : M unit := modify (with_activeTasks s).

Declare Scope js_scope.
Delimit Scope js_scope with js.
Notation "x <- m ;; k" := (bind m (fun x => k))
  (at level 100, m at next level, right associativity) : js_scope.
Notation "m ;; k" := (bind m (fun _ => k))
  (at level 100, right associativity) : js_scope.

End World.

(** ** docker-manager.js *)

Module DockerManager.
Import JS World Config.
Local Open Scope js_scope.

(** [String(n)] for a whole number *)
Definition String_of_N (n : N) : jsstring :=
  utf16 (DecimalString.NilZero.string_of_uint (N.to_uint n)).

(** [s.replace(c, by)] for a one-character pattern: the first occurrence. *)
Fixpoint replace_first (c : N) (by_ : jsstring) (s : jsstring) : jsstring :=
  match s with
  | [] => []
  | x :: s' => if (x =? c)%N then by_ ++ s' else x :: replace_first c by_ s'
  end.

(** [path.join(a, b)] for segments that need no normalisation *)
Definition join (a b : jsstring) : jsstring := a ++ utf16 "/" ++ b.

(** The character class [a-zA-Z0-9_.-] *)
Definition docker_name_char (u : N) : bool :=
  ((97 <=? u) && (u <=? 122) || (65 <=? u) && (u <=? 90)
   || (48 <=? u) && (u <=? 57) || (u =? 95) || (u =? 46) || (u =? 45))%N.

(** [arr.indexOf(x)] *)
Fixpoint indexOf_from (l : list jsstring) (x : jsstring) (i : Z) : Z :=
  match l with
  | [] => (-1)%Z
  | y :: l' => if Database.eqb_str y x then i else indexOf_from l' x (i + 1)
  end.

Definition indexOf (l : list jsstring) (x : jsstring) : Z := indexOf_from l x 0.

(** [arr[i] = v] for [0 <= i <= arr.length]; writing at [arr.length]
    extends the array by one element. *)
Definition assign (l : list jsstring) (i : Z) (v : jsstring) : list jsstring :=
  if (i <? Z.of_nat (List.length l))%Z then <[Z.to_nat i := v]> l else l ++ [v].

(** [s.split(sep)] for a one-character separator *)
Fixpoint split (sep : N) (s : jsstring) : list jsstring :=
  match s with
  | [] => [[]]
  | x :: s' =>
      if (x =? sep)%N then [] :: split sep s'
      else match split sep s' with
           | p :: ps => (x :: p) :: ps
           | [] => [[x]]
           end
  end.

(** A text that holds the character U+0000, which no argument of a child
    process may hold. *)
Definition has_nul (s : jsstring) : bool := existsb (N.eqb 0) s.

(** A literal that contains double quotes, written with apostrophes. *)
Definition double_quoted (s : jsstring) : jsstring :=
  map (fun u => if (u =? 39)%N then 34%N else u) s.

(** What [execClaude] resolves to; [stderr] is absent on some exits. *)
Record exec_result := { ok : bool; output : jsstring; stderr : option jsstring }.

(** The [options] argument of [execClaude] *)
Record exec_options := {
  claudeSession : option jsstring;
  opt_permission : jsstring;
  opt_timeout : Z
}.

(** An entry of [listContainers]; all but the name may be [undefined]. *)
Record container := {
  c_name : jsstring;
  c_status : option jsstring;
  c_wxid : option jsstring;
  c_permission : option jsstring
}.

(** [labelMap[k]] after the [forEach] over the labels: the last label
    with key [k] decides, and its value is absent when it has no [=]. *)
Definition label_value (labels : list jsstring) (k : jsstring) : option jsstring :=
  fold_left
    (fun acc l => match split 61 l with
                  | k' :: rest => if Database.eqb_str k' k then head rest else acc
                  | [] => acc
                  end)
    labels None.

Definition parse_container (line : jsstring) : container :=
  let cols := split 9 line in
  let labels := match cols !! 2%nat with
                | Some ls => split 44 ls
                | None => []
                end in
  {| c_name := match cols with n :: _ => n | [] => [] end;
     c_status := cols !! 1%nat;
     c_wxid := label_value labels (utf16 "wxid");
     c_permission := label_value labels (utf16 "permission") |}.

Section WithConfig.
Variable E : env.
Variable cfg : config.

(** [process.env.X || ''] *)
Definition env_or_empty (x : string) : jsstring :=
  match process_env E !! x with Some v => v | None => [] end.

(** The fields the constructor sets. *)
Definition containerPrefix : jsstring := container_prefix cfg.
Definition imageName : jsstring := image cfg.
Definition dataDir : jsstring :=
  replace_first 126 (match process_env E !! "HOME" with
                     | Some h => h
                     | None => utf16 "undefined"
                     end) (data_dir cfg).

Definition containerName (wxid : jsstring) : jsstring :=
  containerPrefix ++ map (fun u => if docker_name_char u then u else 95%N) wxid.

(** The external calls: each is recorded, then answered by the
    environment from the invocations that came before.  [docker] stands
    for [execFileAsync('docker', args)], which every caller awaits;
    [mkdirSync] is synchronous. *)
Definition docker (args : list jsstring) : M jsstring :=
  fun w => (execFile E (trace w) args, awaited (Docker args) w).

Definition mkdir (path : jsstring) : M unit :=
  fun w => let r := mkdirSync E (trace w) path in
           match record (Mkdir path) w with (_, w') => (r, w') end.

Definition userDataDir (wxid : jsstring) : M jsstring :=
  let dir := join dataDir wxid in
  mkdir dir ;; ret dir.

Definition getNetwork (permission : jsstring) : jsstring :=
  if Database.eqb_str permission (utf16 "admin")
  then or_str (network_admin cfg) (utf16 "bridge")
  else if Database.eqb_str permission (utf16 "trusted")
  then or_str (network_trusted cfg) (utf16 "claude-limited")
  else or_str (network_normal cfg) (utf16 "none").

(** The argument array [createContainer] hands to [docker], for the
    user directory [dir]. *)
Definition create_args (wxid permission dir : jsstring) : list jsstring :=
  let name := containerName wxid in
  let args :=
    [ utf16 "create";
      utf16 "--name"; name;
      utf16 "--memory"; memory cfg;
      utf16 "--cpus"; String_of_N (cpus cfg);
      utf16 "--pids-limit"; String_of_N (pids cfg);
      utf16 "--tmpfs"; utf16 "/tmp:size=" ++ tmp_size cfg;
      utf16 "--read-only";
      utf16 "--security-opt"; utf16 "no-new-privileges";
      utf16 "--cap-drop"; utf16 "ALL";
      utf16 "--network"; getNetwork permission;
      utf16 "-v"; dir ++ utf16 "/workspace:/home/sandbox/workspace";
      utf16 "-v"; dir ++ utf16 "/claude-config:/home/sandbox/.claude";
      utf16 "-e"; utf16 "WXID=" ++ wxid;
      utf16 "-e"; utf16 "ANTHROPIC_API_KEY=" ++ env_or_empty "ANTHROPIC_API_KEY";
      utf16 "--label"; utf16 "app=wechat-claude-bridge";
      utf16 "--label"; utf16 "wxid=" ++ wxid;
      utf16 "--label"; utf16 "permission=" ++ permission;
      utf16 "-d";
      utf16 "--restart"; utf16 "unless-stopped";
      imageName;
      utf16 "tail"; utf16 "-f"; utf16 "/dev/null" ] in
  if Database.eqb_str permission (utf16 "admin") then
    let idx := (indexOf args (utf16 "--memory") + 1)%Z in
    let args1 := assign args idx (or_str (admin_memory cfg) (utf16 "2g")) in
    let cpuIdx := (indexOf args1 (utf16 "--cpus") + 1)%Z in
    assign args1 cpuIdx
      (String_of_N (match admin_cpus cfg with 0%N => 2%N | n => n end))
  else args.

Definition fixPermissions (wxid : jsstring) : M unit :=
  dir <- userDataDir wxid ;;
  mkdir (join dir (utf16 "workspace")) ;;
  mkdir (join dir (utf16 "claude-config")) ;;
  try_catch
    (docker [utf16 "exec"; utf16 "-u"; utf16 "root"; containerName wxid;
             utf16 "chown"; utf16 "-R"; utf16 "sandbox:sandbox";
             utf16 "/home/sandbox/workspace"; utf16 "/home/sandbox/.claude"] ;;
     ret tt)
    (fun _ => ret tt).

Definition createContainer (wxid permission : jsstring) : M unit :=
  dir <- userDataDir wxid ;;
  docker (create_args wxid permission dir) ;;
  fixPermissions wxid.

Definition containerExists (name : jsstring) : M bool :=
  try_catch (docker [utf16 "inspect"; name] ;; ret true) (fun _ => ret false).

Definition isRunning (name : jsstring) : M bool :=
  try_catch
    (stdout <- docker [utf16 "inspect"; utf16 "-f"; utf16 "{{.State.Running}}"; name] ;;
     ret (Database.eqb_str (trim stdout) (utf16 "true")))
    (fun _ => ret false).

Definition startContainer (name : jsstring) : M unit :=
  docker [utf16 "start"; name] ;; ret tt.

Definition ensureContainer (wxid permission : jsstring) : M jsstring :=
  let name := containerName wxid in
  exists_ <- containerExists name ;;
  (if exists_ : bool then ret tt else createContainer wxid permission) ;;
  running <- isRunning name ;;
  (if running : bool then ret tt else startContainer name) ;;
  ret name.

Definition stopContainer (wxid : jsstring) : M bool :=
  try_catch
    (docker [utf16 "stop"; utf16 "-t"; utf16 "10"; containerName wxid] ;; ret true)
    (fun _ => ret false).

Definition destroyContainer (wxid : jsstring) : M bool :=
  try_catch
    (docker [utf16 "rm"; utf16 "-f"; containerName wxid] ;; ret true)
    (fun _ => ret false).

Definition rebuild (wxid permission : jsstring) : M unit :=
  destroyContainer wxid ;;
  ensureContainer wxid permission ;;
  ret tt.

(** [execClaude(wxid, systemPrompt, message, options)].  The promise it
    returns has no reject path of its own, but [spawn] is called inside
    the executor of the promise, so the promise rejects when [spawn]
    throws.  [spawn] checks its arguments before it starts anything: an
    argument that holds a NUL character, then a [timeout] option that is
    not a whole number of at least 0 (here [timeout * 1000], with
    [timeout] a whole number). *)
Definition execClaude (wxid systemPrompt message : jsstring) (options : exec_options)
  : M exec_result :=
  let name := containerName wxid in
  let timeout := match opt_timeout options with
                 | 0%Z => Config.timeout cfg
                 | t => t
                 end in
  let dockerArgs :=
    [ utf16 "exec";
      utf16 "-u"; utf16 "sandbox";
      utf16 "-w"; utf16 "/home/sandbox/workspace";
      utf16 "-e"; utf16 "ANTHROPIC_API_KEY=" ++ env_or_empty "ANTHROPIC_API_KEY";
      name ] in
  let claudeArgs :=
    [ utf16 "claude"; utf16 "--print";
      utf16 "--output-format"; utf16 "text";
      utf16 "--system-prompt"; systemPrompt ]
    ++ match claudeSession options with
       | Some (u :: s) => [utf16 "--resume"; u :: s]
       | _ => []
       end
    ++ (if Database.eqb_str (opt_permission options) (utf16 "normal")
        then [utf16 "--allowedTools"; []] else [])
    ++ [message] in
  let fullArgs := dockerArgs ++ claudeArgs in
  fun w =>
    if existsb has_nul fullArgs then (Throw "ERR_INVALID_ARG_VALUE", w)
    else if (timeout * 1000 <? 0)%Z then (Throw "ERR_OUT_OF_RANGE", w)
    else
      match spawn E (trace w) fullArgs with
      | SpawnThrows e => (Throw e, awaited (Spawn fullArgs) w)
      | TimerFired =>
          (Ok {| ok := false; output := utf16 "⏰ 请求超时"; stderr := None |},
           awaited (Spawn fullArgs) w)
      | Close code stdout err =>
          (Ok (if (code =? 0)%Z
               then {| ok := true;
                       output := or_str (trim stdout) (utf16 "(Claude 没有返回内容)");
                       stderr := Some err |}
               else {| ok := false; output := utf16 "❌ 处理出错了，请稍后重试";
                       stderr := Some err |}),
           awaited (Spawn fullArgs) w)
      | SpawnError _ =>
          (Ok {| ok := false; output := utf16 "❌ 容器执行失败"; stderr := None |},
           awaited (Spawn fullArgs) w)
      end.

(** [execCommand(wxid, command, asRoot)] *)
Definition execCommand (wxid command : jsstring) (asRoot : bool) : M jsstring :=
  let args := [ utf16 "exec"; utf16 "-u";
                if asRoot then utf16 "root" else utf16 "sandbox";
                containerName wxid; utf16 "sh"; utf16 "-c"; command ] in
  try_catch (stdout <- docker args ;; ret (trim stdout))
            (fun err => ret (utf16 "Error: " ++ utf16 err)).

Definition getStats (wxid : jsstring) : M (option stats) :=
  try_catch
    (stdout <- docker
       [ utf16 "stats"; utf16 "--no-stream"; utf16 "--format";
         double_quoted
           (utf16 "{'cpu':'{{.CPUPerc}}','mem':'{{.MemUsage}}','net':'{{.NetIO}}','pids':'{{.PIDs}}'}");
         containerName wxid ] ;;
     st <- lift (JSON_parse_stats E (trim stdout)) ;;
     ret (Some st))
    (fun _ => ret None).

Definition getDiskUsage (wxid : jsstring) : M jsstring :=
  try_catch (execCommand wxid (utf16 "du -sh /home/sandbox/workspace") false)
            (fun _ => ret (utf16 "unknown")).

Definition listContainers : M (list container) :=
  try_catch
    (stdout <- docker
       [ utf16 "ps"; utf16 "-a";
         utf16 "--filter"; utf16 "label=app=wechat-claude-bridge";
         utf16 "--format";
         utf16 "{{.Names}}" ++ [9%N] ++ utf16 "{{.Status}}" ++ [9%N] ++ utf16 "{{.Labels}}" ] ;;
     ret (map parse_container
            (List.filter (fun l => match l with [] => false | _ => true end)
               (split 10 (trim stdout)))))
    (fun _ => ret []).

End WithConfig.
End DockerManager.

(** ** database.js, as the other modules call it

    Each exported method runs one statement on the tables of the world
    and is recorded in the trace. *)

Module Store.
Import JS World.
Local Open Scope js_scope.

Section WithEnv.
Variable E : env.

Definition timestamp : M jsstring := gets (fun w => CURRENT_TIMESTAMP E (now w)).

Definition friendsDB_get (wxid : jsstring) : M (option Database.friend) :=
  record (Sql "friends.get") ;;
  gets (fun w => Database.get (friends w) wxid).

Definition friendsDB_upsert (wxid : jsstring) (f : Database.upsert_fields) : M unit :=
  record (Sql "friends.upsert") ;;
  ts <- timestamp ;;
  t <- gets friends ;;
  t' <- lift (Database.upsert ts t wxid f) ;;
  set_friends t'.

Definition friendsDB_getPermission (wxid : jsstring) : M (option jsstring) :=
  record (Sql "friends.getPermission") ;;
  gets (fun w => Database.getPermission (friends w) wxid).

Definition friendsDB_setPermission (wxid permission : jsstring) : M unit :=
  record (Sql "friends.setPermission") ;;
  t <- gets friends ;;
  t' <- lift (Database.setPermission t wxid permission) ;;
  set_friends t'.

Definition friendsDB_findByNickname (q : jsstring) : M (list Database.friend) :=
  record (Sql "friends.findByNickname") ;;
  gets (fun w => Database.findByNickname (friends w) q).

Definition sessionsDB_getActive (wxid : jsstring) : M (option Database.session) :=
  record (Sql "sessions.getActive") ;;
  gets (fun w => Database.getActive (sessions w) wxid).

Definition sessionsDB_create (id wxid : jsstring) : M unit :=
  record (Sql "sessions.create") ;;
  ts <- timestamp ;;
  fs <- gets friends ;;
  t <- gets sessions ;;
  t' <- lift (Database.create ts fs t id wxid None) ;;
  set_sessions t'.

Definition sessionsDB_touch (id : jsstring) : M unit :=
  record (Sql "sessions.touch") ;;
  ts <- timestamp ;;
  t <- gets sessions ;;
  set_sessions (Database.touch ts t id).

Definition sessionsDB_setClaudeSession (id cs : jsstring) : M unit :=
  record (Sql "sessions.setClaudeSession") ;;
  t <- gets sessions ;;
  set_sessions (Database.setClaudeSession t id cs).

Definition sessionsDB_clearUser (wxid : jsstring) : M unit :=
  record (Sql "sessions.clearUser") ;;
  t <- gets sessions ;;
  set_sessions (Database.clearUser t wxid).

Definition auditDB_log (wxid nickname : jsstring) (d : Database.direction)
    (message : jsstring) : M unit :=
  record (Sql "audit.log") ;;
  ts <- timestamp ;;
  t <- gets audit_log ;;
  set_audit_log (Database.log ts t wxid nickname d message).

Definition auditDB_getByUser (wxid : jsstring) (limit : nat) : M (list Database.audit) :=
  record (Sql "audit.getByUser") ;;
  gets (fun w => Database.getByUser (audit_log w) wxid limit).

Definition auditDB_getRecent (limit : nat) : M (list Database.audit) :=
  record (Sql "audit.getRecent") ;;
  gets (fun w => Database.getRecent (audit_log w) limit).

Definition rateLimitDB_checkAndIncrement (wxid : jsstring) (maxPerMinute maxPerDay : Z)
  : M Database.rate_result :=
  record (Sql "rate_limits.checkAndIncrement") ;;
  n <- gets now ;;
  t <- gets rate_limits ;;
  let '(r, t') := Database.checkAndIncrement n t wxid maxPerMinute maxPerDay in
  set_rate_limits t' ;;
  ret r.

Definition friendsDB_listAll : M (list Database.friend) :=
  record (Sql "friends.listAll") ;;
  gets (fun w => Database.listAll (friends w)).

End WithEnv.
End Store.

(** ** claude-executor.js *)

Module ClaudeExecutor.
Import JS World Config.
Local Open Scope js_scope.

Definition BUSY_REPLY : jsstring := utf16 "⏳ 上一条消息还在处理中，请稍后再试...".
Definition EXECUTE_FAILED : jsstring := utf16 "❌ 处理消息时出错，请稍后重试".
Definition TRUNCATION_SUFFIX : jsstring := [10; 10]%N ++ utf16 "... (响应过长，已截断)".
Definition maxLen : Z := 4000.

(** The test of [getOrCreateSession]:
    [Date.now() - lastActive.getTime() > expireMs] *)
Definition expired (lastActive : num) (now expire_minutes : Z) : bool :=
  let expireMs := (expire_minutes * 60 * 1000)%Z in
  gt (sub (Num now) lastActive) (Num expireMs).

(** Step 6 of [execute]: cutting a response that is too long. *)
Definition truncate (response : jsstring) : jsstring :=
  if (maxLen <? JS.length response)%Z
  then substring response 0 maxLen ++ TRUNCATION_SUFFIX
  else response.

(** The regular expression [/session[:\s]+([a-f0-9-]+)/i] of
    [tryExtractSessionId]: the two character classes are disjoint, so a
    match at a position takes the whole run of each. *)
Definition is_sep (u : N) : bool := (u =? 58)%N || is_white_space u.
Definition is_id_char (u : N) : bool :=
  ((97 <=? u) && (u <=? 102) || (65 <=? u) && (u <=? 70)
   || (48 <=? u) && (u <=? 57) || (u =? 45))%N.

Fixpoint take_while (f : N -> bool) (s : jsstring) : jsstring :=
  match s with
  | u :: s' => if f u then u :: take_while f s' else []
  | [] => []
  end.

Fixpoint drop_while (f : N -> bool) (s : jsstring) : jsstring :=
  match s with
  | u :: s' => if f u then drop_while f s' else s
  | [] => []
  end.

Fixpoint starts_with_ci (p s : jsstring) : bool :=
  match p, s with
  | [], _ => true
  | _ :: _, [] => false
  | a :: p', b :: s' => (Database.to_lower a =? Database.to_lower b)%N && starts_with_ci p' s'
  end.

Definition session_id_at (s : jsstring) : option jsstring :=
  if starts_with_ci (utf16 "session") s then
    let rest := skipn 7 s in
    match take_while is_sep rest, take_while is_id_char (drop_while is_sep rest) with
    | _ :: _, u :: tok => Some (u :: tok)
    | _, _ => None
    end
  else None.

Fixpoint session_id_match (s : jsstring) : option jsstring :=
  match session_id_at s with
  | Some tok => Some tok
  | None => match s with [] => None | _ :: s' => session_id_match s' end
  end.

(** [this.activeTasks], a Map from wxid to [true], as the set of its keys. *)
Definition activeTasks_has (wxid : jsstring) : M bool :=
  gets (fun w => bool_decide (wxid ∈ activeTasks w)).

Definition activeTasks_set (wxid : jsstring) : M unit :=
  tasks <- gets activeTasks ;; set_activeTasks ({[wxid]} ∪ tasks).

Definition activeTasks_delete (wxid : jsstring) : M unit :=
  tasks <- gets activeTasks ;; set_activeTasks (tasks ∖ {[wxid]}).

Section WithConfig.
Variable E : env.
Variable cfg : config.

Definition getOrCreateSession (wxid : jsstring) : M (option Database.session) :=
  session <- Store.sessionsDB_getActive wxid ;;
  session <-
    match session with
    | Some s =>
        n <- gets now ;;
        if expired (Date_getTime E (Database.last_active s)) n (expire_minutes cfg)
        then Store.sessionsDB_clearUser wxid ;; ret None
        else ret (Some s)
    | None => ret None
    end ;;
  match session with
  | Some s => ret (Some s)
  | None =>
      tr <- gets trace ;;
      record Uuid ;;
      let sessionId := uuidv4 E tr in
      Store.sessionsDB_create E sessionId wxid ;;
      Store.sessionsDB_getActive wxid
  end.

Definition buildSystemPrompt (friendInfo : Database.friend) : jsstring :=
  let wxid := Database.wxid friendInfo in
  let permission := Database.permission friendInfo in
  let displayName :=
    or_opt (Database.remark_name friendInfo)
      (or_opt (Database.nickname friendInfo) wxid) in
  let permDesc :=
    if Database.eqb_str permission (utf16 "admin")
    then utf16 "管理员，拥有完全权限，可以执行任何代码和系统操作"
    else if Database.eqb_str permission (utf16 "trusted")
    then utf16 "信任用户，可以执行代码和文件操作（沙箱环境内）"
    else if Database.eqb_str permission (utf16 "normal")
    then utf16 "普通用户，仅限问答交流，不可执行代码或访问文件系统"
    else utf16 "未知" in
  let nl := [10%N] in
  utf16 "当前用户身份信息:" ++ nl
  ++ utf16 "- 微信ID: " ++ wxid ++ nl
  ++ utf16 "- 昵称: " ++ displayName ++ nl
  ++ utf16 "- 权限等级: " ++ permission ++ utf16 " (" ++ permDesc ++ utf16 ")" ++ nl
  ++ nl
  ++ utf16 "环境说明:" ++ nl
  ++ utf16 "- 你运行在此用户的专属 Docker 容器中" ++ nl
  ++ utf16 "- 工作目录: /home/sandbox/workspace（持久化存储）" ++ nl
  ++ utf16 "- 容器与其他用户完全隔离" ++ nl
  ++ (if Database.eqb_str permission (utf16 "normal")
      then utf16 "- ⚠️ 此用户仅限问答，请勿执行任何代码、shell命令或文件操作"
      else utf16 "- 此用户可以请求执行代码和文件操作") ++ nl
  ++ utf16 "- 回复请保持简洁，适合微信阅读".

Definition tryExtractSessionId (sessionId stderr : jsstring) : M unit :=
  match session_id_match stderr with
  | Some tok => Store.sessionsDB_setClaudeSession sessionId tok
  | None => ret tt
  end.

(** The [try] block of [execute].  Reading a property of [undefined]
    ([friendInfo.permission], [session.id]) throws a TypeError. *)
Definition execute_body (wxid : jsstring) (friendInfo : option Database.friend)
    (message : jsstring) : M jsstring :=
  info <- match friendInfo with
          | Some f => ret f
          | None => throw "TypeError"
          end ;;
  DockerManager.ensureContainer E cfg wxid (Database.permission info) ;;
  session <- getOrCreateSession wxid ;;
  session <- match session with
             | Some s => ret s
             | None => throw "TypeError"
             end ;;
  Store.sessionsDB_touch E (Database.id session) ;;
  let systemPrompt := buildSystemPrompt info in
  result <- DockerManager.execClaude E cfg wxid systemPrompt message
              {| DockerManager.claudeSession := Database.claude_session session;
                 DockerManager.opt_permission := Database.permission info;
                 DockerManager.opt_timeout := timeout cfg |} ;;
  match DockerManager.stderr result with
  | Some (u :: err) => tryExtractSessionId (Database.id session) (u :: err)
  | _ => ret tt
  end ;;
  ret (truncate (DockerManager.output result)).

(** [execute(wxid, friendInfo, message)] *)
Definition execute (wxid : jsstring) (friendInfo : option Database.friend)
    (message : jsstring) : M jsstring :=
  busy <- activeTasks_has wxid ;;
  if busy : bool then ret BUSY_REPLY
  else
    activeTasks_set wxid ;;
    try_finally
      (try_catch (execute_body wxid friendInfo message)
                 (fun _ => ret EXECUTE_FAILED))
      (activeTasks_delete wxid).

(** The proxy methods the router calls. *)
Definition clearSession (wxid : jsstring) (restartContainer : bool) : M unit :=
  Store.sessionsDB_clearUser wxid ;;
  if restartContainer then
    DockerManager.stopContainer E cfg wxid ;;
    DockerManager.ensureContainer E cfg wxid (utf16 "normal") ;;
    ret tt
  else ret tt.

Definition killProcess (wxid : jsstring) : M bool :=
  try_catch
    (DockerManager.execCommand E cfg wxid (utf16 "pkill -f claude || true") true ;;
     activeTasks_delete wxid ;;
     ret true)
    (fun _ => ret false).

Record container_status := {
  cs_name : jsstring;
  cs_running : bool;
  cs_stats : option stats;
  cs_disk : option jsstring
}.

Definition getContainerStatus (wxid : jsstring) : M container_status :=
  let name := DockerManager.containerName cfg wxid in
  running <- DockerManager.isRunning E name ;;
  st <- (if running : bool then DockerManager.getStats E cfg wxid else ret None) ;;
  disk <- (if running : bool
           then d <- DockerManager.getDiskUsage E cfg wxid ;; ret (Some d)
           else ret None) ;;
  ret {| cs_name := name; cs_running := running; cs_stats := st; cs_disk := disk |}.

Definition stopContainer (wxid : jsstring) : M bool :=
  DockerManager.stopContainer E cfg wxid.

Definition destroyContainer (wxid : jsstring) : M bool :=
  Store.sessionsDB_clearUser wxid ;;
  activeTasks_delete wxid ;;
  DockerManager.destroyContainer E cfg wxid.

Definition rebuildContainer (wxid permission : jsstring) : M unit :=
  Store.sessionsDB_clearUser wxid ;;
  activeTasks_delete wxid ;;
  DockerManager.rebuild E cfg wxid permission.

Definition listContainers : M (list DockerManager.container) :=
  DockerManager.listContainers E.

End WithConfig.
End ClaudeExecutor.

(** ** message-router.js *)

Module MessageRouter.
Import JS World Config.
Local Open Scope js_scope.

Record contact := { wxid : jsstring; nickname : jsstring; remarkName : jsstring }.

Definition nl : jsstring := [10%N].
Definition quote : jsstring := [34%N].

(** [lines.join(sep)] *)
Fixpoint join (sep : jsstring) (lines : list jsstring) : jsstring :=
  match lines with
  | [] => []
  | [l] => l
  | l :: ls => l ++ sep ++ join sep ls
  end.

(** [s.split(/\s+/)] *)
Fixpoint split_ws (s : jsstring) : list jsstring :=
  match s with
  | [] => [[]]
  | x :: s' =>
      if is_white_space x then
        match s' with
        | y :: _ => if is_white_space y then split_ws s' else [] :: split_ws s'
        | [] => [] :: split_ws s'
        end
      else match split_ws s' with
           | p :: ps => (x :: p) :: ps
           | [] => [[x]]
           end
  end.

(** [s.toLowerCase()] and [s.toUpperCase()].  Outside ASCII only the
    Kelvin sign has an ASCII lower-case form; the other characters are
    left as they are, which does not change whether the result is one
    of the ASCII strings it is compared with. *)
Definition toLowerCase (s : jsstring) : jsstring :=
  map (fun u => if (u =? 8490)%N then 107%N else Database.to_lower u) s.

Definition toUpperCase (s : jsstring) : jsstring :=
  map (fun u => if ((97 <=? u) && (u <=? 122))%N then (u - 32)%N else u) s.

(** [s.startsWith(p)] and [s.includes(p)] *)
Fixpoint startsWith (s p : jsstring) : bool :=
  match p, s with
  | [], _ => true
  | _ :: _, [] => false
  | a :: p', b :: s' => (a =? b)%N && startsWith s' p'
  end.

Fixpoint includes (s p : jsstring) : bool :=
  startsWith s p || match s with [] => false | _ :: s' => includes s' p end.

(** [String(z)] for an integer *)
Definition String_of_Z (z : Z) : jsstring :=
  match z with
  | Z.neg p => utf16 "-" ++ DockerManager.String_of_N (Npos p)
  | _ => DockerManager.String_of_N (Z.to_N z)
  end.

(** A nullable value inside a template literal *)
Definition show_null (x : option jsstring) : jsstring :=
  match x with Some s => s | None => utf16 "null" end.

Definition show_undefined (x : option jsstring) : jsstring :=
  match x with Some s => s | None => utf16 "undefined" end.

(** [permLevels[p]]; a key that is not in the object gives [undefined] *)
Definition permLevels (p : jsstring) : option Z :=
  if Database.eqb_str p (utf16 "admin") then Some 3%Z
  else if Database.eqb_str p (utf16 "trusted") then Some 2%Z
  else if Database.eqb_str p (utf16 "normal") then Some 1%Z
  else if Database.eqb_str p (utf16 "blocked") then Some 0%Z
  else None.

(** [a < b] and [a >= b] on numbers that may be [undefined]: a comparison
    with [undefined] is false. *)
Definition lt_undef (a b : option Z) : bool :=
  match a, b with Some x, Some y => (x <? y)%Z | _, _ => false end.

Definition ge_undef (a b : option Z) : bool :=
  match a, b with Some x, Some y => (y <=? x)%Z | _, _ => false end.

(** The command table of [registerBuiltinCommands], in insertion order. *)
Inductive handler :=
| Help | Status | Clear | Allow | Block | List_ | Logs | Kill
| Containers | Restart | Destroy | Rebuild | StopAll.

Record command := {
  name : jsstring;
  permission : jsstring;
  description : jsstring;
  run : handler
}.

Definition commands : list command :=
  [ {| name := utf16 "/help"; permission := utf16 "normal";
       description := utf16 "查看帮助"; run := Help |};
    {| name := utf16 "/status"; permission := utf16 "normal";
       description := utf16 "查看状态（含容器信息）"; run := Status |};
    {| name := utf16 "/clear"; permission := utf16 "normal";
       description := utf16 "清除会话历史"; run := Clear |};
    {| name := utf16 "/allow"; permission := utf16 "admin";
       description := utf16 "授权好友: /allow 昵称 [trusted|normal]"; run := Allow |};
    {| name := utf16 "/block"; permission := utf16 "admin";
       description := utf16 "拉黑好友: /block 昵称"; run := Block |};
    {| name := utf16 "/list"; permission := utf16 "admin";
       description := utf16 "列出所有授权好友"; run := List_ |};
    {| name := utf16 "/logs"; permission := utf16 "admin";
       description := utf16 "查看日志: /logs [昵称]"; run := Logs |};
    {| name := utf16 "/kill"; permission := utf16 "admin";
       description := utf16 "终止好友进程: /kill 昵称"; run := Kill |};
    {| name := utf16 "/containers"; permission := utf16 "admin";
       description := utf16 "查看所有容器状态"; run := Containers |};
    {| name := utf16 "/restart"; permission := utf16 "admin";
       description := utf16 "重启容器: /restart 昵称"; run := Restart |};
    {| name := utf16 "/destroy"; permission := utf16 "admin";
       description := utf16 "销毁容器（保留数据）: /destroy 昵称"; run := Destroy |};
    {| name := utf16 "/rebuild"; permission := utf16 "admin";
       description := utf16 "重建容器: /rebuild 昵称"; run := Rebuild |};
    {| name := utf16 "/stopall"; permission := utf16 "admin";
       description := utf16 "停止所有容器"; run := StopAll |} ].

(** [this.commands.get(cmd)] *)
Definition commands_get (cmd : jsstring) : option command :=
  find (fun c => Database.eqb_str (name c) cmd) commands.

Definition cmdHelp (perm : jsstring) : jsstring :=
  join nl
    ([utf16 "📖 可用命令:" ++ nl]
     ++ map (fun c => name c ++ utf16 " - " ++ description c)
          (List.filter
             (fun c => ge_undef (permLevels perm) (permLevels (permission c)))
             commands)
     ++ [nl ++ utf16 "直接发送文字消息即可与 Claude 对话"]).

Definition formatLogs (logs : list Database.audit) : jsstring :=
  match logs with
  | [] => utf16 "暂无日志"
  | _ =>
      join nl
        (map (fun l =>
                let dir := match Database.a_direction l with
                           | Database.DirIn => utf16 "📩"
                           | Database.DirOut => utf16 "📤"
                           end in
                let time :=
                  match DockerManager.split 32 (Database.a_timestamp l) !! 1%nat with
                  | Some (u :: t) => u :: t
                  | _ => Database.a_timestamp l
                  end in
                let msg := substring (Database.a_message l) 0 60 in
                dir ++ utf16 " [" ++ time ++ utf16 "] " ++ Database.a_nickname l
                ++ utf16 ": " ++ msg)
             logs)
  end.

(** The body of [cmdList] once the table is read. *)
Definition format_list (friends : list Database.friend) : jsstring :=
  match friends with
  | [] => utf16 "暂无授权好友"
  | _ =>
      let group perm icon :=
        match List.filter (fun f => Database.eqb_str (Database.permission f) perm) friends with
        | [] => []
        | g => [icon ++ utf16 " " ++ toUpperCase perm ++ utf16 ":"]
               ++ map (fun f => utf16 "  "
                                ++ or_opt (Database.remark_name f)
                                     (or_opt (Database.nickname f) (Database.wxid f))) g
               ++ [[]]
        end in
      join nl
        ([utf16 "👥 好友列表:" ++ nl]
         ++ group (utf16 "admin") (utf16 "👑")
         ++ group (utf16 "trusted") (utf16 "⭐")
         ++ group (utf16 "normal") (utf16 "👤")
         ++ group (utf16 "blocked") (utf16 "🚫"))
  end.

Definition not_found (args : jsstring) : jsstring :=
  utf16 "❌ 未找到 " ++ quote ++ args ++ quote.

Section WithConfig.
Variable E : env.
Variable cfg : config.

Definition cmdStatus (wxid : jsstring) : M jsstring :=
  friend <- Store.friendsDB_get wxid ;;
  session <- Store.sessionsDB_getActive wxid ;;
  container <- ClaudeExecutor.getContainerStatus E cfg wxid ;;
  let who := match friend with
             | Some f => or_opt (Database.remark_name f)
                           (or_opt (Database.nickname f) (utf16 "未知"))
             | None => utf16 "未知"
             end in
  let perm := match friend with
              | Some f => or_str (Database.permission f) (utf16 "无")
              | None => utf16 "无"
              end in
  let sess := match session with
              | Some s_ => utf16 "活跃 (" ++ String_of_Z (Database.message_count s_)
                           ++ utf16 " 条消息)"
              | None => utf16 "无"
              end in
  ret (join nl
         ([ utf16 "📊 当前状态:" ++ nl;
            utf16 "👤 " ++ who;
            utf16 "🔑 权限: " ++ perm;
            utf16 "💬 会话: " ++ sess;
            [];
            utf16 "🐳 容器: " ++ ClaudeExecutor.cs_name container;
            utf16 "   状态: " ++ (if ClaudeExecutor.cs_running container
                                  then utf16 "✅ 运行中" else utf16 "⏹️ 已停止") ]
          ++ match ClaudeExecutor.cs_stats container with
             | Some st => [ utf16 "   CPU: " ++ cpu st;
                            utf16 "   内存: " ++ mem st;
                            utf16 "   进程: " ++ stat_pids st ]
             | None => []
             end
          ++ match ClaudeExecutor.cs_disk container with
             | Some (u :: d) => [utf16 "   磁盘: " ++ u :: d]
             | _ => []
             end)).

Definition cmdClear (wxid : jsstring) : M jsstring :=
  ClaudeExecutor.clearSession E cfg wxid false ;;
  ret (utf16 "✅ 会话已清除，下次对话将开始新的上下文").

Definition cmdAllow (args : jsstring) : M jsstring :=
  match args with
  | [] => ret (utf16 "用法: /allow 昵称 [trusted|normal]")
  | _ =>
      let parts := split_ws args in
      let searchName := match parts with p0 :: _ => p0 | [] => [] end in
      let level := or_opt (parts !! 1%nat) (utf16 "trusted") in
      if negb (Database.eqb_str level (utf16 "trusted")
               || Database.eqb_str level (utf16 "normal")
               || Database.eqb_str level (utf16 "admin"))
      then ret (utf16 "❌ 无效权限等级，可选: trusted, normal, admin")
      else
        matches <- Store.friendsDB_findByNickname searchName ;;
        match matches with
        | [] => ret (utf16 "❌ 未找到 " ++ quote ++ searchName ++ quote
                     ++ utf16 "，该好友需要先发一条消息")
        | [friend] =>
            Store.friendsDB_setPermission (Database.wxid friend) level ;;
            ret (utf16 "✅ " ++ show_null (Database.nickname friend)
                 ++ utf16 " → " ++ level)
        | _ =>
            let names :=
              join nl (map (fun f => show_null (Database.nickname f) ++ utf16 "("
                                     ++ Database.wxid f ++ utf16 ")") matches) in
            ret (utf16 "找到多个匹配:" ++ nl ++ names ++ nl ++ utf16 "请精确指定")
        end
  end.

Definition cmdBlock (args : jsstring) : M jsstring :=
  match args with
  | [] => ret (utf16 "用法: /block 昵称")
  | _ =>
      matches <- Store.friendsDB_findByNickname (trim args) ;;
      match matches with
      | [] => ret (not_found args)
      | [friend] =>
          Store.friendsDB_setPermission (Database.wxid friend) (utf16 "blocked") ;;
          ClaudeExecutor.destroyContainer E cfg (Database.wxid friend) ;;
          ret (utf16 "🚫 已拉黑 " ++ show_null (Database.nickname friend)
               ++ utf16 "，容器已销毁")
      | _ => ret (utf16 "找到多个匹配，请精确指定")
      end
  end.

Definition cmdList : M jsstring :=
  friends <- Store.friendsDB_listAll ;;
  ret (format_list friends).

Definition cmdLogs (args : jsstring) : M jsstring :=
  match args with
  | [] => logs <- Store.auditDB_getRecent 20 ;; ret (formatLogs logs)
  | _ =>
      matches <- Store.friendsDB_findByNickname (trim args) ;;
      match matches with
      | [] => ret (not_found args)
      | friend :: _ =>
          logs <- Store.auditDB_getByUser (Database.wxid friend) 20 ;;
          ret (formatLogs logs)
      end
  end.

Definition cmdKill (args : jsstring) : M jsstring :=
  match args with
  | [] => ret (utf16 "用法: /kill 昵称")
  | _ =>
      matches <- Store.friendsDB_findByNickname (trim args) ;;
      match matches with
      | [] => ret (not_found args)
      | friend :: _ =>
          killed <- ClaudeExecutor.killProcess E cfg (Database.wxid friend) ;;
          ret (if killed : bool
               then utf16 "✅ 已终止 " ++ show_null (Database.nickname friend)
                    ++ utf16 " 的进程"
               else utf16 "没有运行中的进程")
      end
  end.

(** The loop of [cmdContainers] over the listed containers *)
Fixpoint container_lines (cs : list DockerManager.container) : M (list jsstring) :=
  match cs with
  | [] => ret []
  | c :: cs' =>
      friend <- match DockerManager.c_wxid c with
                | Some (u :: w) => Store.friendsDB_get (u :: w)
                | _ => ret None
                end ;;
      let unnamed := or_opt (DockerManager.c_wxid c) (utf16 "未知") in
      let who := match friend with
                 | Some f => or_opt (Database.remark_name f)
                               (or_opt (Database.nickname f) unnamed)
                 | None => unnamed
                 end in
      let statusIcon := match DockerManager.c_status c with
                        | Some st => if includes st (utf16 "Up")
                                     then utf16 "✅" else utf16 "⏹️"
                        | None => utf16 "⏹️"
                        end in
      rest <- container_lines cs' ;;
      ret ([ statusIcon ++ utf16 " " ++ who ++ utf16 " ["
             ++ show_undefined (DockerManager.c_permission c) ++ utf16 "]";
             utf16 "   " ++ DockerManager.c_name c ++ utf16 ": "
             ++ show_undefined (DockerManager.c_status c) ] ++ rest)
  end.

Definition cmdContainers : M jsstring :=
  containers <- ClaudeExecutor.listContainers E ;;
  match containers with
  | [] => ret (utf16 "🐳 暂无运行中的容器")
  | _ =>
      lines <- container_lines containers ;;
      ret (join nl ([utf16 "🐳 容器列表:" ++ nl] ++ lines))
  end.

Definition cmdRestart (args : jsstring) : M jsstring :=
  match args with
  | [] => ret (utf16 "用法: /restart 昵称")
  | _ =>
      matches <- Store.friendsDB_findByNickname (trim args) ;;
      match matches with
      | [] => ret (not_found args)
      | friend :: _ =>
          ClaudeExecutor.stopContainer E cfg (Database.wxid friend) ;;
          ClaudeExecutor.clearSession E cfg (Database.wxid friend) false ;;
          ret (utf16 "🔄 已重启 " ++ show_null (Database.nickname friend)
               ++ utf16 " 的容器（下次发消息自动启动）")
      end
  end.

Definition cmdDestroy (args : jsstring) : M jsstring :=
  match args with
  | [] => ret (utf16 "用法: /destroy 昵称")
  | _ =>
      matches <- Store.friendsDB_findByNickname (trim args) ;;
      match matches with
      | [] => ret (not_found args)
      | friend :: _ =>
          ClaudeExecutor.destroyContainer E cfg (Database.wxid friend) ;;
          ret (utf16 "🗑️ 已销毁 " ++ show_null (Database.nickname friend)
               ++ utf16 " 的容器（数据保留，下次发消息自动重建）")
      end
  end.

Definition cmdRebuild (args : jsstring) : M jsstring :=
  match args with
  | [] => ret (utf16 "用法: /rebuild 昵称")
  | _ =>
      matches <- Store.friendsDB_findByNickname (trim args) ;;
      match matches with
      | [] => ret (not_found args)
      | friend :: _ =>
          ClaudeExecutor.rebuildContainer E cfg (Database.wxid friend)
            (Database.permission friend) ;;
          ret (utf16 "🔨 已重建 " ++ show_null (Database.nickname friend)
               ++ utf16 " 的容器")
      end
  end.

Fixpoint stop_each (cs : list DockerManager.container) : M unit :=
  match cs with
  | [] => ret tt
  | c :: cs' =>
      match DockerManager.c_wxid c with
      | Some (u :: w) => ClaudeExecutor.stopContainer E cfg (u :: w) ;; ret tt
      | _ => ret tt
      end ;;
      stop_each cs'
  end.

Definition cmdStopAll : M jsstring :=
  containers <- ClaudeExecutor.listContainers E ;;
  stop_each containers ;;
  ret (utf16 "⏹️ 已停止全部 "
       ++ DockerManager.String_of_N (N.of_nat (List.length containers))
       ++ utf16 " 个容器").

(** [command.handler(wxid, permission, args)] *)
Definition handle (h : handler) (wxid perm args : jsstring) : M jsstring :=
  match h with
  | Help => ret (cmdHelp perm)
  | Status => cmdStatus wxid
  | Clear => cmdClear wxid
  | Allow => cmdAllow args
  | Block => cmdBlock args
  | List_ => cmdList
  | Logs => cmdLogs args
  | Kill => cmdKill args
  | Containers => cmdContainers
  | Restart => cmdRestart args
  | Destroy => cmdDestroy args
  | Rebuild => cmdRebuild args
  | StopAll => cmdStopAll
  end.

(** [handleCommand(wxid, permission, message)]; [None] is [null]. *)
Definition handleCommand (wxid perm message : jsstring) : M (option jsstring) :=
  let parts := split_ws (trim message) in
  let cmd := toLowerCase (match parts with p0 :: _ => p0 | [] => [] end) in
  let args := join (utf16 " ") (tail parts) in
  match commands_get cmd with
  | None => ret None
  | Some command =>
      if lt_undef (permLevels perm) (permLevels (permission command))
      then ret (Some (utf16 "⚠️ 权限不足"))
      else r <- handle (run command) wxid perm args ;; ret (Some r)
  end.

Definition getEffectivePermission (wxid : jsstring) : M jsstring :=
  if Database.eqb_str wxid (admin_wxid cfg) then ret (utf16 "admin")
  else
    dbPerm <- Store.friendsDB_getPermission wxid ;;
    ret (or_opt dbPerm (default_level cfg)).

Definition ensureFriendRegistered (wxid nickname remarkName : jsstring) : M unit :=
  existing <- Store.friendsDB_get wxid ;;
  match existing with
  | None =>
      Store.friendsDB_upsert E wxid
        {| Database.u_nickname := Some nickname;
           Database.u_remark_name := Some remarkName;
           Database.u_permission :=
             Some (if Database.eqb_str wxid (admin_wxid cfg)
                   then utf16 "admin" else default_level cfg);
           Database.u_added_by := None;
           Database.u_notes := None |}
  | Some ex =>
      if negb (bool_decide (Database.nickname ex = Some nickname))
         || negb (bool_decide (Database.remark_name ex = Some remarkName))
      then Store.friendsDB_upsert E wxid
             {| Database.u_nickname := Some nickname;
                Database.u_remark_name := Some remarkName;
                Database.u_permission := None;
                Database.u_added_by := None;
                Database.u_notes := None |}
      else ret tt
  end.

(** [securityCheck(message, permission)]: [None] is [{ safe: true }],
    [Some reason] is [{ safe: false, reason }]. *)
Fixpoint blocked_by (patterns : list jsstring) (message : jsstring)
  : M (option jsstring) :=
  match patterns with
  | [] => ret None
  | pattern :: rest =>
      hit <- lift (RegExp_test E pattern message) ;;
      if hit : bool then ret (Some (utf16 "消息包含不允许的操作"))
      else blocked_by rest message
  end.

Definition securityCheck (message perm : jsstring) : M (option jsstring) :=
  if Database.eqb_str perm (utf16 "admin") then ret None
  else blocked_by (blocked_patterns cfg) message.

Definition WARN : jsstring := utf16 "⚠️ ".
Definition ROUTER_FAILED : jsstring := utf16 "❌ 处理消息时出错了，请稍后重试".

(** [handleMessage(contact, message)] up to the computation of the
    effective permission: the audit row, the registration, the lookup. *)
Definition displayName (c : contact) : jsstring :=
  or_str (remarkName c) (or_str (nickname c) (wxid c)).

Definition ingress (c : contact) (message : jsstring) : M jsstring :=
  Store.auditDB_log E (wxid c) (displayName c) Database.DirIn
    (if log_message_content cfg then message else utf16 "[已隐藏]") ;;
  ensureFriendRegistered (wxid c) (nickname c) (remarkName c) ;;
  getEffectivePermission (wxid c).

(** The rest of [handleMessage], from the test for ['blocked'] on. *)
Definition dispatch (c : contact) (message perm : jsstring) : M (option jsstring) :=
  if Database.eqb_str perm (utf16 "blocked") then ret None
  else match perm with
  | [] => ret (if notify_unauthorized cfg
               then Some (unauthorized_message cfg) else None)
  | _ =>
      rateCheck <- Store.rateLimitDB_checkAndIncrement (wxid c)
                     (max_per_minute cfg) (max_per_day cfg) ;;
      if negb (Database.allowed rateCheck)
      then ret (Some (WARN ++ show_undefined (Database.reason rateCheck)))
      else
        response <- (if startsWith message (utf16 "/")
                     then handleCommand (wxid c) perm message
                     else ret None) ;;
        match response with
        | Some r =>
            Store.auditDB_log E (wxid c) (displayName c) Database.DirOut
              (substring r 0 200) ;;
            ret (Some r)
        | None =>
            secCheck <- securityCheck message perm ;;
            match secCheck with
            | Some reason => ret (Some (WARN ++ reason))
            | None =>
                friendInfo <- Store.friendsDB_get (wxid c) ;;
                try_catch
                  (r <- ClaudeExecutor.execute E cfg (wxid c) friendInfo message ;;
                   Store.auditDB_log E (wxid c) (displayName c) Database.DirOut
                     (substring r 0 500) ;;
                   ret (Some r))
                  (fun _ => ret (Some ROUTER_FAILED))
            end
        end
  end.

(** [handleMessage(contact, message)]; [None] is [null], no reply. *)
Definition handleMessage (c : contact) (message : jsstring) : M (option jsstring) :=
  perm <- ingress c message ;;
  dispatch c message perm.

End WithConfig.
End MessageRouter.

(** ** index.js: outbound chunking *)

Module Index.
Import JS.

(** The [while] loop of [splitMessage]; [fuel] bounds the number of
    iterations, and [None] means the bound was reached. *)
Fixpoint split_loop (fuel : nat) (maxLen : Z) (remaining : jsstring)
    (chunks : list jsstring) : option (list jsstring) :=
  match fuel with
  | O => None
  | S fuel' =>
      if (0 <? JS.length remaining)%Z then
        if (JS.length remaining <=? maxLen)%Z then Some (chunks ++ [remaining])
        else
          let splitIdx := lastIndexOf remaining 10 maxLen in
          let splitIdx := if (2 * splitIdx <? maxLen)%Z then maxLen else splitIdx in
          split_loop fuel' maxLen
            (trimStart (substring_from remaining splitIdx))
            (chunks ++ [substring remaining 0 splitIdx])
      else Some chunks
  end.

(** [splitMessage(text, maxLen)] *)
Definition splitMessage (fuel : nat) (text : jsstring) (maxLen : Z)
  : option (list jsstring) :=
  if (JS.length text <=? maxLen)%Z then Some [text]
  else split_loop fuel maxLen text [].

(** The cut the loop makes in a remainder longer than [maxLen]: the
    latest line feed at an index up to [maxLen] when that index is at
    least half of [maxLen], and [maxLen] otherwise. *)
Definition cut (maxLen : Z) (remaining : jsstring) : Z :=
  let splitIdx := lastIndexOf remaining 10 maxLen in
  if (2 * splitIdx <? maxLen)%Z then maxLen else splitIdx.

End Index.

(** ** index.js: the handler of the bot's 'message' event *)

Module Bot.
Import JS World Config.

(** What the handler reads off a message of the bot framework. *)
Record message := {
  is_text : bool;                      (* msg.type() === bot.Message.Type.Text *)
  in_room : bool;                      (* msg.room() is not null *)
  is_self : bool;                      (* msg.self() *)
  talker_id : jsstring;                (* msg.talker().id *)
  talker_name : jsstring;              (* msg.talker().name() *)
  alias : outcome (option jsstring);   (* await contact.alias() *)
  text : jsstring                      (* msg.text() *)
}.

(** [{ wxid, nickname, remarkName }], where [remarkName] is
    [alias || ''], and [''] when reading the alias throws. *)
Definition contact_of (msg : message) : MessageRouter.contact :=
  {| MessageRouter.wxid := talker_id msg;
     MessageRouter.nickname := talker_name msg;
     MessageRouter.remarkName := match alias msg with
                                 | Ok a => or_opt a []
                                 | Throw _ => []
                                 end |}.

(** The loop [for (const chunk of chunks) await contact.say(chunk)]:
    the chunks said before the first [say] that throws; the exception
    ends the handler, whose [catch] block logs it. *)
Fixpoint said (say : jsstring -> outcome unit) (chunks : list jsstring)
  : list jsstring :=
  match chunks with
  | [] => []
  | c :: cs => match say c with
               | Ok _ => c :: said say cs
               | Throw _ => []
               end
  end.

(** The handler: the chunks it says to the sender, in order, and the
    world it leaves.  [None] means that the loop of [splitMessage] was
    not finished within [fuel] iterations.  An exception of
    [handleMessage] is caught and logged, and nothing is said. *)
Definition onMessage (E : env) (cfg : config) (fuel : nat)
    (say : jsstring -> outcome unit) (msg : message) (w : world)
  : option (list jsstring) * world :=
  if negb (is_text msg) then (Some [], w)
  else if in_room msg then (Some [], w)
  else if is_self msg then (Some [], w)
  else
    match trim (text msg) with
    | [] => (Some [], w)
    | u :: t =>
        match MessageRouter.handleMessage E cfg (contact_of msg) (u :: t) w with
        | (Ok (Some (x :: response)), w') =>
            match Index.splitMessage fuel (x :: response) 2000 with
            | Some chunks => (Some (said say chunks), w')
            | None => (None, w')
            end
        | (Ok _, w') => (Some [], w')
        | (Throw _, w') => (Some [], w')
        end
    end.

End Bot.


(** ** Sample surroundings and inputs

    Environments and tables on which the properties below are
    exercised. *)

Module Samples.
Import JS World Config.

(** The value of a run of decimal digits; [None] if another character
    occurs. *)
Fixpoint digits (acc : Z) (s : jsstring) : option Z :=
  match s with
  | [] => Some acc
  | u :: s' => if ((48 <=? u) && (u <=? 57))%N
               then digits (acc * 10 + Z.of_N (u - 48)) s'
               else None
  end.

(** Days from 1970-01-01 to a date of the proleptic Gregorian calendar. *)
Definition days_from_civil (y m d : Z) : Z :=
  let y' := (if m <=? 2 then y - 1 else y)%Z in
  let era := (y' / 400)%Z in
  let yoe := (y' - era * 400)%Z in
  let doy := ((153 * (if 2 <? m then m - 3 else m + 9) + 2) / 5 + d - 1)%Z in
  let doe := (yoe * 365 + yoe / 4 - yoe / 100 + doy)%Z in
  (era * 146097 + doe - 719468)%Z.

(** A clock reading of [YYYY-MM-DD HH:MM:SS], taken as UTC; every other
    text is an invalid date. *)
Definition getTime (s : jsstring) : num :=
  match s with
  | [y1; y2; y3; y4; 45; m1; m2; 45; d1; d2; 32; h1; h2; 58; i1; i2; 58; s1; s2]%N =>
      match digits 0 [y1; y2; y3; y4], digits 0 [m1; m2], digits 0 [d1; d2],
            digits 0 [h1; h2], digits 0 [i1; i2], digits 0 [s1; s2] with
      | Some y, Some m, Some d, Some h, Some i, Some sec =>
          if ((1 <=? m) && (m <=? 12) && (1 <=? d) && (d <=? 31)
              && (h <? 24) && (i <? 60) && (sec <? 60))%Z
          then Num ((((days_from_civil y m d * 24 + h) * 60 + i) * 60 + sec) * 1000)
          else NaN
      | _, _, _, _, _, _ => NaN
      end
  | _ => NaN
  end.

(** [n] written with at least [width] decimal digits *)
Definition padded (width : nat) (n : Z) : jsstring :=
  let s := DockerManager.String_of_N (Z.to_N n) in
  repeat 48%N (width - List.length s) ++ s.

(** The text CURRENT_TIMESTAMP yields at a time after the epoch. *)
Definition sql_timestamp (ms : Z) : jsstring :=
  let secs := (ms / 1000)%Z in
  let z := (secs / 86400 + 719468)%Z in
  let era := (z / 146097)%Z in
  let doe := (z - era * 146097)%Z in
  let yoe := ((doe - doe / 1460 + doe / 36524 - doe / 146096) / 365)%Z in
  let doy := (doe - (365 * yoe + yoe / 4 - yoe / 100))%Z in
  let mp := ((5 * doy + 2) / 153)%Z in
  let d := (doy - (153 * mp + 2) / 5 + 1)%Z in
  let m := (if mp <? 10 then mp + 3 else mp - 9)%Z in
  let y := (yoe + era * 400 + (if m <=? 2 then 1 else 0))%Z in
  let tod := (secs mod 86400)%Z in
  padded 4 y ++ utf16 "-" ++ padded 2 m ++ utf16 "-" ++ padded 2 d ++ utf16 " "
  ++ padded 2 (tod / 3600) ++ utf16 ":" ++ padded 2 (tod / 60 mod 60)
  ++ utf16 ":" ++ padded 2 (tod mod 60).

(** A host on which every docker command fails. *)
Definition docker_down (vars : gmap string jsstring) : env :=
  {| execFile := fun _ _ => Throw "Command failed: docker";
     spawn := fun _ _ => SpawnError "spawn docker ENOENT";
     mkdirSync := fun _ _ => Ok tt;
     uuidv4 := fun tr => utf16 "session-" ++ DockerManager.String_of_N (N.of_nat (List.length tr));
     RegExp_test := fun _ _ => Ok false;
     Date_getTime := getTime;
     CURRENT_TIMESTAMP := sql_timestamp;
     JSON_parse_stats := fun _ => Throw "SyntaxError";
     process_env := vars |}.

(** A host on which docker answers [true] to every command and Claude
    prints [out]. *)
Definition docker_up (vars : gmap string jsstring) (out : jsstring) : env :=
  {| execFile := fun _ _ => Ok (utf16 "true");
     spawn := fun _ _ => Close 0 out [];
     mkdirSync := fun _ _ => Ok tt;
     uuidv4 := fun tr => utf16 "session-" ++ DockerManager.String_of_N (N.of_nat (List.length tr));
     RegExp_test := fun _ _ => Ok false;
     Date_getTime := getTime;
     CURRENT_TIMESTAMP := sql_timestamp;
     JSON_parse_stats := fun _ => Throw "SyntaxError";
     process_env := vars |}.

(** A host with a docker engine that keeps track of its containers: a
    container exists once it was created and runs once it was started;
    the Claude CLI prints [out]. *)
Definition was_created (tr : list event) (name : jsstring) : bool :=
  existsb (fun e => match e with
                    | Docker (c :: _ :: n :: _) =>
                        Database.eqb_str c (utf16 "create") && Database.eqb_str n name
                    | _ => false
                    end) tr.

Definition was_started (tr : list event) (name : jsstring) : bool :=
  existsb (fun e => match e with
                    | Docker [c; n] =>
                        Database.eqb_str c (utf16 "start") && Database.eqb_str n name
                    | _ => false
                    end) tr.

Definition docker_engine (vars : gmap string jsstring) (out : jsstring) : env :=
  {| execFile := fun tr args =>
       match args with
       | [c; name] =>
           if Database.eqb_str c (utf16 "inspect") && negb (was_created tr name)
           then Throw "No such object" else Ok []
       | [c; _; _; name] =>
           if Database.eqb_str c (utf16 "inspect") then
             if was_created tr name
             then Ok (if was_started tr name then utf16 "true" else utf16 "false")
             else Throw "No such object"
           else Ok []
       | _ => Ok []
       end;
     spawn := fun _ _ => Close 0 out [];
     mkdirSync := fun _ _ => Ok tt;
     uuidv4 := fun tr => utf16 "session-" ++ DockerManager.String_of_N (N.of_nat (List.length tr));
     RegExp_test := fun _ _ => Ok false;
     Date_getTime := getTime;
     CURRENT_TIMESTAMP := sql_timestamp;
     JSON_parse_stats := fun _ => Throw "SyntaxError";
     process_env := vars |}.

(** The docker commands of a trace, each reduced to its first word, and
    the other invocations as they are. *)
Definition outline (tr : list event) : list string :=
  map (fun e => match e with
                | Docker (c :: _) =>
                    String.append "docker "
                      (String.string_of_list_ascii (map Ascii.ascii_of_N c))
                | Docker [] => "docker"
                | Spawn _ => "spawn docker exec claude"
                | Mkdir _ => "mkdir"
                | Uuid => "uuid"
                | Sql st => st
                end) tr.

(** A row as the router registers it: the remark name is the empty
    string when the contact has no alias. *)
Definition a_friend (w n p : string) : Database.friend :=
  {| Database.wxid := utf16 w; Database.nickname := Some (utf16 n);
     Database.remark_name := Some []; Database.permission := utf16 p;
     Database.added_at := utf16 "2026-01-01 00:00:00";
     Database.added_by := None; Database.notes := None |}.

Definition only_names (n r : option jsstring) : Database.upsert_fields :=
  {| Database.u_nickname := n; Database.u_remark_name := r;
     Database.u_permission := None; Database.u_added_by := None;
     Database.u_notes := None |}.

(** A config.yaml that sets [admin_wxid] and nothing else. *)
Definition yaml_with_admin (a : jsstring) : raw_config :=
  {| raw_admin_wxid := Some a; raw_cli_path := None; raw_timeout := None;
     raw_image := None; raw_container_prefix := None; raw_data_dir := None;
     raw_memory := None; raw_admin_memory := None; raw_cpus := None;
     raw_admin_cpus := None; raw_pids := None; raw_tmp_size := None;
     raw_network_admin := None; raw_network_trusted := None;
     raw_network_normal := None; raw_notify_unauthorized := None;
     raw_unauthorized_message := None; raw_default_level := None;
     raw_expire_minutes := None; raw_max_history := None;
     raw_max_per_minute := None; raw_max_per_day := None;
     raw_blocked_patterns := None; raw_trusted_file_access := None;
     raw_log_level := None; raw_log_file := None;
     raw_log_message_content := None |}.

Definition a_contact (w n : string) : MessageRouter.contact :=
  {| MessageRouter.wxid := utf16 w; MessageRouter.nickname := utf16 n;
     MessageRouter.remarkName := [] |}.

Definition empty_world (ms : Z) : world :=
  {| friends := []; sessions := []; audit_log := []; rate_limits := [];
     activeTasks := ∅; now := ms; trace := []; awaits := [] |}.

Definition world_of_friends (fs : list Database.friend) (ms : Z) : world :=
  {| friends := fs; sessions := []; audit_log := []; rate_limits := [];
     activeTasks := ∅; now := ms; trace := []; awaits := [] |}.

(** The values that follow a [-e] flag in an argument array. *)
Fixpoint env_entries (args : list jsstring) : list jsstring :=
  match args with
  | flag :: rest =>
      match rest with
      | v :: _ => if Database.eqb_str flag (utf16 "-e")
                  then v :: env_entries rest else env_entries rest
      | [] => []
      end
  | [] => []
  end.

(** The same host with one more environment variable set. *)
Definition setenv (E : env) (x : string) (v : jsstring) : env :=
  {| execFile := execFile E; spawn := spawn E; mkdirSync := mkdirSync E;
     uuidv4 := uuidv4 E; RegExp_test := RegExp_test E;
     Date_getTime := Date_getTime E; CURRENT_TIMESTAMP := CURRENT_TIMESTAMP E;
     JSON_parse_stats := JSON_parse_stats E;
     process_env := <[x := v]> (process_env E) |}.

(** A pattern without wildcards: no [%] and no [_]. *)
Definition literal (q : list N) : Prop :=
  Forall (fun c => c <> Database.PERCENT /\ c <> Database.UNDERSCORE) q.

(** Equality of texts up to the case of ASCII letters. *)
Definition same_ignoring_case (q m : list N) : Prop :=
  Forall2 (fun a b => Database.to_lower a = Database.to_lower b) q m.

(** The friends whose nickname or remark name contains [q] as it is
    written, character for character. *)
Definition contains_literally (r : Database.friend) (q : jsstring) : bool :=
  match Database.nickname r with
  | Some n => MessageRouter.includes n q
  | None => false
  end
  || match Database.remark_name r with
     | Some n => MessageRouter.includes n q
     | None => false
     end.

Definition literal_matches (t : list Database.friend) (q : jsstring)
  : list Database.friend :=
  List.filter (fun r => contains_literally r q) t.

End Samples.

(** ** Sequences of calls to the rate limiter

    The counts the specification speaks of: how many calls of a sequence
    were admitted for a user within one minute window, and within one
    day. *)

Module Accounting.
Import JS Database.

Record call := { call_time : Z; call_wxid : jsstring }.

(** The calls of [calls] that are admitted, in order, and the table
    they leave, when each call is made with the same two limits. *)
Fixpoint run (maxPerMinute maxPerDay : Z) (calls : list call) (t : list rate_row)
  : list call * list rate_row :=
  match calls with
  | [] => ([], t)
  | c :: cs =>
      let '(r, t') := checkAndIncrement (call_time c) t (call_wxid c)
                        maxPerMinute maxPerDay in
      let '(adm, t'') := run maxPerMinute maxPerDay cs t' in
      (if allowed r then c :: adm else adm, t'')
  end.

Definition in_minute (w : jsstring) (k : Z) (c : call) : bool :=
  eqb_str (call_wxid c) w && (minuteKey (call_time c) =? k)%Z.

Definition in_day (w : jsstring) (d : Z) (c : call) : bool :=
  eqb_str (call_wxid c) w && (dayWindow (call_time c) =? d)%Z.

(** The counter stored for a user and a minute, 0 when there is none. *)
Definition stored (t : list rate_row) (w : jsstring) (k : Z) : Z :=
  match minuteRow t w k with Some r => request_count r | None => 0%Z end.

(** The sum of the counters of a user whose minute lies on day [d]. *)
Definition on_day (t : list rate_row) (w : jsstring) (d : Z) : Z :=
  fold_right Z.add 0%Z
    (map request_count
       (List.filter (fun r => eqb_str (r_wxid r) w
                              && (window_start r / MINUTES_PER_DAY =? d)%Z) t)).

(** The test by which a row is selected for a user and a minute, and
    for a user and a day. *)
Definition hit (w : jsstring) (k : Z) (r : rate_row) : bool :=
  eqb_str (r_wxid r) w && (window_start r =? k)%Z.

Definition on_that_day (w : jsstring) (d : Z) (r : rate_row) : bool :=
  eqb_str (r_wxid r) w && (window_start r / MINUTES_PER_DAY =? d)%Z.

(** No counter is negative. *)
Definition counters_nonneg (t : list rate_row) : Prop :=
  Forall (fun r => (0 <= request_count r)%Z) t.

End Accounting.

(** ** Further vocabulary of the properties *)

Module Terms.
Import JS World Config.

(** A nullable text contains [q] up to the case of ASCII letters. *)
Definition contains_ignoring_case (x : option jsstring) (q : jsstring) : Prop :=
  exists s pre m post,
    x = Some s /\ code_points s = pre ++ m ++ post /\ Samples.same_ignoring_case q m.

(** A stored session that was last used at the text [ts]. *)
Definition a_session (i w ts : string) : Database.session :=
  {| Database.id := utf16 i; Database.s_wxid := utf16 w;
     Database.claude_session := None; Database.created_at := utf16 ts;
     Database.last_active := utf16 ts; Database.message_count := 1 |}.

Definition world_of (fs : list Database.friend) (ss : list Database.session)
    (ms : Z) : world :=
  {| friends := fs; sessions := ss; audit_log := []; rate_limits := [];
     activeTasks := ∅; now := ms; trace := []; awaits := [] |}.

(** The rows of the rate-limit table that belong to one user, and the
    calls of a sequence that one user makes. *)
Definition user_rows (t : list Database.rate_row) (w : jsstring)
  : list Database.rate_row :=
  List.filter (fun r => Database.eqb_str (Database.r_wxid r) w) t.

Definition calls_of (w : jsstring) (calls : list Accounting.call)
  : list Accounting.call :=
  List.filter (fun c => Database.eqb_str (Accounting.call_wxid c) w) calls.

(** A text docker accepts as it is in a container name. *)
Definition docker_safe (s : jsstring) : Prop :=
  Forall (fun u => DockerManager.docker_name_char u = true) s.

(** A text in which none of the characters [seps] occurs. *)
Definition free_of (seps : list N) (s : jsstring) : Prop :=
  Forall (fun u => ~ In u seps) s.

(** The line [docker ps] prints for a container under the format
    [{{.Names}}\t{{.Status}}\t{{.Labels}}]: the labels as [key=value],
    separated by commas. *)
Definition ps_line (name status : jsstring) (labels : list (jsstring * jsstring))
  : jsstring :=
  name ++ [9%N] ++ status ++ [9%N]
  ++ MessageRouter.join [44%N] (map (fun kv => fst kv ++ [61%N] ++ snd kv) labels).

(** The value of the last label with key [k]. *)
Definition label_of (labels : list (jsstring * jsstring)) (k : jsstring)
  : option jsstring :=
  fold_left (fun acc kv => if Database.eqb_str (fst kv) k then Some (snd kv) else acc)
    labels None.

(** A computation that, from every world, leaves a world related to it
    by [R], whether it returns or throws. *)
Definition preserves {A} (R : world -> world -> Prop) (m : M A) : Prop :=
  forall w, R w (snd (m w)).

(** [w'] differs from [w] at most in the trace and in the sessions of
    [wxid]. *)
Definition same_but_own_sessions (wxid : jsstring) (w w' : world) : Prop :=
  friends w' = friends w
  /\ audit_log w' = audit_log w
  /\ rate_limits w' = rate_limits w
  /\ activeTasks w' = activeTasks w
  /\ Database.clearUser (sessions w') wxid = Database.clearUser (sessions w) wxid.

(** The command a message names: its first word, in lower case. *)
Definition command_word (message : jsstring) : jsstring :=
  MessageRouter.toLowerCase
    (match MessageRouter.split_ws (trim message) with p0 :: _ => p0 | [] => [] end).

(** Every stored permission passes the CHECK constraint of the table. *)
Definition levels_valid (t : list Database.friend) : Prop :=
  Forall (fun r => Database.permission_check (Database.permission r) = true) t.

(** [w'] differs from [w] at most in the trace, the sessions and the
    in-flight mark of [wxid]. *)
Definition same_but_sessions_and_mark (wxid : jsstring) (w w' : world) : Prop :=
  friends w' = friends w
  /\ audit_log w' = audit_log w
  /\ rate_limits w' = rate_limits w
  /\ activeTasks w' ∖ {[wxid]} = activeTasks w ∖ {[wxid]}.

(** The characters of a text that are not white space. *)
Definition visible (s : jsstring) : jsstring :=
  List.filter (fun u => negb (is_white_space u)) s.

(** A computation that returns a value from every world. *)
Definition never_throws {A} (m : M A) : Prop :=
  forall w, exists a, fst (m w) = Ok a.

(** From [w] to [w'] the in-flight set is the same, and at every await
    in between it was that set. *)
Definition in_flight_kept (w w' : world) : Prop :=
  activeTasks w' = activeTasks w
  /\ exists during,
       awaits w' = awaits w ++ during
       /\ Forall (fun s => s = activeTasks w) during.

End Terms.

(* ===================================================================== *)
(** * Part II: properties                                                 *)
(* ===================================================================== *)

Import JS World Config.

(** ** What a computation leaves untouched *)

Section Frames.
Import Terms.

Variable R : world -> world -> Prop.
Hypothesis R_refl : forall w, R w w.
Hypothesis R_trans : forall w1 w2 w3, R w1 w2 -> R w2 w3 -> R w1 w3.
Hypothesis R_trace : forall w tr, R w (with_trace tr w).
Hypothesis R_awaited : forall w e, R w (awaited e w).

Lemma preserves_ret {A} (a : A) : preserves R (ret a).
Proof. intros w. apply R_refl. Qed.

Lemma preserves_throw {A} (e : string) : preserves R (throw (A := A) e).
Proof. intros w. apply R_refl. Qed.

Lemma preserves_lift {A} (o : outcome A) : preserves R (lift o).
Proof. intros w. apply R_refl. Qed.

Lemma preserves_gets {A} (f : world -> A) : preserves R (gets f).
Proof. intros w. apply R_refl. Qed.

Lemma preserves_bind {A B} (m : M A) (k : A -> M B) :
  preserves R m -> (forall a, preserves R (k a)) -> preserves R (bind m k).
Proof.
  intros Hm Hk w. unfold bind. specialize (Hm w).
  destruct (m w) as [[a|e] w1]; cbn [snd] in *; [|exact Hm].
  apply (R_trans _ w1); [exact Hm | apply Hk].
Qed.

Lemma preserves_try_catch {A} (m : M A) (h : string -> M A) :
  preserves R m -> (forall e, preserves R (h e)) -> preserves R (try_catch m h).
Proof.
  intros Hm Hh w. unfold try_catch. specialize (Hm w).
  destruct (m w) as [[a|e] w1]; cbn [snd] in *; [exact Hm|].
  apply (R_trans _ w1); [exact Hm | apply Hh].
Qed.

Lemma preserves_record (e : event) : preserves R (record e).
Proof. intros w. apply R_trace. Qed.

Lemma preserves_docker (E : env) (args : list jsstring) :
  preserves R (DockerManager.docker E args).
Proof. intros w. apply R_awaited. Qed.

Lemma preserves_mkdir (E : env) (path : jsstring) :
  preserves R (DockerManager.mkdir E path).
Proof. intros w. apply R_trace. Qed.

Lemma preserves_execClaude (E : env) (cfg : config) (wxid p m : jsstring)
    (o : DockerManager.exec_options) :
  preserves R (DockerManager.execClaude E cfg wxid p m o).
Proof.
  intros w. unfold DockerManager.execClaude. cbv zeta.
  destruct (existsb _ _); [apply R_refl|].
  destruct (_ <? 0)%Z; [apply R_refl|].
  destruct (spawn E _ _); apply R_awaited.
Qed.

(** The world after the first step of a sequence and the world after
    the whole sequence. *)
Lemma preserves_after {A B} (m : M A) (k : A -> M B) (w : world) :
  (forall a, preserves R (k a)) -> R (snd (m w)) (snd (bind m k w)).
Proof.
  intros Hk. unfold bind. destruct (m w) as [[a|e] w1]; cbn [snd]; [apply Hk | apply R_refl].
Qed.

End Frames.

Create HintDb frame.

#[local] Hint Resolve preserves_ret preserves_throw preserves_lift preserves_gets
  preserves_record preserves_docker preserves_mkdir preserves_execClaude : frame.

Ltac frame_step :=
  first
    [ apply preserves_bind; [assumption | | intros ?]
    | apply preserves_try_catch; [assumption | | intros ?]
    | solve [auto with frame] ].

Section StoreFrames.
Import Terms.

Variable R : world -> world -> Prop.
Hypothesis R_refl : forall w, R w w.
Hypothesis R_trans : forall w1 w2 w3, R w1 w2 -> R w2 w3 -> R w1 w3.
Hypothesis R_trace : forall w tr, R w (with_trace tr w).
Hypothesis R_awaited : forall w e, R w (awaited e w).
Hypothesis R_sessions : forall w t, R w (with_sessions t w).

Lemma preserves_set_sessions (t : list Database.session) : preserves R (set_sessions t).
Proof. intros w. apply R_sessions. Qed.

Lemma preserves_getActive (wxid : jsstring) :
  preserves R (Store.sessionsDB_getActive wxid).
Proof. unfold Store.sessionsDB_getActive. repeat frame_step. Qed.

Lemma preserves_clearUser (wxid : jsstring) :
  preserves R (Store.sessionsDB_clearUser wxid).
Proof.
  unfold Store.sessionsDB_clearUser. repeat frame_step; try apply preserves_set_sessions.
Qed.

Lemma preserves_create (E : env) (i wxid : jsstring) :
  preserves R (Store.sessionsDB_create E i wxid).
Proof.
  unfold Store.sessionsDB_create, Store.timestamp. repeat frame_step; try apply preserves_set_sessions.
Qed.

Lemma preserves_touch (E : env) (i : jsstring) :
  preserves R (Store.sessionsDB_touch E i).
Proof.
  unfold Store.sessionsDB_touch, Store.timestamp. repeat frame_step; try apply preserves_set_sessions.
Qed.

Lemma preserves_setClaudeSession (i cs : jsstring) :
  preserves R (Store.sessionsDB_setClaudeSession i cs).
Proof.
  unfold Store.sessionsDB_setClaudeSession. repeat frame_step; try apply preserves_set_sessions.
Qed.

Lemma preserves_getOrCreateSession (E : env) (cfg : config) (wxid : jsstring) :
  preserves R (ClaudeExecutor.getOrCreateSession E cfg wxid).
Proof.
  unfold ClaudeExecutor.getOrCreateSession.
  apply preserves_bind; [assumption | apply preserves_getActive | intros session].
  apply preserves_bind; [assumption | | intros session'].
  - destruct session as [s|]; [|auto with frame].
    apply preserves_bind; [assumption | auto with frame | intros n].
    destruct (ClaudeExecutor.expired _ _ _); [|auto with frame].
    apply preserves_bind; [assumption | apply preserves_clearUser | intros _].
    auto with frame.
  - destruct session' as [s|]; [auto with frame|].
    apply preserves_bind; [assumption | auto with frame | intros tr].
    apply preserves_bind; [assumption | auto with frame | intros _].
    cbv zeta. apply preserves_bind;
      [assumption | apply preserves_create | intros _; apply preserves_getActive].
Qed.

End StoreFrames.

(** ** friendsDB.upsert *)

Section Upsert.
Import Database.

Lemma get_update_row (t : list friend) (w : jsstring) (g : friend -> friend) (r : friend) :
  get t w = Some r ->
  (forall x, wxid (g x) = wxid x) ->
  get (update_row w g t) w = Some (g r).
Proof.
  intros Hget Hg. induction t as [|a t IH]; [discriminate|].
  unfold get in *. simpl in *.
  destruct (eqb_str (wxid a) w) eqn:Ha.
  - injection Hget as <-. simpl. rewrite Hg, Ha. reflexivity.
  - simpl. rewrite Ha. apply IH, Hget.
Qed.

Lemma get_update_row_other (t : list friend) (w w' : jsstring) (g : friend -> friend) :
  w' <> w ->
  (forall x, wxid (g x) = wxid x) ->
  get (update_row w g t) w' = get t w'.
Proof.
  intros Hne Hg. induction t as [|a t IH]; [reflexivity|].
  unfold get in *. simpl.
  destruct (eqb_str (wxid a) w) eqn:Ha; simpl.
  - rewrite Hg. destruct (eqb_str (wxid a) w') eqn:Ha'; [|reflexivity].
    apply bool_decide_eq_true in Ha, Ha'. congruence.
  - destruct (eqb_str (wxid a) w'); [reflexivity | apply IH].
Qed.

(** What an upsert does to a row that exists: a field that is absent
    keeps the stored nickname, remark name and notes, [added_by] is never
    rewritten, and the permission becomes the bound value
    [permission || 'normal']. *)
Lemma upsert_existing (ts : jsstring) (t : list friend) (w : jsstring)
    (f : upsert_fields) (r : friend) :
  get t w = Some r ->
  permission_check (or_opt (u_permission f) (utf16 "normal")) = true ->
  exists t',
    upsert ts t w f = Ok t'
    /\ get t' w =
       Some {| wxid := wxid r;
               nickname := COALESCE (u_nickname f) (nickname r);
               remark_name := COALESCE (u_remark_name f) (remark_name r);
               permission := or_opt (u_permission f) (utf16 "normal");
               added_at := added_at r;
               added_by := added_by r;
               notes := COALESCE (u_notes f) (notes r) |}.
Proof.
  intros Hget Hchk. unfold upsert. cbn [excluded permission].
  rewrite Hchk, Hget. cbn [negb].
  eexists. split; [reflexivity|].
  rewrite (get_update_row t w _ r Hget); [reflexivity | intros x; reflexivity].
Qed.

(** C1 (fails on the code).  On a row that exists, an upsert whose
    fields omit the permission does not leave the stored permission
    unchanged: it stores ['normal'], whatever was stored before.  The
    omitted nickname, remark name and notes do keep their values. *)
Theorem upsert_without_permission_stores_normal (ts : jsstring) (t : list friend)
    (w : jsstring) (f : upsert_fields) (r : friend) :
  get t w = Some r ->
  u_permission f = None ->
  exists t' r',
    upsert ts t w f = Ok t'
    /\ get t' w = Some r'
    /\ permission r' = utf16 "normal"
    /\ (u_nickname f = None -> nickname r' = nickname r)
    /\ (u_remark_name f = None -> remark_name r' = remark_name r)
    /\ (u_notes f = None -> notes r' = notes r).
Proof.
  intros Hget Hp.
  destruct (upsert_existing ts t w f r Hget) as (t' & Hup & Hget').
  { rewrite Hp. reflexivity. }
  exists t'. eexists. split; [exact Hup|]. split; [exact Hget'|].
  cbn [permission nickname remark_name notes]. rewrite Hp.
  repeat split; intros ->; reflexivity.
Qed.

(** The failing input of C1: a trusted friend whose nickname is
    re-registered is stored as ['normal'] afterwards. *)
Lemma upsert_without_permission_stores_normal_witness :
  let t := [Samples.a_friend "u1" "Alice" "trusted"] in
  let f := Samples.only_names (Some (utf16 "Alice W.")) (Some []) in
  getPermission t (utf16 "u1") = Some (utf16 "trusted")
  /\ exists t' r',
       upsert (utf16 "2026-01-02 00:00:00") t (utf16 "u1") f = Ok t'
       /\ get t' (utf16 "u1") = Some r'
       /\ permission r' = utf16 "normal"
       /\ (u_nickname f = None -> nickname r' = Some (utf16 "Alice"))
       /\ (u_remark_name f = None -> remark_name r' = Some [])
       /\ (u_notes f = None -> notes r' = None).
Proof.
  split; [reflexivity|].
  apply (upsert_without_permission_stores_normal
           (utf16 "2026-01-02 00:00:00") [Samples.a_friend "u1" "Alice" "trusted"]
           (utf16 "u1") (Samples.only_names (Some (utf16 "Alice W.")) (Some []))
           (Samples.a_friend "u1" "Alice" "trusted")); reflexivity.
Defined.

End Upsert.

(** ** The admin identity under the default configuration *)

Section DefaultAdmin.
Import MessageRouter.

Lemma loadConfig_default_admin_wxid (raw : raw_config) :
  raw_admin_wxid raw = None -> admin_wxid (loadConfig raw) = [].
Proof. intros H. unfold loadConfig. cbn [admin_wxid]. rewrite H. reflexivity. Qed.

(** C10.  When [admin_wxid] is the empty string, as [loadConfig] leaves
    it for a config.yaml that does not set it, a contact whose wxid is
    the empty string has the effective permission ['admin']: the store
    is not consulted, so no stored permission matters, and the security
    filter lets every message of that contact pass without testing a
    single pattern. *)
Theorem empty_wxid_is_admin (E : env) (cfg : config) (message : jsstring) (w : world) :
  admin_wxid cfg = [] ->
  getEffectivePermission cfg [] w = (Ok (utf16 "admin"), w)
  /\ securityCheck E cfg message (utf16 "admin") w = (Ok None, w).
Proof.
  intros Hadmin. unfold getEffectivePermission, securityCheck.
  rewrite Hadmin. split; reflexivity.
Qed.

Lemma empty_wxid_is_admin_witness :
  let cfg := loadConfig empty_yaml in
  let w := Samples.world_of_friends [Samples.a_friend "" "Mallory" "blocked"] 0 in
  let E := Samples.docker_down ∅ in
  admin_wxid cfg = []
  /\ Database.getPermission (friends w) [] = Some (utf16 "blocked")
  /\ getEffectivePermission cfg [] w = (Ok (utf16 "admin"), w)
  /\ securityCheck E cfg (utf16 "rm -rf /") (utf16 "admin") w = (Ok None, w).
Proof.
  split; [reflexivity|]. split; [reflexivity|].
  apply (empty_wxid_is_admin (Samples.docker_down ∅) (loadConfig empty_yaml)
           (utf16 "rm -rf /")
           (Samples.world_of_friends [Samples.a_friend "" "Mallory" "blocked"] 0)).
  reflexivity.
Defined.

End DefaultAdmin.

(** ** The environment of a created container *)

Section ContainerEnvironment.
Import DockerManager Samples.

Lemma indexOf_from_bounds (x : jsstring) (l : list jsstring) :
  forall (n : nat) (i : Z),
    l !! n = Some x -> (i <= indexOf_from l x i <= i + Z.of_nat n)%Z.
Proof.
  induction l as [|y l IH]; intros n i Hn; [discriminate|].
  cbn [indexOf_from]. destruct (Database.eqb_str y x) eqn:Hy; [lia|].
  destruct n as [|n].
  - injection Hn as ->. unfold Database.eqb_str in Hy.
    apply bool_decide_eq_false in Hy. contradiction.
  - specialize (IH n (i + 1)%Z Hn). lia.
Qed.

Lemma assign_inside (l : list jsstring) (i : Z) (v : jsstring) :
  (0 <= i < Z.of_nat (List.length l))%Z -> assign l i v = <[Z.to_nat i := v]> l.
Proof.
  intros Hi. unfold assign. destruct (Z.ltb_spec i (Z.of_nat (List.length l))); [reflexivity | lia].
Qed.

(** The override for admins writes into the first seven arguments of
    [docker create]; the others are as [createContainer] lists them. *)
Lemma create_args_from_eighth (E : env) (cfg : config) (wxid permission dir : jsstring) :
  List.length (create_args E cfg wxid permission dir) = 39%nat
  /\ drop 7 (create_args E cfg wxid permission dir)
     = [ utf16 "--pids-limit"; String_of_N (pids cfg);
         utf16 "--tmpfs"; utf16 "/tmp:size=" ++ tmp_size cfg;
         utf16 "--read-only";
         utf16 "--security-opt"; utf16 "no-new-privileges";
         utf16 "--cap-drop"; utf16 "ALL";
         utf16 "--network"; getNetwork cfg permission;
         utf16 "-v"; dir ++ utf16 "/workspace:/home/sandbox/workspace";
         utf16 "-v"; dir ++ utf16 "/claude-config:/home/sandbox/.claude";
         utf16 "-e"; utf16 "WXID=" ++ wxid;
         utf16 "-e"; utf16 "ANTHROPIC_API_KEY=" ++ env_or_empty E "ANTHROPIC_API_KEY";
         utf16 "--label"; utf16 "app=wechat-claude-bridge";
         utf16 "--label"; utf16 "wxid=" ++ wxid;
         utf16 "--label"; utf16 "permission=" ++ permission;
         utf16 "-d";
         utf16 "--restart"; utf16 "unless-stopped";
         image cfg;
         utf16 "tail"; utf16 "-f"; utf16 "/dev/null" ].
Proof.
  unfold create_args. cbv zeta.
  set (args := utf16 "create" :: _).
  destruct (Database.eqb_str permission (utf16 "admin")); [|split; reflexivity].
  set (v1 := or_str _ _). set (v2 := String_of_N _).
  pose proof (indexOf_from_bounds (utf16 "--memory") args 3 0 eq_refl) as H1.
  fold (indexOf args (utf16 "--memory")) in H1.
  set (idx := (indexOf args (utf16 "--memory") + 1)%Z) in *.
  assert (Hlen : List.length args = 39%nat) by reflexivity.
  rewrite (assign_inside args idx v1) by (rewrite Hlen; lia).
  set (args1 := <[Z.to_nat idx := v1]> args).
  assert (H5 : args1 !! 5%nat = Some (utf16 "--cpus")).
  { subst args1. rewrite list_lookup_insert_ne by lia. reflexivity. }
  pose proof (indexOf_from_bounds (utf16 "--cpus") args1 5 0 H5) as H2.
  fold (indexOf args1 (utf16 "--cpus")) in H2.
  set (cpuIdx := (indexOf args1 (utf16 "--cpus") + 1)%Z) in *.
  assert (Hlen1 : List.length args1 = 39%nat).
  { subst args1. rewrite length_insert. exact Hlen. }
  rewrite (assign_inside args1 cpuIdx v2) by (rewrite Hlen1; lia).
  split.
  - rewrite length_insert. exact Hlen1.
  - rewrite drop_insert_lt by lia. subst args1.
    rewrite drop_insert_lt by lia. reflexivity.
Qed.

(** Setting a host variable other than ANTHROPIC_API_KEY, such as
    CLAUDE_CODE_OAUTH_TOKEN, changes nothing in the arguments of
    [docker create]. *)
Lemma create_args_ignore_other_variables (E : env) (cfg : config)
    (wxid permission dir : jsstring) (x : string) (v : jsstring) :
  x <> "ANTHROPIC_API_KEY"%string ->
  create_args (setenv E x v) cfg wxid permission dir
  = create_args E cfg wxid permission dir.
Proof.
  intros Hx. unfold create_args, env_or_empty, setenv. cbn [process_env].
  rewrite lookup_insert_ne by exact Hx. reflexivity.
Qed.

(** Nor does it change anything in the invocation of the Claude CLI. *)
Lemma execClaude_ignores_other_variables (E : env) (cfg : config)
    (wxid systemPrompt message : jsstring) (options : exec_options)
    (x : string) (v : jsstring) (w : world) :
  x <> "ANTHROPIC_API_KEY"%string ->
  execClaude (setenv E x v) cfg wxid systemPrompt message options w
  = execClaude E cfg wxid systemPrompt message options w.
Proof.
  intros Hx. unfold execClaude, env_or_empty, setenv. cbn [process_env spawn].
  rewrite lookup_insert_ne by exact Hx. reflexivity.
Qed.

(** C7, as the code has it.  At container creation the environment
    forwarded into the container consists of WXID and ANTHROPIC_API_KEY:
    from the eighth argument on, [docker create] is given the list
    below, whose only [-e] flags are these two.  ANTHROPIC_API_KEY
    carries the value the host has for it, and the empty text when the
    host does not set it.  No other variable of the host is forwarded:
    for a given user directory [dir] (the constructor places it under
    HOME), setting one, CLAUDE_CODE_OAUTH_TOKEN included, changes
    neither the arguments of [docker create] nor what [execClaude]
    does. *)
Theorem container_environment_is_wxid_and_api_key (E : env) (cfg : config)
    (wxid permission dir : jsstring) :
  (exists head,
     List.length head = 7%nat
     /\ create_args E cfg wxid permission dir
        = head
          ++ [ utf16 "--pids-limit"; String_of_N (pids cfg);
               utf16 "--tmpfs"; utf16 "/tmp:size=" ++ tmp_size cfg;
               utf16 "--read-only";
               utf16 "--security-opt"; utf16 "no-new-privileges";
               utf16 "--cap-drop"; utf16 "ALL";
               utf16 "--network"; getNetwork cfg permission;
               utf16 "-v"; dir ++ utf16 "/workspace:/home/sandbox/workspace";
               utf16 "-v"; dir ++ utf16 "/claude-config:/home/sandbox/.claude";
               utf16 "-e"; utf16 "WXID=" ++ wxid;
               utf16 "-e"; utf16 "ANTHROPIC_API_KEY=" ++ env_or_empty E "ANTHROPIC_API_KEY";
               utf16 "--label"; utf16 "app=wechat-claude-bridge";
               utf16 "--label"; utf16 "wxid=" ++ wxid;
               utf16 "--label"; utf16 "permission=" ++ permission;
               utf16 "-d";
               utf16 "--restart"; utf16 "unless-stopped";
               image cfg;
               utf16 "tail"; utf16 "-f"; utf16 "/dev/null" ])
  /\ env_or_empty E "ANTHROPIC_API_KEY"
     = match process_env E !! "ANTHROPIC_API_KEY"%string with
       | Some key => key
       | None => []
       end
  /\ (forall (x : string) (v : jsstring),
        x <> "ANTHROPIC_API_KEY"%string ->
        create_args (setenv E x v) cfg wxid permission dir
        = create_args E cfg wxid permission dir)
  /\ (forall (x : string) (v systemPrompt message : jsstring)
             (options : exec_options) (w : world),
        x <> "ANTHROPIC_API_KEY"%string ->
        execClaude (setenv E x v) cfg wxid systemPrompt message options w
        = execClaude E cfg wxid systemPrompt message options w).
Proof.
  split; [|split; [reflexivity|split]].
  - destruct (create_args_from_eighth E cfg wxid permission dir) as [Hlen Htail].
    exists (take 7 (create_args E cfg wxid permission dir)). split.
    + rewrite length_take, Hlen. reflexivity.
    + rewrite <- Htail. symmetry. apply take_drop.
  - intros x v Hx. apply create_args_ignore_other_variables, Hx.
  - intros x v systemPrompt message options w Hx.
    apply execClaude_ignores_other_variables, Hx.
Qed.

(** C7, as the claim has it, fails.  On a host that sets
    CLAUDE_CODE_OAUTH_TOKEN and no ANTHROPIC_API_KEY, the container is
    created with the environment [WXID=u1] and an empty
    [ANTHROPIC_API_KEY=]: the token is not forwarded, no argument of
    [docker create] holds it. *)
Theorem oauth_token_not_forwarded :
  let token := utf16 "sk-ant-oat01-xxx" in
  let E := Samples.docker_down {[ "CLAUDE_CODE_OAUTH_TOKEN" := token ]} in
  let args := create_args E (loadConfig empty_yaml) (utf16 "u1") (utf16 "normal")
                (utf16 "/data/u1") in
  process_env E !! "CLAUDE_CODE_OAUTH_TOKEN"%string = Some token
  /\ env_entries args = [utf16 "WXID=u1"; utf16 "ANTHROPIC_API_KEY="]
  /\ forallb (fun arg => negb (MessageRouter.includes arg token
                               || MessageRouter.includes arg
                                    (utf16 "CLAUDE_CODE_OAUTH_TOKEN"))) args = true.
Proof. vm_compute. repeat split; reflexivity. Qed.

End ContainerEnvironment.

(** ** Strings: prefixes and surrogate pairs *)

Section Strings.

Lemma length_nonneg (s : jsstring) : (0 <= JS.length s)%Z.
Proof. unfold JS.length. lia. Qed.

Lemma substring_prefix (s : jsstring) (n : Z) :
  (0 <= n)%Z -> substring s 0 n = firstn (Z.to_nat n) s.
Proof.
  intros Hn. unfold substring, clamp.
  pose proof (length_nonneg s) as Hl. unfold JS.length in *.
  replace (Z.to_nat (Z.min (Z.max 0 0) (Z.of_nat (List.length s)))) with 0%nat by lia.
  rewrite Nat.min_0_l, Nat.max_0_l, Nat.sub_0_r. change (skipn 0 s) with s.
  destruct (Z.le_gt_cases n (Z.of_nat (List.length s))) as [Hle|Hgt].
  - f_equal. lia.
  - replace (Z.to_nat (Z.min (Z.max 0 n) (Z.of_nat (List.length s))))
      with (List.length s) by lia.
    rewrite firstn_all. symmetry. apply firstn_all2. lia.
Qed.

Lemma substring_from_suffix (s : jsstring) (n : Z) :
  (0 <= n)%Z -> substring_from s n = skipn (Z.to_nat n) s.
Proof.
  intros Hn. unfold substring_from, clamp. unfold JS.length.
  destruct (Z.le_gt_cases n (Z.of_nat (List.length s))) as [Hle|Hgt].
  - f_equal. lia.
  - replace (Z.to_nat (Z.min (Z.max 0 n) (Z.of_nat (List.length s))))
      with (List.length s) by lia.
    rewrite skipn_all. symmetry. apply skipn_all2. lia.
Qed.

(** A well-formed prefix does not affect whether what follows is well
    formed. *)
Lemma well_formed_app_le (n : nat) :
  forall p q : jsstring,
    (List.length p <= n)%nat -> well_formed p = true ->
    well_formed (p ++ q) = well_formed q.
Proof.
  induction n as [|n IH]; intros p q Hlen Hp.
  - destruct p; [reflexivity | simpl in Hlen; lia].
  - destruct p as [|u p]; [reflexivity|].
    simpl in Hp |- *. destruct (is_high_surrogate u).
    + destruct p as [|v p]; [discriminate|].
      apply andb_prop in Hp as [Hv Hp]. simpl. rewrite Hv. simpl.
      apply IH; [simpl in Hlen; lia | exact Hp].
    + apply andb_prop in Hp as [Hu Hp]. rewrite Hu. simpl.
      apply IH; [simpl in Hlen; lia | exact Hp].
Qed.

Lemma well_formed_app (p q : jsstring) :
  well_formed p = true -> well_formed (p ++ q) = well_formed q.
Proof. apply (well_formed_app_le (List.length p)). lia. Qed.

(** A string without surrogate code units is well formed. *)
Lemma no_surrogates_well_formed (s : jsstring) :
  no_surrogates s -> well_formed s = true.
Proof.
  induction 1 as [|u s [Hh Hl] _ IH]; [reflexivity|].
  simpl. rewrite Hh, Hl. exact IH.
Qed.

End Strings.

(** ** Truncation of Claude's output *)

Section Truncation.
Import ClaudeExecutor.

(** Output within the budget is returned as it is. *)
Lemma truncate_short (s : jsstring) :
  (JS.length s <= maxLen)%Z -> truncate s = s.
Proof.
  intros H. unfold truncate.
  destruct (Z.ltb_spec maxLen (JS.length s)); [lia | reflexivity].
Qed.

(** Longer output is cut to its first 4000 code units, and the suffix is
    appended. *)
Lemma truncate_long (s : jsstring) :
  (maxLen < JS.length s)%Z ->
  truncate s = firstn 4000 s ++ TRUNCATION_SUFFIX
  /\ List.length (firstn 4000 s) = 4000%nat.
Proof.
  intros H. unfold truncate.
  destruct (Z.ltb_spec maxLen (JS.length s)); [|lia].
  rewrite substring_prefix by (unfold maxLen; lia).
  split; [reflexivity|].
  rewrite length_firstn. unfold JS.length, maxLen in H. lia.
Qed.

(** When the output has no character that takes two code units, the
    truncated reply is well formed. *)
Lemma truncate_well_formed_bmp (s : jsstring) :
  no_surrogates s -> well_formed (truncate s) = true.
Proof.
  intros Hs. unfold truncate.
  destruct (Z.ltb_spec maxLen (JS.length s)).
  - rewrite substring_prefix by (unfold maxLen; lia).
    rewrite well_formed_app.
    + vm_compute. reflexivity.
    + apply no_surrogates_well_formed. unfold no_surrogates in *.
      apply Forall_take, Hs.
  - apply no_surrogates_well_formed, Hs.
Qed.

(** C4 (fails on the code).  When code units 4000 and 4001 of the output
    are the two halves of one character, the cut keeps the first half
    only: the reply is [p], the lone high surrogate, and the suffix, and
    it is not a well-formed string. *)
Theorem truncate_splits_surrogate_pair (p : jsstring) (hi lo : N) (rest : jsstring) :
  List.length p = 3999%nat ->
  well_formed p = true ->
  is_high_surrogate hi = true ->
  is_low_surrogate lo = true ->
  truncate (p ++ hi :: lo :: rest) = p ++ [hi] ++ TRUNCATION_SUFFIX
  /\ well_formed (truncate (p ++ hi :: lo :: rest)) = false.
Proof.
  intros Hlen Hp Hhi Hlo.
  assert (Hcut : truncate (p ++ hi :: lo :: rest) = p ++ [hi] ++ TRUNCATION_SUFFIX).
  { destruct (truncate_long (p ++ hi :: lo :: rest)) as [-> _].
    - unfold JS.length, maxLen. rewrite length_app. simpl. lia.
    - replace 4000%nat with (List.length p + 1)%nat by lia.
      rewrite firstn_app_2. simpl. rewrite <- app_assoc. reflexivity. }
  split; [exact Hcut|].
  rewrite Hcut, well_formed_app by exact Hp.
  unfold TRUNCATION_SUFFIX. simpl. rewrite Hhi. reflexivity.
Qed.

(** The failing input of C4: 3999 letters followed by U+1F600. *)
Lemma truncate_splits_surrogate_pair_witness :
  let s := repeat 97%N 3999 ++ [55357; 56832]%N in
  well_formed s = true
  /\ truncate s = repeat 97%N 3999 ++ [55357%N] ++ TRUNCATION_SUFFIX
  /\ well_formed (truncate s) = false.
Proof.
  split; [vm_compute; reflexivity|].
  apply (truncate_splits_surrogate_pair (repeat 97%N 3999) 55357 56832 []).
  - apply repeat_length.
  - vm_compute. reflexivity.
  - reflexivity.
  - reflexivity.
Defined.

End Truncation.

(** ** Outbound chunking *)

Section Chunking.
Import Index.

(** [lastIndexOf] returns the latest position, no later than [pos], at
    which the character occurs, and -1 when there is none. *)
Lemma last_index_upto_spec (c : N) (s : jsstring) :
  forall i pos best : Z,
    let r := last_index_upto c s i pos best in
    (r = best /\ forall k : nat, (i + Z.of_nat k <= pos)%Z -> s !! k <> Some c)
    \/ (exists k : nat,
          r = (i + Z.of_nat k)%Z /\ (r <= pos)%Z /\ s !! k = Some c
          /\ forall k' : nat, (k < k')%nat -> (i + Z.of_nat k' <= pos)%Z ->
                              s !! k' <> Some c).
Proof.
  induction s as [|x s IH]; intros i pos best; cbn [last_index_upto].
  - left. split; [reflexivity|]. intros k _. rewrite lookup_nil. discriminate.
  - destruct (Z.ltb_spec pos i) as [Hlt|Hle].
    + left. split; [reflexivity|]. intros k Hk. lia.
    + destruct (N.eqb_spec x c) as [Heq|Hne].
      * destruct (IH (i + 1)%Z pos i) as [[Hr Hnone]|(k & Hr & Hle' & Hk & Hlater)];
          cbn zeta in *.
        -- right. exists 0%nat. rewrite Hr.
           split; [lia|]. split; [lia|]. split; [cbn; congruence|].
           intros [|k'] Hlt Hpos; [lia|]. cbn. apply Hnone. lia.
        -- right. exists (S k). rewrite Hr.
           split; [lia|]. split; [lia|]. split; [exact Hk|].
           intros [|k'] Hlt Hpos; [lia|]. cbn. apply Hlater; lia.
      * destruct (IH (i + 1)%Z pos best) as [[Hr Hnone]|(k & Hr & Hle' & Hk & Hlater)];
          cbn zeta in *.
        -- left. split; [exact Hr|]. intros [|k] Hpos; cbn.
           ++ congruence.
           ++ apply Hnone. lia.
        -- right. exists (S k). rewrite Hr.
           split; [lia|]. split; [lia|]. split; [exact Hk|].
           intros [|k'] Hlt Hpos; [lia|]. cbn. apply Hlater; lia.
Qed.

Lemma lastIndexOf_bounds (s : jsstring) (c : N) (pos : Z) :
  lastIndexOf s c pos = (-1)%Z
  \/ (0 <= lastIndexOf s c pos <= Z.max 0 pos)%Z.
Proof.
  unfold lastIndexOf.
  destruct (last_index_upto_spec c s 0 (Z.max 0 pos) (-1))
    as [[Hr _]|(k & Hr & Hle & _)]; cbn zeta in *.
  - left. exact Hr.
  - right. lia.
Qed.

Lemma cut_bounds (maxLen : Z) (remaining : jsstring) :
  (1 <= maxLen)%Z -> (1 <= cut maxLen remaining <= maxLen)%Z.
Proof.
  intros H. unfold cut.
  destruct (lastIndexOf_bounds remaining 10 maxLen) as [->|Hb].
  - destruct (Z.ltb_spec (2 * -1) maxLen); lia.
  - destruct (Z.ltb_spec (2 * lastIndexOf remaining 10 maxLen) maxLen); lia.
Qed.

(** Where the cut is not the hard cut, it is at a line feed, and no line
    feed lies between it and the budget. *)
Lemma cut_at_latest_newline (maxLen : Z) (remaining : jsstring) :
  (1 <= maxLen)%Z ->
  cut maxLen remaining = maxLen
  \/ ((maxLen <= 2 * cut maxLen remaining)%Z
      /\ remaining !! Z.to_nat (cut maxLen remaining) = Some 10%N
      /\ forall k : nat, (cut maxLen remaining < Z.of_nat k <= maxLen)%Z ->
                         remaining !! k <> Some 10%N).
Proof.
  intros H. unfold cut, lastIndexOf.
  destruct (last_index_upto_spec 10 remaining 0 (Z.max 0 maxLen) (-1))
    as [[Hr _]|(k & Hr & Hle & Hk & Hlater)]; cbn zeta in *.
  - rewrite Hr. left. destruct (Z.ltb_spec (2 * -1) maxLen); lia.
  - rewrite Hr. destruct (Z.ltb_spec (2 * (0 + Z.of_nat k)) maxLen); [left; reflexivity|].
    right. split; [lia|]. split.
    + replace (Z.to_nat (0 + Z.of_nat k)) with k by lia. exact Hk.
    + intros k' Hk'. apply Hlater; lia.
Qed.

Lemma length_trimStart (s : jsstring) :
  (List.length (trimStart s) <= List.length s)%nat.
Proof.
  induction s as [|u s IH]; [reflexivity|].
  simpl. destruct (is_white_space u); simpl; lia.
Qed.

Lemma split_loop_step (fuel : nat) (maxLen : Z) (remaining : jsstring)
    (chunks : list jsstring) :
  (maxLen < JS.length remaining)%Z -> (1 <= maxLen)%Z ->
  split_loop (S fuel) maxLen remaining chunks
  = split_loop fuel maxLen
      (trimStart (skipn (Z.to_nat (cut maxLen remaining)) remaining))
      (chunks ++ [firstn (Z.to_nat (cut maxLen remaining)) remaining]).
Proof.
  intros Hlong Hmax. cbn [split_loop].
  destruct (Z.ltb_spec 0 (JS.length remaining)); [|lia].
  destruct (Z.leb_spec (JS.length remaining) maxLen); [lia|].
  pose proof (cut_bounds maxLen remaining Hmax) as Hc. fold (cut maxLen remaining).
  rewrite substring_prefix, substring_from_suffix by lia. reflexivity.
Qed.

(** Every chunk the loop adds has at most [maxLen] code units. *)
Lemma split_loop_chunks (maxLen : Z) :
  (1 <= maxLen)%Z ->
  forall (fuel : nat) (remaining : jsstring) (chunks out : list jsstring),
    split_loop fuel maxLen remaining chunks = Some out ->
    exists more, out = chunks ++ more
                 /\ Forall (fun c => (JS.length c <= maxLen)%Z) more.
Proof.
  intros Hmax. induction fuel as [|fuel IH]; intros remaining chunks out Hrun.
  - discriminate.
  - destruct (Z.leb_spec (JS.length remaining) maxLen) as [Hshort|Hlong].
    + cbn [split_loop] in Hrun.
      destruct (Z.ltb_spec 0 (JS.length remaining)).
      * destruct (Z.leb_spec (JS.length remaining) maxLen); [|lia].
        injection Hrun as <-. exists [remaining]. split; [reflexivity|].
        constructor; [exact Hshort | constructor].
      * injection Hrun as <-. exists []. rewrite app_nil_r. split; [reflexivity | constructor].
    + rewrite split_loop_step in Hrun by lia.
      apply IH in Hrun as (more & -> & Hmore).
      eexists. rewrite <- app_assoc. split; [reflexivity|].
      constructor; [|exact Hmore].
      pose proof (cut_bounds maxLen remaining Hmax).
      unfold JS.length. rewrite length_firstn. lia.
Qed.

(** The loop ends: a budget of at least one code unit makes every
    remainder shorter than the one before. *)
Lemma split_loop_terminates (maxLen : Z) :
  (1 <= maxLen)%Z ->
  forall (fuel : nat) (remaining : jsstring) (chunks : list jsstring),
    (List.length remaining < fuel)%nat ->
    exists out, split_loop fuel maxLen remaining chunks = Some out.
Proof.
  intros Hmax. induction fuel as [|fuel IH]; intros remaining chunks Hfuel; [lia|].
  destruct (Z.leb_spec (JS.length remaining) maxLen) as [Hshort|Hlong].
  - cbn [split_loop]. destruct (Z.ltb_spec 0 (JS.length remaining)).
    + destruct (Z.leb_spec (JS.length remaining) maxLen); [|lia]. eexists; reflexivity.
    + eexists; reflexivity.
  - rewrite split_loop_step by lia. apply IH.
    pose proof (cut_bounds maxLen remaining Hmax).
    pose proof (length_trimStart (skipn (Z.to_nat (cut maxLen remaining)) remaining)).
    rewrite length_skipn in *. unfold JS.length in Hlong. lia.
Qed.

(** A text within the cap is sent as one chunk, and for a cap of at
    least one code unit [splitMessage] returns chunks none of which is
    longer than the cap. *)
Lemma splitMessage_short (fuel : nat) (text : jsstring) (maxLen : Z) :
  (JS.length text <= maxLen)%Z -> splitMessage fuel text maxLen = Some [text].
Proof.
  intros H. unfold splitMessage.
  destruct (Z.leb_spec (JS.length text) maxLen); [reflexivity | lia].
Qed.

Lemma splitMessage_chunks_bounded (text : jsstring) (maxLen : Z) :
  (1 <= maxLen)%Z ->
  exists chunks,
    splitMessage (S (List.length text)) text maxLen = Some chunks
    /\ Forall (fun c => (JS.length c <= maxLen)%Z) chunks.
Proof.
  intros Hmax. unfold splitMessage.
  destruct (Z.leb_spec (JS.length text) maxLen) as [Hshort|Hlong].
  - exists [text]. split; [reflexivity|]. constructor; [exact Hshort | constructor].
  - destruct (split_loop_terminates maxLen Hmax (S (List.length text)) text [])
      as [out Hout]; [lia|].
    exists out. split; [exact Hout|].
    apply (split_loop_chunks maxLen Hmax) in Hout as (more & -> & Hmore). exact Hmore.
Qed.

(** C8 (fails on the code).  A reply of 1999 letters followed by
    U+1F600 is well formed and has 2001 code units; with the cap of 2000
    it is cut between the two halves of the last character: the first
    chunk ends with a lone high surrogate, the second is a lone low
    surrogate. *)
Theorem splitMessage_splits_surrogate_pair :
  let text := repeat 97%N 1999 ++ [55357; 56832]%N in
  well_formed text = true
  /\ splitMessage (S (List.length text)) text 2000
     = Some [repeat 97%N 1999 ++ [55357%N]; [56832%N]]
  /\ well_formed (repeat 97%N 1999 ++ [55357%N]) = false
  /\ well_formed [56832%N] = false.
Proof. vm_compute. repeat split; reflexivity. Qed.

End Chunking.

(** ** Session expiry *)

Section SessionExpiry.
Import ClaudeExecutor.

(** For a timestamp that parses, the session is expired exactly when it
    was last active more than [expire_minutes] before now. *)
Lemma expired_iff (lastActive now expire_minutes : Z) :
  expired (Num lastActive) now expire_minutes = true
  <-> (expire_minutes * 60 * 1000 < now - lastActive)%Z.
Proof. unfold expired. cbn [sub gt]. apply Z.ltb_lt. Qed.

(** A timestamp in the future is not expired. *)
Lemma future_not_expired (lastActive now expire_minutes : Z) :
  (0 <= expire_minutes)%Z -> (now < lastActive)%Z ->
  expired (Num lastActive) now expire_minutes = false.
Proof.
  intros Hw Hfut. unfold expired. cbn [sub gt]. apply Z.ltb_ge. lia.
Qed.

(** A timestamp that does not parse is never expired: the comparison
    with NaN is false. *)
Lemma unparseable_not_expired (now expire_minutes : Z) :
  expired NaN now expire_minutes = false.
Proof. reflexivity. Qed.

(** C3 (fails on the code).  When the active session's [last_active]
    does not parse, [getOrCreateSession] does not treat the session as
    expired: it returns that session, clears nothing and creates no
    session; the only statement it runs is the lookup. *)
Theorem unparseable_last_active_keeps_session (E : env) (cfg : config)
    (wxid : jsstring) (w : world) (s : Database.session) :
  Database.getActive (sessions w) wxid = Some s ->
  Date_getTime E (Database.last_active s) = NaN ->
  exists w',
    getOrCreateSession E cfg wxid w = (Ok (Some s), w')
    /\ sessions w' = sessions w
    /\ trace w' = trace w ++ [Sql "sessions.getActive"].
Proof.
  intros Hget Hnan. eexists.
  unfold getOrCreateSession, Store.sessionsDB_getActive, bind, record, modify, gets,
    with_trace.
  cbn [sessions now]. rewrite Hget. cbn [ret]. rewrite Hnan. cbn [expired sub gt ret].
  split; [reflexivity|]. split; reflexivity.
Qed.

Lemma unparseable_last_active_keeps_session_witness :
  let s := {| Database.id := utf16 "s1"; Database.s_wxid := utf16 "u1";
              Database.claude_session := None;
              Database.created_at := utf16 "2026-01-01 00:00:00";
              Database.last_active := utf16 "not a date";
              Database.message_count := 3 |} in
  let w := {| friends := [Samples.a_friend "u1" "Alice" "normal"]; sessions := [s];
              audit_log := []; rate_limits := []; activeTasks := ∅;
              now := 1793561760000; trace := []; awaits := [] |} in
  exists w',
    getOrCreateSession (Samples.docker_down ∅) (loadConfig empty_yaml) (utf16 "u1") w
    = (Ok (Some s), w')
    /\ sessions w' = [s]
    /\ trace w' = [Sql "sessions.getActive"].
Proof.
  cbn zeta.
  apply (unparseable_last_active_keeps_session (Samples.docker_down ∅)
           (loadConfig empty_yaml) (utf16 "u1")
           {| friends := [Samples.a_friend "u1" "Alice" "normal"];
              sessions := [{| Database.id := utf16 "s1"; Database.s_wxid := utf16 "u1";
                              Database.claude_session := None;
                              Database.created_at := utf16 "2026-01-01 00:00:00";
                              Database.last_active := utf16 "not a date";
                              Database.message_count := 3 |}];
              audit_log := []; rate_limits := []; activeTasks := ∅;
              now := 1793561760000; trace := []; awaits := [] |}).
  - reflexivity.
  - reflexivity.
Defined.

(** Two sessions with timestamps that parse, looked up at
    2026-11-01 19:36:00 with the default window of 60 minutes.  One last
    active two hours before is cleared and replaced by a fresh session. *)
Lemma expired_session_is_replaced :
  let s := {| Database.id := utf16 "s1"; Database.s_wxid := utf16 "u1";
              Database.claude_session := Some (utf16 "abc");
              Database.created_at := utf16 "2026-11-01 17:00:00";
              Database.last_active := utf16 "2026-11-01 17:36:00";
              Database.message_count := 3 |} in
  let w := {| friends := [Samples.a_friend "u1" "Alice" "normal"]; sessions := [s];
              audit_log := []; rate_limits := []; activeTasks := ∅;
              now := 1793561760000; trace := []; awaits := [] |} in
  let r := getOrCreateSession (Samples.docker_down ∅) (loadConfig empty_yaml)
             (utf16 "u1") w in
  fst r = Ok (Some {| Database.id := utf16 "session-2"; Database.s_wxid := utf16 "u1";
                      Database.claude_session := None;
                      Database.created_at := utf16 "2026-11-01 19:36:00";
                      Database.last_active := utf16 "2026-11-01 19:36:00";
                      Database.message_count := 0 |})
  /\ trace (snd r) = [Sql "sessions.getActive"; Sql "sessions.clearUser"; Uuid;
                      Sql "sessions.create"; Sql "sessions.getActive"].
Proof. vm_compute. split; reflexivity. Qed.

(** One last active five minutes in the future is kept. *)
Lemma future_session_is_kept :
  let s := {| Database.id := utf16 "s1"; Database.s_wxid := utf16 "u1";
              Database.claude_session := Some (utf16 "abc");
              Database.created_at := utf16 "2026-11-01 17:00:00";
              Database.last_active := utf16 "2026-11-01 19:41:00";
              Database.message_count := 3 |} in
  let w := {| friends := [Samples.a_friend "u1" "Alice" "normal"]; sessions := [s];
              audit_log := []; rate_limits := []; activeTasks := ∅;
              now := 1793561760000; trace := []; awaits := [] |} in
  let r := getOrCreateSession (Samples.docker_down ∅) (loadConfig empty_yaml)
             (utf16 "u1") w in
  fst r = Ok (Some s) /\ trace (snd r) = [Sql "sessions.getActive"].
Proof. vm_compute. split; reflexivity. Qed.

End SessionExpiry.

(** ** The rate limiter *)

Section RateLimit.
Import Database Accounting.

(** A call that is denied leaves the counters as they were. *)
Lemma denied_leaves_counters (now : Z) (t : list rate_row) (w : jsstring)
    (maxPerMinute maxPerDay : Z) :
  allowed (fst (checkAndIncrement now t w maxPerMinute maxPerDay)) = false ->
  snd (checkAndIncrement now t w maxPerMinute maxPerDay) = t.
Proof.
  unfold checkAndIncrement.
  destruct (minuteRow t w (minuteKey now)) as [r|].
  - destruct (maxPerMinute <=? request_count r)%Z; [reflexivity|].
    destruct (maxPerDay <=? dayCount t w (dayWindow now))%Z; [reflexivity | discriminate].
  - destruct (maxPerDay <=? dayCount t w (dayWindow now))%Z; [reflexivity | discriminate].
Qed.

(** An admitted call stores its increment; it is admitted only below
    both limits, where a minute without a counter has no minute limit. *)
Lemma admitted_increments (now : Z) (t : list rate_row) (w : jsstring)
    (maxPerMinute maxPerDay : Z) :
  allowed (fst (checkAndIncrement now t w maxPerMinute maxPerDay)) = true ->
  snd (checkAndIncrement now t w maxPerMinute maxPerDay) = increment t w (minuteKey now)
  /\ (dayCount t w (dayWindow now) < maxPerDay)%Z
  /\ (stored t w (minuteKey now) < maxPerMinute
      \/ minuteRow t w (minuteKey now) = None)%Z.
Proof.
  unfold checkAndIncrement, stored.
  destruct (minuteRow t w (minuteKey now)) as [r|].
  - destruct (Z.leb_spec maxPerMinute (request_count r)); [discriminate|].
    destruct (Z.leb_spec maxPerDay (dayCount t w (dayWindow now))); [discriminate|].
    intros _. split; [reflexivity|]. split; [assumption | left; assumption].
  - destruct (Z.leb_spec maxPerDay (dayCount t w (dayWindow now))); [discriminate|].
    intros _. split; [reflexivity|]. split; [assumption | right; reflexivity].
Qed.

(** C2 (fails on the code).  With [maxPerMinute = 0], the first call of
    a user in a minute is admitted whenever the day limit is not
    reached: the minute limit is only tested against a counter that
    already exists. *)
Theorem zero_per_minute_limit_admits (now : Z) (t : list rate_row) (w : jsstring)
    (maxPerDay : Z) :
  minuteRow t w (minuteKey now) = None ->
  (dayCount t w (dayWindow now) < maxPerDay)%Z ->
  checkAndIncrement now t w 0 maxPerDay
  = ({| allowed := true; reason := None |}, increment t w (minuteKey now)).
Proof.
  intros Hrow Hday. unfold checkAndIncrement. rewrite Hrow.
  destruct (Z.leb_spec maxPerDay (dayCount t w (dayWindow now))); [lia | reflexivity].
Qed.

(** The failing input of C2: the first call on an empty table, with the
    limits 0 per minute and 200 per day. *)
Lemma zero_per_minute_limit_admits_witness :
  checkAndIncrement 1793561760000 [] (utf16 "u1") 0 200
  = ({| allowed := true; reason := None |},
     [{| r_wxid := utf16 "u1"; window_start := 29892696; request_count := 1 |}]).
Proof.
  apply (zero_per_minute_limit_admits 1793561760000 [] (utf16 "u1") 200).
  - reflexivity.
  - reflexivity.
Defined.

(** *** What holds of the two limits *)

Lemma hit_true (w : jsstring) (k : Z) (r : rate_row) :
  hit w k r = true <-> r_wxid r = w /\ window_start r = k.
Proof.
  unfold hit, eqb_str. rewrite andb_true_iff, bool_decide_eq_true, Z.eqb_eq. tauto.
Qed.

Lemma stored_cons (r : rate_row) (t : list rate_row) (w : jsstring) (k : Z) :
  stored (r :: t) w k = if hit w k r then request_count r else stored t w k.
Proof. unfold stored, minuteRow. cbn [find]. fold (hit w k r). destruct (hit w k r); reflexivity. Qed.

Lemma increment_cons (r : rate_row) (t : list rate_row) (w : jsstring) (k : Z) :
  increment (r :: t) w k
  = if hit w k r
    then {| r_wxid := r_wxid r; window_start := window_start r;
            request_count := (request_count r + 1)%Z |} :: t
    else r :: increment t w k.
Proof. reflexivity. Qed.

Lemma stored_increment_same (t : list rate_row) (w : jsstring) (k : Z) :
  stored (increment t w k) w k = (stored t w k + 1)%Z.
Proof.
  induction t as [|r t IH].
  - cbn [increment]. rewrite stored_cons.
    replace (hit w k _) with true; [reflexivity|].
    symmetry. apply hit_true. split; reflexivity.
  - rewrite increment_cons, (stored_cons r t). destruct (hit w k r) eqn:Hr.
    + rewrite stored_cons. unfold hit in *. cbn [r_wxid window_start request_count].
      rewrite Hr. reflexivity.
    + rewrite stored_cons, Hr. exact IH.
Qed.

Lemma stored_increment_other (t : list rate_row) (w w' : jsstring) (k k' : Z) :
  w' <> w \/ k' <> k ->
  stored (increment t w k) w' k' = stored t w' k'.
Proof.
  intros Hne. induction t as [|r t IH].
  - cbn [increment]. rewrite stored_cons.
    replace (hit w' k' _) with false; [reflexivity|].
    symmetry. apply not_true_is_false. rewrite hit_true. cbn. intros [-> ->]. tauto.
  - rewrite increment_cons, (stored_cons r t). destruct (hit w k r) eqn:Hr.
    + rewrite stored_cons. unfold hit at 1. cbn [r_wxid window_start request_count].
      fold (hit w' k' r). destruct (hit w' k' r) eqn:Hr'; [|reflexivity].
      apply hit_true in Hr, Hr'. destruct Hr, Hr'. exfalso. destruct Hne; congruence.
    + rewrite stored_cons. destruct (hit w' k' r); [reflexivity | exact IH].
Qed.

Lemma on_day_cons (r : rate_row) (t : list rate_row) (w : jsstring) (d : Z) :
  on_day (r :: t) w d
  = ((if on_that_day w d r then request_count r else 0) + on_day t w d)%Z.
Proof.
  unfold on_day. cbn [List.filter]. fold (on_that_day w d r).
  destruct (on_that_day w d r); reflexivity.
Qed.

Lemma on_day_increment (t : list rate_row) (w w' : jsstring) (k d : Z) :
  on_day (increment t w k) w' d
  = (on_day t w' d
     + if eqb_str w w' && (k / MINUTES_PER_DAY =? d)%Z then 1 else 0)%Z.
Proof.
  induction t as [|r t IH].
  - cbn [increment]. rewrite on_day_cons. unfold on_that_day.
    cbn [r_wxid window_start request_count]. unfold on_day. cbn.
    destruct (eqb_str w w' && (k / MINUTES_PER_DAY =? d)%Z); reflexivity.
  - rewrite increment_cons. destruct (hit w k r) eqn:Hr.
    + rewrite !on_day_cons. unfold on_that_day.
      cbn [r_wxid window_start request_count].
      apply hit_true in Hr as [<- <-].
      destruct (eqb_str (r_wxid r) w' && (window_start r / MINUTES_PER_DAY =? d)%Z); lia.
    + rewrite !on_day_cons, IH. lia.
Qed.

Lemma increment_nonneg (t : list rate_row) (w : jsstring) (k : Z) :
  counters_nonneg t -> counters_nonneg (increment t w k).
Proof.
  unfold counters_nonneg. induction 1 as [|r t Hr Ht IH].
  - cbn. constructor; [cbn; lia | constructor].
  - rewrite increment_cons. destruct (hit w k r).
    + constructor; [cbn; lia | exact Ht].
    + constructor; [exact Hr | exact IH].
Qed.

Lemma dayCount_nonneg (t : list rate_row) (w : jsstring) (d : Z) :
  counters_nonneg t -> (0 <= dayCount t w d)%Z.
Proof.
  unfold counters_nonneg, dayCount. induction 1 as [|r t Hr Ht IH]; [cbn; lia|].
  cbn [List.filter].
  destruct (eqb_str (r_wxid r) w && (d <=? window_start r / MINUTES_PER_DAY)%Z); cbn; lia.
Qed.

Lemma on_day_le_dayCount (t : list rate_row) (w : jsstring) (d : Z) :
  counters_nonneg t -> (on_day t w d <= dayCount t w d)%Z.
Proof.
  unfold counters_nonneg. induction 1 as [|r t Hr Ht IH]; [cbn; lia|].
  rewrite on_day_cons. unfold dayCount in *. cbn [List.filter]. unfold on_that_day.
  destruct (eqb_str (r_wxid r) w); cbn [andb].
  - destruct (Z.eqb_spec (window_start r / MINUTES_PER_DAY) d) as [->|Hne].
    + rewrite Z.leb_refl. cbn. lia.
    + destruct (d <=? window_start r / MINUTES_PER_DAY)%Z; cbn; lia.
  - lia.
Qed.

Lemma dayWindow_of_minuteKey (now : Z) :
  dayWindow now = (minuteKey now / MINUTES_PER_DAY)%Z.
Proof.
  unfold dayWindow, minuteKey, DAY_MS, MINUTE_MS, MINUTES_PER_DAY.
  rewrite Z.div_div by lia. reflexivity.
Qed.

(** With a day limit of 0 or less, every call is denied. *)
Lemma zero_per_day_limit_denies (now : Z) (t : list rate_row) (w : jsstring)
    (maxPerMinute maxPerDay : Z) :
  counters_nonneg t -> (maxPerDay <= 0)%Z ->
  allowed (fst (checkAndIncrement now t w maxPerMinute maxPerDay)) = false.
Proof.
  intros Ht Hd. pose proof (dayCount_nonneg t w (dayWindow now) Ht).
  unfold checkAndIncrement.
  destruct (minuteRow t w (minuteKey now)) as [r|].
  - destruct (maxPerMinute <=? request_count r)%Z; [reflexivity|].
    destruct (Z.leb_spec maxPerDay (dayCount t w (dayWindow now))); [reflexivity | lia].
  - destruct (Z.leb_spec maxPerDay (dayCount t w (dayWindow now))); [reflexivity | lia].
Qed.

Lemma in_minute_true (w : jsstring) (k : Z) (c : call) :
  in_minute w k c = true <-> call_wxid c = w /\ minuteKey (call_time c) = k.
Proof.
  unfold in_minute, eqb_str. rewrite andb_true_iff, bool_decide_eq_true, Z.eqb_eq. tauto.
Qed.

Lemma run_cons (maxPerMinute maxPerDay : Z) (c : call) (cs : list call)
    (t : list rate_row) :
  run maxPerMinute maxPerDay (c :: cs) t
  = let r := checkAndIncrement (call_time c) t (call_wxid c) maxPerMinute maxPerDay in
    let rest := run maxPerMinute maxPerDay cs (snd r) in
    (if allowed (fst r) then c :: fst rest else fst rest, snd rest).
Proof.
  cbn [run]. destruct (checkAndIncrement _ _ _ _ _) as [r t']. cbn [fst snd].
  destruct (run maxPerMinute maxPerDay cs t') as [adm t'']. reflexivity.
Qed.

(** The stored counter of a minute counts the calls admitted in it, and
    a minute limit of at least 1 bounds it. *)
Lemma run_counts_minute (maxPerMinute maxPerDay : Z) (w : jsstring) (k : Z) :
  (1 <= maxPerMinute)%Z ->
  forall (calls : list call) (t : list rate_row),
    (stored t w k <= maxPerMinute)%Z ->
    let r := run maxPerMinute maxPerDay calls t in
    stored (snd r) w k
    = (stored t w k + Z.of_nat (List.length (List.filter (in_minute w k) (fst r))))%Z
    /\ (stored (snd r) w k <= maxPerMinute)%Z.
Proof.
  intros Hmax. induction calls as [|c cs IH]; intros t Ht; cbn zeta.
  - cbn. split; lia.
  - rewrite run_cons. cbn zeta. cbn [fst snd].
    set (r := checkAndIncrement (call_time c) t (call_wxid c) maxPerMinute maxPerDay).
    destruct (allowed (fst r)) eqn:Hal.
    + destruct (admitted_increments _ _ _ _ _ Hal) as (Hsnd & _ & Hlt).
      fold r in Hsnd. rewrite Hsnd.
      assert (Hlt' : (stored t (call_wxid c) (minuteKey (call_time c)) < maxPerMinute)%Z).
      { destruct Hlt as [Hlt|Hnone]; [exact Hlt|]. unfold stored. rewrite Hnone. lia. }
      cbn [List.filter]. destruct (in_minute w k c) eqn:Hin.
      * apply in_minute_true in Hin as [Hw Hk]. rewrite Hw, Hk in *.
        destruct (IH (increment t w k)) as [Heq Hle].
        { rewrite stored_increment_same. lia. }
        cbn zeta in Heq, Hle. split; [|exact Hle].
        rewrite Heq, stored_increment_same. cbn [List.length]. lia.
      * assert (Hne : w <> call_wxid c \/ k <> minuteKey (call_time c)).
        { destruct (decide (w = call_wxid c)) as [->|]; [|left; assumption].
          destruct (decide (k = minuteKey (call_time c))) as [->|]; [|right; assumption].
          exfalso. apply not_true_iff_false in Hin. apply Hin, in_minute_true. tauto. }
        destruct (IH (increment t (call_wxid c) (minuteKey (call_time c)))) as [Heq Hle].
        { rewrite stored_increment_other by exact Hne. exact Ht. }
        cbn zeta in Heq, Hle. split; [|exact Hle].
        rewrite Heq, stored_increment_other by exact Hne. reflexivity.
    + subst r. rewrite (denied_leaves_counters _ _ _ _ _ Hal). apply IH, Ht.
Qed.

Lemma in_day_true (w : jsstring) (d : Z) (c : call) :
  in_day w d c = true <-> call_wxid c = w /\ dayWindow (call_time c) = d.
Proof.
  unfold in_day, eqb_str. rewrite andb_true_iff, bool_decide_eq_true, Z.eqb_eq. tauto.
Qed.

(** The counters of a day sum to the calls admitted on it, and a day
    limit that is not negative bounds the sum. *)
Lemma run_counts_day (maxPerMinute maxPerDay : Z) (w : jsstring) (d : Z) :
  forall (calls : list call) (t : list rate_row),
    counters_nonneg t ->
    (on_day t w d <= maxPerDay)%Z ->
    let r := run maxPerMinute maxPerDay calls t in
    on_day (snd r) w d
    = (on_day t w d + Z.of_nat (List.length (List.filter (in_day w d) (fst r))))%Z
    /\ (on_day (snd r) w d <= maxPerDay)%Z.
Proof.
  induction calls as [|c cs IH]; intros t Hpos Ht; cbn zeta.
  - cbn [run fst snd List.filter List.length]. split; lia.
  - rewrite run_cons. cbn zeta. cbn [fst snd].
    set (r := checkAndIncrement (call_time c) t (call_wxid c) maxPerMinute maxPerDay).
    destruct (allowed (fst r)) eqn:Hal.
    + destruct (admitted_increments _ _ _ _ _ Hal) as (Hsnd & Hday & _).
      fold r in Hsnd. rewrite Hsnd.
      pose proof (on_day_le_dayCount t (call_wxid c) (dayWindow (call_time c)) Hpos) as Hle.
      pose proof (on_day_increment t (call_wxid c) w (minuteKey (call_time c)) d) as Hinc.
      rewrite <- dayWindow_of_minuteKey in Hinc. fold (in_day w d c) in Hinc.
      destruct (IH (increment t (call_wxid c) (minuteKey (call_time c)))) as [Heq Hbound].
      { apply increment_nonneg, Hpos. }
      { rewrite Hinc. destruct (in_day w d c) eqn:Hin; [|lia].
        apply in_day_true in Hin as [Hw Hd]. rewrite Hw, Hd in *. lia. }
      cbn zeta in Heq, Hbound. split; [|exact Hbound].
      rewrite Heq, Hinc. cbn [List.filter].
      destruct (in_day w d c); cbn [List.length]; lia.
    + subst r. rewrite (denied_leaves_counters _ _ _ _ _ Hal). apply IH; assumption.
Qed.

(** For every sequence of calls on an empty table, with a minute limit
    of at least 1: no more than [maxPerMinute] calls of a user are
    admitted within one minute window. *)
Lemma admitted_per_minute_bounded (maxPerMinute maxPerDay : Z) (calls : list call)
    (w : jsstring) (k : Z) :
  (1 <= maxPerMinute)%Z ->
  (Z.of_nat (List.length
     (List.filter (in_minute w k) (fst (run maxPerMinute maxPerDay calls []))))
   <= maxPerMinute)%Z.
Proof.
  intros Hmax.
  destruct (run_counts_minute maxPerMinute maxPerDay w k Hmax calls []) as [Heq Hle].
  { cbn. lia. }
  cbn zeta in Heq, Hle. rewrite Heq in Hle. cbn in Hle. lia.
Qed.

(** For every sequence of calls on an empty table, with a day limit that
    is not negative: no more than [maxPerDay] calls of a user are
    admitted on one day. *)
Lemma admitted_per_day_bounded (maxPerMinute maxPerDay : Z) (calls : list call)
    (w : jsstring) (d : Z) :
  (0 <= maxPerDay)%Z ->
  (Z.of_nat (List.length
     (List.filter (in_day w d) (fst (run maxPerMinute maxPerDay calls []))))
   <= maxPerDay)%Z.
Proof.
  intros Hmax.
  destruct (run_counts_day maxPerMinute maxPerDay w d calls []) as [Heq Hle].
  { constructor. }
  { cbn. lia. }
  cbn zeta in Heq, Hle. rewrite Heq in Hle. cbn in Hle. lia.
Qed.

(** A limit of 0 written in config.yaml does not reach the limiter:
    [loadConfig] replaces it by the default. *)
Lemma loadConfig_zero_limits (raw : raw_config) :
  raw_max_per_minute raw = Some 0%Z -> raw_max_per_day raw = Some 0%Z ->
  max_per_minute (loadConfig raw) = 10%Z /\ max_per_day (loadConfig raw) = 200%Z.
Proof. intros Hm Hd. unfold loadConfig. cbn. rewrite Hm, Hd. split; reflexivity. Qed.

End RateLimit.

(** ** Search by nickname *)

Section NicknameSearch.
Import Database Samples.

Lemma any_suffix_true (f : list N -> bool) (s : list N) :
  any_suffix f s = true <-> exists pre post, s = pre ++ post /\ f post = true.
Proof.
  induction s as [|c s IH]; cbn [any_suffix].
  - rewrite orb_false_r. split.
    + intros H. exists [], []. split; [reflexivity | exact H].
    + intros (pre & post & Hs & H). symmetry in Hs.
      apply app_eq_nil in Hs as [_ ->]. exact H.
  - rewrite orb_true_iff, IH. split.
    + intros [H|(pre & post & -> & H)].
      * exists [], (c :: s). split; [reflexivity | exact H].
      * exists (c :: pre), post. split; [reflexivity | exact H].
    + intros ([|x pre] & post & Hs & H).
      * left. cbn in Hs. rewrite Hs. exact H.
      * right. injection Hs as _ ->. exists pre, post. split; [reflexivity | exact H].
Qed.

Lemma like_literal_then_percent (q : list N) :
  literal q ->
  forall s, like (q ++ [PERCENT]) s = true
            <-> exists m post, s = m ++ post /\ same_ignoring_case q m.
Proof.
  induction 1 as [|c q [Hp Hu] Hq IH]; intros s.
  - cbn [app like]. rewrite N.eqb_refl. split.
    + intros _. exists [], s. split; [reflexivity | constructor].
    + intros _. apply any_suffix_true. exists s, []. split; [symmetry; apply app_nil_r | reflexivity].
  - cbn [app like].
    destruct (N.eqb_spec c PERCENT) as [|_]; [contradiction|].
    destruct (N.eqb_spec c UNDERSCORE) as [|_]; [contradiction|].
    cbn [orb]. destruct s as [|d s].
    + split; [discriminate|]. intros (m & post & Hs & Hm).
      inversion Hm; subst. discriminate.
    + rewrite andb_true_iff, IH. unfold like_char. rewrite N.eqb_eq. split.
      * intros (Hcd & m & post & -> & Hm).
        exists (d :: m), post. split; [reflexivity | constructor; assumption].
      * intros (m & post & Hs & Hm). inversion Hm as [|? d' ? m' Hcd Hm']; subst.
        injection Hs as -> ->. split; [exact Hcd|]. exists m', post. split; [reflexivity | exact Hm'].
Qed.

(** For a pattern without wildcards, [LIKE '%q%'] is containment of [q]
    up to the case of ASCII letters. *)
Lemma like_literal (q s : list N) :
  literal q ->
  like ([PERCENT] ++ q ++ [PERCENT]) s = true
  <-> exists pre m post, s = pre ++ m ++ post /\ same_ignoring_case q m.
Proof.
  intros Hq. cbn [app like]. rewrite N.eqb_refl, any_suffix_true. split.
  - intros (pre & rest & -> & H). apply (like_literal_then_percent q Hq) in H
      as (m & post & -> & Hm). exists pre, m, post. split; [reflexivity | exact Hm].
  - intros (pre & m & post & -> & Hm). exists pre, (m ++ post). split; [reflexivity|].
    apply (like_literal_then_percent q Hq). exists m, post. split; [reflexivity | exact Hm].
Qed.

(** The pattern [%] alone matches every text, and [_] every text that
    is not empty. *)
Lemma like_percent_anything (s : list N) :
  like ([PERCENT] ++ [PERCENT] ++ [PERCENT]) s = true.
Proof.
  cbn [app like]. rewrite !N.eqb_refl. apply any_suffix_true.
  exists [], s. split; [reflexivity|]. apply any_suffix_true.
  exists [], s. split; [reflexivity|]. apply any_suffix_true.
  exists s, []. split; [symmetry; apply app_nil_r | reflexivity].
Qed.

Lemma findByNickname_percent (t : list friend) :
  findByNickname t [PERCENT]
  = List.filter (fun r => match nickname r, remark_name r with
                          | None, None => false
                          | _, _ => true
                          end) t.
Proof.
  unfold findByNickname. induction t as [|r t IH]; [reflexivity|].
  cbn [List.filter]. rewrite IH. unfold LIKE.
  change (code_points ([PERCENT] ++ [PERCENT] ++ [PERCENT]))
    with ([PERCENT] ++ [PERCENT] ++ [PERCENT]).
  destruct (nickname r), (remark_name r); rewrite ?like_percent_anything; reflexivity.
Qed.

(** C6 (fails on the code).  The search pattern is ['%' + q + '%'] with
    [q] as it was typed: for [q = "_"] both friends are returned though
    neither name contains an underscore, for [q = "%"] likewise, and
    [q = "A%e"] returns Alice. *)
Theorem findByNickname_interprets_wildcards :
  let alice := Samples.a_friend "u1" "Alice" "normal" in
  let bob := Samples.a_friend "u2" "Bob" "normal" in
  findByNickname [alice; bob] (utf16 "_") = [alice; bob]
  /\ Samples.literal_matches [alice; bob] (utf16 "_") = []
  /\ findByNickname [alice; bob] (utf16 "%") = [alice; bob]
  /\ Samples.literal_matches [alice; bob] (utf16 "%") = []
  /\ findByNickname [alice; bob] (utf16 "A%e") = [alice]
  /\ Samples.literal_matches [alice; bob] (utf16 "A%e") = [].
Proof. vm_compute. repeat split; reflexivity. Qed.

(** Apart from wildcards, the match also ignores the case of ASCII
    letters: searching for [alice] finds Alice. *)
Lemma findByNickname_ignores_case :
  let alice := Samples.a_friend "u1" "Alice" "normal" in
  findByNickname [alice] (utf16 "alice") = [alice]
  /\ Samples.literal_matches [alice] (utf16 "alice") = [].
Proof. vm_compute. split; reflexivity. Qed.

End NicknameSearch.

(** ** The in-flight guard of the executor *)

Section InFlightGuard.
Import ClaudeExecutor.

(** A [catch] block that returns a value leaves no exception. *)
Lemma try_catch_returns {A} (m : M A) (a : A) (w : world) :
  exists r, fst (try_catch m (fun _ => ret a) w) = Ok r.
Proof.
  unfold try_catch, ret. destruct (m w) as [[r|e] w']; eexists; reflexivity.
Qed.

(** Whatever the [try] and [catch] blocks do, and whether they return
    or throw, the [finally] block has removed the wxid afterwards. *)
Lemma finally_releases {A} (m : M A) (wxid : jsstring) (w : world) :
  wxid ∉ activeTasks (snd (try_finally m (activeTasks_delete wxid) w)).
Proof.
  unfold try_finally, activeTasks_delete, bind, gets, set_activeTasks, modify.
  destruct (m w) as [r w']. cbn.
  intros [_ Hout]%elem_of_difference. apply Hout, elem_of_singleton. reflexivity.
Qed.

Lemma finally_result {A} (m : M A) (wxid : jsstring) (w : world) :
  try_finally m (activeTasks_delete wxid) w
  = (fst (m w), with_activeTasks (activeTasks (snd (m w)) ∖ {[wxid]}) (snd (m w))).
Proof.
  unfold try_finally, activeTasks_delete, bind, gets, set_activeTasks, modify.
  destruct (m w) as [r w']. reflexivity.
Qed.

Lemma kept_refl (w : world) : Terms.in_flight_kept w w.
Proof.
  split; [reflexivity|]. exists []. split; [symmetry; apply app_nil_r | constructor].
Qed.

Lemma kept_trans (w1 w2 w3 : world) :
  Terms.in_flight_kept w1 w2 -> Terms.in_flight_kept w2 w3 -> Terms.in_flight_kept w1 w3.
Proof.
  intros (Ha & d1 & Hd1 & Hf1) (Hb & d2 & Hd2 & Hf2).
  split; [congruence|]. exists (d1 ++ d2). split.
  - rewrite Hd2, Hd1, app_assoc. reflexivity.
  - apply Forall_app. split; [exact Hf1|]. rewrite Ha in Hf2. exact Hf2.
Qed.

Lemma kept_trace (w : world) (tr : list event) : Terms.in_flight_kept w (with_trace tr w).
Proof.
  split; [reflexivity|]. exists []. split; [symmetry; apply app_nil_r | constructor].
Qed.

Lemma kept_sessions (w : world) (t : list Database.session) :
  Terms.in_flight_kept w (with_sessions t w).
Proof.
  split; [reflexivity|]. exists []. split; [symmetry; apply app_nil_r | constructor].
Qed.

Lemma kept_awaited (w : world) (e : event) : Terms.in_flight_kept w (awaited e w).
Proof.
  split; [reflexivity|]. exists [activeTasks w]. split; [reflexivity|].
  constructor; [reflexivity | constructor].
Qed.

(** The [try] block of [execute] leaves the in-flight set alone, and at
    each of its awaits the set is the one the block was entered with.
    When there is a friend to serve, it awaits at least once: the first
    thing it does is to ask docker for the container. *)
Lemma execute_body_awaits (E : env) (cfg : config) (wxid : jsstring)
    (friendInfo : option Database.friend) (message : jsstring) (w : world) :
  exists during,
    activeTasks (snd (execute_body E cfg wxid friendInfo message w)) = activeTasks w
    /\ awaits (snd (execute_body E cfg wxid friendInfo message w)) = awaits w ++ during
    /\ Forall (fun s => s = activeTasks w) during
    /\ (friendInfo <> None -> during <> []).
Proof.
  pose proof kept_refl as Hr. pose proof kept_trans as Ht.
  pose proof kept_trace as Htr. pose proof kept_awaited as Haw.
  pose proof kept_sessions as Hs.
  destruct friendInfo as [f|].
  - set (name := DockerManager.containerName cfg wxid).
    assert (Hk : Terms.in_flight_kept (awaited (Docker [utf16 "inspect"; name]) w)
                   (snd (execute_body E cfg wxid (Some f) message w))).
    { assert (H0 : snd (DockerManager.containerExists E name w)
                   = awaited (Docker [utf16 "inspect"; name]) w).
      { unfold DockerManager.containerExists, try_catch, bind, DockerManager.docker, ret.
        destruct (execFile E (trace w) _); reflexivity. }
      assert (H1 : Terms.in_flight_kept
                     (snd (DockerManager.containerExists E name w))
                     (snd (DockerManager.ensureContainer E cfg wxid
                             (Database.permission f) w))).
      { unfold DockerManager.ensureContainer. cbv zeta. fold name.
        apply (preserves_after _ Hr). intros b.
        unfold DockerManager.createContainer, DockerManager.fixPermissions,
          DockerManager.userDataDir, DockerManager.isRunning, DockerManager.startContainer.
        repeat frame_step.
        all: try match goal with |- Terms.preserves _ (if ?c then _ else _) => destruct c end.
        all: repeat frame_step. }
      rewrite H0 in H1. apply (Ht _ _ _ H1).
      unfold execute_body. unfold bind at 1. unfold ret at 1. cbv beta iota.
      apply (preserves_after _ Hr). intros name'.
      apply preserves_bind;
        [assumption
        | apply (preserves_getOrCreateSession _ Hr Ht Htr Hs)
        | intros session].
      apply preserves_bind; [assumption | destruct session; auto with frame | intros s].
      apply preserves_bind;
        [assumption | apply (preserves_touch _ Hr Ht Htr Hs) | intros _].
      apply preserves_bind; [assumption | auto with frame | intros result].
      apply preserves_bind; [assumption | | intros _; auto with frame].
      destruct (DockerManager.stderr result) as [[|u err]|]; auto with frame.
      unfold tryExtractSessionId. destruct (session_id_match (u :: err)); auto with frame. }
    destruct Hk as (Hact & d & Hd & Hf).
    exists (activeTasks w :: d). cbn [activeTasks awaited with_awaits with_trace] in Hact.
    split; [exact Hact|]. split.
    + rewrite Hd. cbn [awaits awaited with_awaits with_trace]. rewrite <- app_assoc.
      reflexivity.
    + split; [|intros _; discriminate].
      constructor; [reflexivity|]. exact Hf.
  - exists []. unfold execute_body, bind, throw. cbn [snd].
    split; [reflexivity|]. split; [symmetry; apply app_nil_r|].
    split; [constructor | intros H; contradiction].
Qed.

(** C5.  If the wxid is in the in-flight set, [execute] returns the busy
    reply and leaves the world as it was: nothing is added to the trace,
    so neither docker, nor the store, nor the Claude CLI was invoked.
    Otherwise the [try] block runs in a world in which the wxid has been
    inserted; [execute] returns what the [try] or the [catch] block
    returns, never an exception, and in the world it leaves the wxid is
    not in the set, whatever the environment answered and wherever an
    exception was thrown.  The insertion comes before the first await:
    at every point at which the call awaits a child process, and it
    does so at least once when there is a friend to serve, the wxid is
    in the set, so that a call for the same wxid that the event loop
    runs there returns the busy reply and changes nothing. *)
Theorem execute_guards_in_flight (E : env) (cfg : config) (wxid : jsstring)
    (friendInfo : option Database.friend) (message : jsstring) (w : world) :
  if bool_decide (wxid ∈ activeTasks w)
  then execute E cfg wxid friendInfo message w = (Ok BUSY_REPLY, w)
  else
    let entered := with_activeTasks ({[wxid]} ∪ activeTasks w) w in
    let guarded :=
      try_catch (execute_body E cfg wxid friendInfo message)
                (fun _ => ret EXECUTE_FAILED) entered in
    wxid ∈ activeTasks entered
    /\ (exists reply, fst guarded = Ok reply)
    /\ execute E cfg wxid friendInfo message w
       = (fst guarded,
          with_activeTasks (activeTasks (snd guarded) ∖ {[wxid]}) (snd guarded))
    /\ (wxid ∉ activeTasks (snd (execute E cfg wxid friendInfo message w)))
    /\ exists during,
         awaits (snd (execute E cfg wxid friendInfo message w)) = awaits w ++ during
         /\ (friendInfo <> None -> during <> [])
         /\ Forall
              (fun in_flight =>
                 wxid ∈ in_flight
                 /\ forall (w2 : world) (f2 : option Database.friend) (m2 : jsstring),
                      activeTasks w2 = in_flight ->
                      execute E cfg wxid f2 m2 w2 = (Ok BUSY_REPLY, w2))
              during.
Proof.
  assert (Hbusy_reply : forall (w2 : world) f2 m2,
            wxid ∈ activeTasks w2 -> execute E cfg wxid f2 m2 w2 = (Ok BUSY_REPLY, w2)).
  { intros w2 f2 m2 Hin. unfold execute, bind, activeTasks_has, gets.
    rewrite (bool_decide_eq_true_2 _ Hin). reflexivity. }
  destruct (bool_decide (wxid ∈ activeTasks w)) eqn:Hbusy.
  - apply Hbusy_reply. apply bool_decide_eq_true in Hbusy. exact Hbusy.
  - cbn zeta.
    assert (Hrun : execute E cfg wxid friendInfo message w
                   = try_finally
                       (try_catch (execute_body E cfg wxid friendInfo message)
                                  (fun _ => ret EXECUTE_FAILED))
                       (activeTasks_delete wxid)
                       (with_activeTasks ({[wxid]} ∪ activeTasks w) w)).
    { unfold execute, bind at 1, activeTasks_has, gets. rewrite Hbusy.
      unfold bind at 1, activeTasks_set, bind, gets, set_activeTasks, modify.
      reflexivity. }
    split; [cbn; set_solver|]. split; [apply try_catch_returns|].
    rewrite Hrun. split; [apply finally_result|]. split; [apply finally_releases|].
    rewrite finally_result. cbn [snd awaits with_activeTasks].
    set (entered := with_activeTasks ({[wxid]} ∪ activeTasks w) w).
    destruct (execute_body_awaits E cfg wxid friendInfo message entered)
      as (during & _ & Hd & Hall & Hne).
    assert (Hsnd : snd (try_catch (execute_body E cfg wxid friendInfo message)
                          (fun _ => ret EXECUTE_FAILED) entered)
                   = snd (execute_body E cfg wxid friendInfo message entered)).
    { unfold try_catch, ret.
      destruct (execute_body E cfg wxid friendInfo message entered) as [[r|e] w1];
        reflexivity. }
    rewrite Hsnd. exists during. split; [exact Hd|]. split; [exact Hne|].
    rewrite Forall_forall in Hall. apply Forall_forall. intros s Hs.
    specialize (Hall s Hs). subst s.
    assert (Hin : wxid ∈ activeTasks entered) by (cbn; set_solver).
    split; [exact Hin|]. intros w2 f2 m2 Hw2. apply Hbusy_reply. rewrite Hw2. exact Hin.
Qed.

(** An exit by exception: docker fails while the container is made
    ready; the reply is the failure message and the set is empty again. *)
Lemma execute_releases_after_exception :
  let E := Samples.docker_down ∅ in
  let cfg := loadConfig empty_yaml in
  let alice := Samples.a_friend "u1" "Alice" "normal" in
  let w := Samples.world_of_friends [alice] 1793561760000 in
  let r := execute E cfg (utf16 "u1") (Some alice) (utf16 "hi") w in
  fst (DockerManager.ensureContainer E cfg (utf16 "u1") (utf16 "normal") w)
  = Throw "Command failed: docker"
  /\ fst r = Ok EXECUTE_FAILED
  /\ activeTasks (snd r) = ∅.
Proof. vm_compute. repeat split; reflexivity. Qed.

End InFlightGuard.

(** ** Replies of the router *)

Section RouterReplies.
Import MessageRouter.

(** C9 (fails on the code).  The admin sends [/rebuild Alice] while
    docker is failing: the exception of [docker create] leaves
    [handleMessage], which returns neither a string nor null. *)
Theorem command_exception_escapes_handleMessage :
  let E := Samples.docker_down ∅ in
  let cfg := loadConfig (Samples.yaml_with_admin (utf16 "admin0")) in
  let w := Samples.world_of_friends
             [Samples.a_friend "admin0" "Boss" "admin";
              Samples.a_friend "u1" "Alice" "normal"] 1793561760000 in
  fst (handleMessage E cfg (Samples.a_contact "admin0" "Boss") (utf16 "/rebuild Alice") w)
  = Throw "Command failed: docker".
Proof. vm_compute. reflexivity. Qed.

(** The sibling path contains the same failure: a plain message of Alice
    on the same host is answered with the failure message. *)
Lemma execution_failure_is_answered :
  let E := Samples.docker_down ∅ in
  let cfg := loadConfig (Samples.yaml_with_admin (utf16 "admin0")) in
  let w := Samples.world_of_friends
             [Samples.a_friend "admin0" "Boss" "admin";
              Samples.a_friend "u1" "Alice" "normal"] 1793561760000 in
  fst (handleMessage E cfg (Samples.a_contact "u1" "Alice") (utf16 "hi") w)
  = Ok (Some ClaudeExecutor.EXECUTE_FAILED).
Proof. vm_compute. reflexivity. Qed.

(** *** When [handleMessage] returns null *)

Lemma bind_returns {A B} (m : M A) (k : A -> M B) (w w' : world) (b : B) :
  bind m k w = (Ok b, w') ->
  exists a w1, m w = (Ok a, w1) /\ k a w1 = (Ok b, w').
Proof.
  unfold bind. destruct (m w) as [[a|e] w1]; [|discriminate].
  intros H. exists a, w1. split; [reflexivity | exact H].
Qed.

Lemma ret_returns {A} (a b : A) (w w' : world) :
  ret a w = (Ok b, w') -> a = b /\ w = w'.
Proof. unfold ret. intros H. injection H as -> ->. split; reflexivity. Qed.

(** Past the two permission tests, whatever [dispatch] returns is a
    string. *)
Lemma dispatch_returns_null (E : env) (cfg : config) (c : contact)
    (message perm : jsstring) (w w' : world) :
  dispatch E cfg c message perm w = (Ok None, w') ->
  perm = utf16 "blocked" \/ (perm = [] /\ notify_unauthorized cfg = false).
Proof.
  unfold dispatch. destruct (Database.eqb_str perm (utf16 "blocked")) eqn:Hb.
  { intros _. left. apply bool_decide_eq_true in Hb. exact Hb. }
  destruct perm as [|u perm].
  { intros H. apply ret_returns in H as [H _].
    destruct (notify_unauthorized cfg); [discriminate | right; split; reflexivity]. }
  intros H. exfalso.
  apply bind_returns in H as (rateCheck & w1 & _ & H).
  destruct (negb (Database.allowed rateCheck)).
  { apply ret_returns in H as [H _]. discriminate. }
  apply bind_returns in H as (response & w2 & _ & H).
  destruct response as [r|].
  { apply bind_returns in H as (_ & w3 & _ & H).
    apply ret_returns in H as [H _]. discriminate. }
  apply bind_returns in H as (secCheck & w3 & _ & H).
  destruct secCheck as [reason|].
  { apply ret_returns in H as [H _]. discriminate. }
  apply bind_returns in H as (friendInfo & w4 & _ & H).
  unfold try_catch in H.
  destruct (bind (ClaudeExecutor.execute E cfg (wxid c) friendInfo message) _ w4)
    as [[v|e] w5] eqn:Hexec.
  - injection H as -> ->.
    apply bind_returns in Hexec as (r & w6 & _ & Hexec).
    apply bind_returns in Hexec as (_ & w7 & _ & Hexec).
    apply ret_returns in Hexec as [Hexec _]. discriminate.
  - apply ret_returns in H as [H _]. discriminate.
Qed.

Lemma dispatch_blocked (E : env) (cfg : config) (c : contact)
    (message : jsstring) (w : world) :
  dispatch E cfg c message (utf16 "blocked") w = (Ok None, w).
Proof. reflexivity. Qed.

Lemma dispatch_no_permission (E : env) (cfg : config) (c : contact)
    (message : jsstring) (w : world) :
  dispatch E cfg c message [] w
  = (Ok (if notify_unauthorized cfg then Some (unauthorized_message cfg) else None), w).
Proof. reflexivity. Qed.

(** [handleMessage] returns null exactly when the effective permission
    is ['blocked'], or is empty while [notify_unauthorized] is unset.
    On every other path it returns a string, or it throws. *)
Lemma handleMessage_returns_null_iff (E : env) (cfg : config) (c : contact)
    (message : jsstring) (w w' : world) :
  handleMessage E cfg c message w = (Ok None, w')
  <-> exists perm,
        ingress E cfg c message w = (Ok perm, w')
        /\ (perm = utf16 "blocked" \/ (perm = [] /\ notify_unauthorized cfg = false)).
Proof.
  unfold handleMessage. split.
  - intros H. apply bind_returns in H as (perm & w1 & Hin & H).
    pose proof (dispatch_returns_null _ _ _ _ _ _ _ H) as Hperm.
    exists perm. split; [|exact Hperm].
    destruct Hperm as [->|[-> Hn]].
    + rewrite dispatch_blocked in H. injection H as ->. exact Hin.
    + rewrite dispatch_no_permission, Hn in H. injection H as ->. exact Hin.
  - intros (perm & Hin & Hperm). unfold bind. rewrite Hin.
    destruct Hperm as [->|[-> Hn]].
    + apply dispatch_blocked.
    + rewrite dispatch_no_permission, Hn. reflexivity.
Qed.

(** With the configuration [loadConfig] produces, the effective
    permission is never empty. *)
Lemma loadConfig_default_level (raw : raw_config) :
  default_level (loadConfig raw) <> [].
Proof.
  unfold loadConfig. cbn [default_level].
  destruct (raw_default_level raw) as [[|u l]|]; discriminate.
Qed.

End RouterReplies.

(** ** Re-registration of a known friend *)

Section Registration.
Import MessageRouter.

(** When a known friend arrives with another nickname or remark name,
    [ensureFriendRegistered] upserts the two names only, and the stored
    permission becomes ['normal']. *)
Lemma reregistration_stores_normal (E : env) (cfg : config)
    (wxid nickname remarkName : jsstring) (w : world) (r : Database.friend) :
  Database.get (friends w) wxid = Some r ->
  Database.nickname r <> Some nickname \/ Database.remark_name r <> Some remarkName ->
  exists w',
    ensureFriendRegistered E cfg wxid nickname remarkName w = (Ok tt, w')
    /\ Database.getPermission (friends w') wxid = Some (utf16 "normal").
Proof.
  intros Hget Hchanged.
  set (f := {| Database.u_nickname := Some nickname;
               Database.u_remark_name := Some remarkName;
               Database.u_permission := None; Database.u_added_by := None;
               Database.u_notes := None |}).
  destruct (upsert_existing (CURRENT_TIMESTAMP E (now w)) (friends w) wxid f r Hget)
    as (t' & Hup & Hget'); [reflexivity|].
  exists (with_friends t' (with_trace (trace w ++ [Sql "friends.get"; Sql "friends.upsert"]) w)).
  split.
  - unfold ensureFriendRegistered, Store.friendsDB_get, Store.friendsDB_upsert,
      Store.timestamp, bind, record, modify, gets, lift, set_friends, with_trace.
    cbn [friends now trace]. rewrite Hget.
    assert (Hne : negb (bool_decide (Database.nickname r = Some nickname))
                  || negb (bool_decide (Database.remark_name r = Some remarkName)) = true).
    { apply orb_true_iff. destruct Hchanged as [H|H]; [left|right];
        apply negb_true_iff, bool_decide_eq_false; exact H. }
    rewrite Hne. fold f. cbn [friends now trace]. rewrite Hup.
    unfold with_friends. cbn. rewrite <- app_assoc. reflexivity.
  - unfold Database.getPermission. cbn [friends with_friends]. rewrite Hget'. reflexivity.
Qed.

(** A blocked friend who changes nickname is answered from then on. *)
Lemma blocked_friend_is_unblocked_by_renaming :
  let E := Samples.docker_up ∅ (utf16 "hello") in
  let cfg := loadConfig (Samples.yaml_with_admin (utf16 "admin0")) in
  let w := Samples.world_of_friends [Samples.a_friend "u2" "Bob" "blocked"] 1793561760000 in
  fst (handleMessage E cfg (Samples.a_contact "u2" "Bob") (utf16 "hi") w) = Ok None
  /\ fst (handleMessage E cfg (Samples.a_contact "u2" "Bobby") (utf16 "hi") w)
     = Ok (Some (utf16 "hello")).
Proof. vm_compute. split; reflexivity. Qed.

End Registration.

(** ** Two runs of the whole pipeline *)

Section Scenarios.
Import MessageRouter.

(** The first message of a new user on a host whose docker engine
    works: the friend is registered as ['normal'], the container is
    created and started, a session is created and touched, Claude is
    invoked once and its output is the reply; two audit rows are
    written. *)
Lemma first_message_of_a_new_user :
  let E := Samples.docker_engine ∅ (utf16 "hello") in
  let cfg := loadConfig (Samples.yaml_with_admin (utf16 "admin0")) in
  let r := handleMessage E cfg (Samples.a_contact "u1" "Alice") (utf16 "hi")
             (Samples.empty_world 1793561760000) in
  fst r = Ok (Some (utf16 "hello"))
  /\ Samples.outline (trace (snd r))
     = [ "audit.log"; "friends.get"; "friends.upsert"; "friends.getPermission";
         "rate_limits.checkAndIncrement"; "friends.get";
         "docker inspect"; "mkdir"; "docker create"; "mkdir"; "mkdir"; "mkdir";
         "docker exec"; "docker inspect"; "docker start";
         "sessions.getActive"; "uuid"; "sessions.create"; "sessions.getActive";
         "sessions.touch"; "spawn docker exec claude"; "audit.log" ]%string
  /\ Database.getPermission (friends (snd r)) (utf16 "u1") = Some (utf16 "normal")
  /\ List.length (audit_log (snd r)) = 2%nat
  /\ activeTasks (snd r) = ∅.
Proof. vm_compute. repeat split; reflexivity. Qed.

(** Four calls within one minute under the limits 3 per minute and 10
    per day: the first three are admitted, the fourth is denied, and the
    counter of the minute holds 3. *)
Lemma fourth_call_in_a_minute_is_denied :
  let c := {| Accounting.call_time := 1793561760000;
              Accounting.call_wxid := utf16 "u1" |} in
  Accounting.run 3 10 [c; c; c; c] []
  = ([c; c; c],
     [{| Database.r_wxid := utf16 "u1"; Database.window_start := 29892696;
         Database.request_count := 3 |}])
  /\ fst (Database.checkAndIncrement 1793561760000
            (snd (Accounting.run 3 10 [c; c; c] [])) (utf16 "u1") 3 10)
     = {| Database.allowed := false; Database.reason := Some Database.TOO_FREQUENT |}.
Proof. vm_compute. split; reflexivity. Qed.

End Scenarios.

(* ===================================================================== *)
(** * Part III: further properties of the sources                         *)
(* ===================================================================== *)

(** ** The friends table *)

Section FriendsTable.
Import Database.

Lemma eqb_str_true (a b : jsstring) : eqb_str a b = true <-> a = b.
Proof. unfold eqb_str. apply bool_decide_eq_true. Qed.

Lemma eqb_str_false (a b : jsstring) : eqb_str a b = false <-> a <> b.
Proof. unfold eqb_str. apply bool_decide_eq_false. Qed.

Lemma get_Some_wxid (t : list friend) (w : jsstring) (r : friend) :
  get t w = Some r -> wxid r = w /\ In r t.
Proof.
  unfold get. intros H. apply find_some in H as [Hin Heq].
  split; [apply eqb_str_true, Heq | exact Hin].
Qed.

Lemma get_None_iff (t : list friend) (w : jsstring) :
  get t w = None <-> ~ In w (map wxid t).
Proof.
  unfold get. induction t as [|a t IH]; cbn [find map In].
  - tauto.
  - destruct (eqb_str (wxid a) w) eqn:Ha.
    + apply eqb_str_true in Ha. split; [discriminate | tauto].
    + apply eqb_str_false in Ha. rewrite IH. tauto.
Qed.

Lemma get_app (t : list friend) (r : friend) (w : jsstring) :
  get (t ++ [r]) w
  = match get t w with
    | Some x => Some x
    | None => if eqb_str (wxid r) w then Some r else None
    end.
Proof.
  unfold get. induction t as [|a t IH]; cbn [find app].
  - reflexivity.
  - destruct (eqb_str (wxid a) w); [reflexivity | exact IH].
Qed.

Lemma wxids_update_row (w : jsstring) (g : friend -> friend) (t : list friend) :
  (forall x, wxid (g x) = wxid x) ->
  map wxid (update_row w g t) = map wxid t.
Proof.
  intros Hg. induction t as [|a t IH]; [reflexivity|].
  cbn [update_row]. destruct (eqb_str (wxid a) w); cbn [map].
  - rewrite Hg. reflexivity.
  - rewrite IH. reflexivity.
Qed.

(** X1.  An upsert is rejected exactly when the bound permission
    [permission || 'normal'] is not one of the four tiers.  Otherwise it
    succeeds, the friend can be looked up afterwards with that
    permission, every other friend's row is as before, and the table
    grows by one row exactly when the wxid was not in it. *)
Theorem upsert_then_get (ts : jsstring) (t : list friend) (w : jsstring)
    (f : upsert_fields) :
  if permission_check (or_opt (u_permission f) (utf16 "normal"))
  then exists t' r,
         upsert ts t w f = Ok t'
         /\ get t' w = Some r
         /\ wxid r = w
         /\ permission r = or_opt (u_permission f) (utf16 "normal")
         /\ (forall w', w' <> w -> get t' w' = get t w')
         /\ List.length t'
            = match get t w with
              | Some _ => List.length t
              | None => S (List.length t)
              end
  else upsert ts t w f = Throw "SQLITE_CONSTRAINT_CHECK".
Proof.
  destruct (permission_check _) eqn:Hchk.
  - destruct (get t w) as [old|] eqn:Hget.
    + destruct (upsert_existing ts t w f old Hget Hchk) as (t' & Hup & Hget').
      exists t'. eexists. split; [exact Hup|]. split; [exact Hget'|].
      cbn [wxid permission]. split; [apply (get_Some_wxid t w old Hget)|].
      split; [reflexivity|].
      unfold upsert in Hup. cbn [excluded permission] in Hup.
      rewrite Hchk, Hget in Hup. cbn [negb] in Hup. injection Hup as <-.
      split.
      * intros w' Hne. apply get_update_row_other; [exact Hne | reflexivity].
      * clear. induction t as [|a t IH]; [reflexivity|].
        cbn [update_row]. destruct (eqb_str (Database.wxid a) w); cbn [List.length]; congruence.
    + exists (t ++ [excluded ts w f]), (excluded ts w f).
      unfold upsert. cbn [excluded permission]. rewrite Hchk, Hget. cbn [negb].
      split; [reflexivity|]. rewrite get_app, Hget.
      change (wxid (excluded ts w f)) with w.
      replace (eqb_str w w) with true by (symmetry; apply eqb_str_true; reflexivity).
      split; [reflexivity|]. split; [reflexivity|]. split; [reflexivity|].
      split.
      * intros w' Hne. rewrite get_app. change (wxid (excluded ts w f)) with w.
        replace (eqb_str w w') with false
          by (symmetry; apply eqb_str_false; congruence).
        destruct (get t w'); reflexivity.
      * rewrite length_app. cbn. lia.
  - unfold upsert. cbn [excluded permission]. rewrite Hchk. reflexivity.
Qed.

Lemma get_remove_other (t : list friend) (w w' : jsstring) :
  w' <> w -> get (filter (fun r => wxid r ≠ w) t) w' = get t w'.
Proof.
  intros Hne. unfold get. induction t as [|a t IH]; [reflexivity|].
  rewrite filter_cons. destruct (decide (wxid a ≠ w)) as [Ha|Ha]; cbn [find].
  - rewrite IH. reflexivity.
  - destruct (eqb_str (wxid a) w') eqn:Ha'; [|exact IH].
    apply eqb_str_true in Ha'. exfalso. apply Ha. congruence.
Qed.

Lemma wxids_remove (t : list friend) (w : jsstring) :
  NoDup (map wxid t) ->
  NoDup (map wxid (filter (fun r => wxid r ≠ w) t))
  /\ ~ In w (map wxid (filter (fun r => wxid r ≠ w) t)).
Proof.
  intros Hnd. split.
  - induction t as [|a t IH]; [constructor|].
    apply NoDup_cons in Hnd as [Ha Hnd]. rewrite filter_cons.
    destruct (decide (wxid a ≠ w)); [|apply IH, Hnd].
    cbn [map]. apply NoDup_cons. split; [|apply IH, Hnd].
    intros Hin. apply Ha. apply list_elem_of_In in Hin. apply list_elem_of_In.
    apply in_map_iff in Hin as (x & Hx & Hin). apply in_map_iff. exists x.
    split; [exact Hx|]. apply list_elem_of_In in Hin. apply list_elem_of_In.
    apply list_elem_of_filter in Hin as [_ Hin]. exact Hin.
  - intros Hin. apply in_map_iff in Hin as (x & Hx & Hin).
    apply list_elem_of_In, list_elem_of_filter in Hin as [Hne _]. contradiction.
Qed.

(** X2.  The primary key: a table in which no wxid occurs twice stays
    so under [upsert], [setPermission] and [remove].  [remove] is
    refused exactly when the friend is in the table and a session still
    refers to the friend; otherwise the friend is no longer in the table
    and every other friend is looked up as before. *)
Theorem one_row_per_wxid (ts : jsstring) (t : list friend) (w p : jsstring)
    (f : upsert_fields) :
  NoDup (map wxid t) ->
  (forall t', upsert ts t w f = Ok t' -> NoDup (map wxid t'))
  /\ (forall t', setPermission t w p = Ok t' -> NoDup (map wxid t'))
  /\ (forall ss : list session,
        match remove t ss w with
        | Ok t' =>
            NoDup (map wxid t')
            /\ get t' w = None
            /\ (forall w', w' <> w -> get t' w' = get t w')
            /\ (get t w <> None -> forall s, In s ss -> s_wxid s <> w)
        | Throw e =>
            e = "SQLITE_CONSTRAINT_FOREIGNKEY"%string
            /\ get t w <> None
            /\ exists s, In s ss /\ s_wxid s = w
        end).
Proof.
  intros Hnd. split; [|split].
  - intros t' Hup. unfold upsert in Hup.
    destruct (negb (permission_check (permission (excluded ts w f)))); [discriminate|].
    destruct (get t w) eqn:Hget; injection Hup as <-.
    + rewrite wxids_update_row by reflexivity. exact Hnd.
    + rewrite map_app. cbn [map excluded wxid].
      apply NoDup_app. split; [exact Hnd|]. split.
      * intros x Hx [->|[]]%list_elem_of_In. apply get_None_iff in Hget.
        apply Hget, list_elem_of_In, Hx.
      * apply NoDup_singleton.
  - intros t' Hset. unfold setPermission in Hset.
    destruct (get t w); [|injection Hset as <-; exact Hnd].
    destruct (permission_check p); [|discriminate].
    injection Hset as <-. rewrite wxids_update_row by reflexivity. exact Hnd.
  - intros ss. unfold remove.
    destruct (existsb (fun r => eqb_str (wxid r) w) t) eqn:Hrow; cbn [andb].
    + apply existsb_exists in Hrow as (r & Hr & Hrw). apply eqb_str_true in Hrw.
      assert (Hin : get t w <> None).
      { rewrite get_None_iff. intros H. apply H. apply in_map_iff. exists r. tauto. }
      destruct (existsb (fun s => eqb_str (s_wxid s) w) ss) eqn:Hss.
      * split; [reflexivity|]. split; [exact Hin|].
        apply existsb_exists in Hss as (s & Hs & Hsw). apply eqb_str_true in Hsw.
        exists s. tauto.
      * destruct (wxids_remove t w Hnd) as [Hnd' Hout].
        split; [exact Hnd'|]. split; [apply get_None_iff, Hout|].
        split; [intros w' Hne; apply get_remove_other, Hne|].
        intros _ s Hs Hsw. apply not_true_iff_false in Hss. apply Hss.
        apply existsb_exists. exists s. split; [exact Hs | apply eqb_str_true, Hsw].
    + destruct (wxids_remove t w Hnd) as [Hnd' Hout].
      split; [exact Hnd'|]. split; [apply get_None_iff, Hout|].
      split; [intros w' Hne; apply get_remove_other, Hne|].
      intros Hin. exfalso. apply Hin. apply get_None_iff. intros H.
      apply in_map_iff in H as (r & Hrw & Hr). apply not_true_iff_false in Hrow.
      apply Hrow. apply existsb_exists. exists r. split; [exact Hr | apply eqb_str_true, Hrw].
Qed.

Lemma one_row_per_wxid_witness :
  let t := [Samples.a_friend "u1" "Alice" "normal"; Samples.a_friend "u2" "Bob" "trusted"] in
  NoDup (map wxid t)
  /\ (forall t', upsert (utf16 "2026-01-02 00:00:00") t (utf16 "u2")
                   (Samples.only_names (Some (utf16 "Bobby")) None) = Ok t' ->
                 NoDup (map wxid t'))
  /\ (forall t', setPermission t (utf16 "u2") (utf16 "admin") = Ok t' ->
                 NoDup (map wxid t'))
  /\ (forall ss : list session,
        match remove t ss (utf16 "u2") with
        | Ok t' =>
            NoDup (map wxid t')
            /\ get t' (utf16 "u2") = None
            /\ (forall w', w' <> utf16 "u2" -> get t' w' = get t w')
            /\ (get t (utf16 "u2") <> None ->
                forall s, In s ss -> s_wxid s <> utf16 "u2")
        | Throw e =>
            e = "SQLITE_CONSTRAINT_FOREIGNKEY"%string
            /\ get t (utf16 "u2") <> None
            /\ exists s, In s ss /\ s_wxid s = utf16 "u2"
        end).
Proof.
  assert (H : NoDup (map wxid [Samples.a_friend "u1" "Alice" "normal";
                               Samples.a_friend "u2" "Bob" "trusted"])).
  { vm_compute. apply NoDup_cons. split; [|apply NoDup_singleton].
    intros H. apply list_elem_of_In in H. destruct H as [H|[]]. discriminate. }
  split; [exact H|].
  apply (one_row_per_wxid (utf16 "2026-01-02 00:00:00")
           [Samples.a_friend "u1" "Alice" "normal"; Samples.a_friend "u2" "Bob" "trusted"]
           (utf16 "u2") (utf16 "admin")
           (Samples.only_names (Some (utf16 "Bobby")) None) H).
Defined.

(** X3.  [setPermission] on a friend that exists stores a valid tier,
    which [getPermission] then returns, and leaves every other friend's
    row as it was; an invalid tier is rejected.  On a wxid that is not
    in the table it changes nothing and reports no error, whatever the
    tier. *)
Theorem setPermission_then_getPermission (t : list friend) (w p : jsstring) :
  match get t w with
  | Some r =>
      if permission_check p
      then exists t',
             setPermission t w p = Ok t'
             /\ getPermission t' w = Some p
             /\ (forall w', w' <> w -> get t' w' = get t w')
             /\ (exists r', get t' w = Some r'
                            /\ nickname r' = nickname r
                            /\ remark_name r' = remark_name r
                            /\ notes r' = notes r)
      else setPermission t w p = Throw "SQLITE_CONSTRAINT_CHECK"
  | None => setPermission t w p = Ok t
  end.
Proof.
  unfold setPermission. destruct (get t w) as [r|] eqn:Hget; [|reflexivity].
  destruct (permission_check p) eqn:Hchk; [|reflexivity].
  eexists. split; [reflexivity|].
  pose proof (get_update_row t w
                (fun old => {| wxid := wxid old; nickname := nickname old;
                               remark_name := remark_name old; permission := p;
                               added_at := added_at old; added_by := added_by old;
                               notes := notes old |}) r Hget (fun x => eq_refl)) as Hnew.
  split; [|split].
  - unfold getPermission. rewrite Hnew. cbn [permission].
    destruct p as [|u p]; [discriminate Hchk | reflexivity].
  - intros w' Hne. apply get_update_row_other; [exact Hne | reflexivity].
  - eexists. split; [exact Hnew|]. cbn. repeat split; reflexivity.
Qed.

End FriendsTable.

(** ** Search by nickname, without wildcards *)

Section LiteralSearch.
Import Database Samples Terms.

Lemma code_points_bmp (s : jsstring) : no_surrogates s -> code_points s = s.
Proof.
  induction 1 as [|u s [Hh Hl] _ IH]; [reflexivity|].
  cbn [code_points]. rewrite Hh, Hl, IH. reflexivity.
Qed.

Lemma LIKE_literal (x : option jsstring) (q : jsstring) :
  literal q -> no_surrogates q ->
  LIKE x ([PERCENT] ++ q ++ [PERCENT]) = true <-> contains_ignoring_case x q.
Proof.
  intros Hlit Hbmp. unfold LIKE, contains_ignoring_case.
  assert (Hpat : code_points ([PERCENT] ++ q ++ [PERCENT]) = [PERCENT] ++ q ++ [PERCENT]).
  { apply code_points_bmp. unfold no_surrogates in *.
    apply Forall_app. split; [repeat constructor|].
    apply Forall_app. split; [exact Hbmp | repeat constructor]. }
  destruct x as [s|].
  - rewrite Hpat, like_literal by exact Hlit. split.
    + intros (pre & m & post & Hs & Hm). exists s, pre, m, post. auto.
    + intros (s' & pre & m & post & Heq & Hs & Hm). injection Heq as <-.
      exists pre, m, post. auto.
  - split; [discriminate|]. intros (s & ? & ? & ? & Heq & _). discriminate.
Qed.



End LiteralSearch.

(** ** The sessions table *)

Section SessionsTable.
Import Database.

Lemma str_ltb_cons (x y : N) (a b : jsstring) :
  str_ltb (x :: a) (y :: b) = ((x <? y)%N || (x =? y)%N && str_ltb a b).
Proof. reflexivity. Qed.

Lemma str_ltb_irrefl (a : jsstring) : str_ltb a a = false.
Proof.
  induction a as [|x a IH]; [reflexivity|].
  rewrite str_ltb_cons, IH, N.ltb_irrefl, andb_false_r. reflexivity.
Qed.

Lemma str_ltb_trans (a : jsstring) :
  forall b c, str_ltb a b = true -> str_ltb b c = true -> str_ltb a c = true.
Proof.
  induction a as [|x a IH]; intros [|y b] [|z c]; try discriminate; try reflexivity.
  rewrite !str_ltb_cons, !orb_true_iff, !andb_true_iff, !N.ltb_lt, !N.eqb_eq.
  intros [Hxy|[Hxy Hab]] [Hyz|[Hyz Hbc]].
  - left. lia.
  - left. lia.
  - left. lia.
  - right. split; [lia|]. apply (IH b c Hab Hbc).
Qed.

Lemma str_ltb_total (a : jsstring) :
  forall b, str_ltb b a = false -> a = b \/ str_ltb a b = true.
Proof.
  induction a as [|x a IH]; intros [|y b]; cbn [str_ltb].
  - left. reflexivity.
  - right. reflexivity.
  - discriminate.
  - rewrite orb_false_iff, andb_false_iff, N.ltb_ge, N.eqb_neq.
    rewrite orb_true_iff, andb_true_iff, N.ltb_lt, N.eqb_eq.
    intros [Hyx [Hne|Hba]].
    + right. left. lia.
    + destruct (N.eq_dec x y) as [->|Hne]; [|right; left; lia].
      destruct (IH b Hba) as [->|Hab]; [left; reflexivity | right; right; tauto].
Qed.

(** [a] is no later than [b]. *)
Lemma not_later_trans (a b c : jsstring) :
  str_ltb b a = false -> str_ltb c b = false -> str_ltb c a = false.
Proof.
  intros Hab Hbc. destruct (str_ltb c a) eqn:Hca; [|reflexivity].
  destruct (str_ltb_total a b Hab) as [->|Hlt]; [congruence|].
  rewrite (str_ltb_trans c a b Hca Hlt) in Hbc. discriminate.
Qed.

Lemma getActive_fold (w : jsstring) (t : list session) :
  forall acc : option session,
    (forall b, acc = Some b -> s_wxid b = w) ->
    match fold_left
            (fun best r =>
               if eqb_str (s_wxid r) w then
                 match best with
                 | None => Some r
                 | Some b => if str_ltb (last_active b) (last_active r)
                             then Some r else best
                 end
               else best)
            t acc with
    | Some s =>
        (acc = Some s \/ In s t) /\ s_wxid s = w
        /\ (forall r, In r t -> s_wxid r = w ->
                      str_ltb (last_active s) (last_active r) = false)
        /\ (forall b, acc = Some b -> str_ltb (last_active s) (last_active b) = false)
    | None => acc = None /\ forall r, In r t -> s_wxid r <> w
    end.
Proof.
  induction t as [|a t IH]; intros acc Hacc; cbn [fold_left].
  - destruct acc as [b|].
    + split; [left; reflexivity|]. split; [apply Hacc; reflexivity|].
      split; [intros r []|]. intros b' Hb. injection Hb as <-. apply str_ltb_irrefl.
    + split; [reflexivity | intros r []].
  - destruct (eqb_str (s_wxid a) w) eqn:Ha.
    + apply eqb_str_true in Ha.
      set (acc' := match acc with
                   | Some b => if str_ltb (last_active b) (last_active a)
                               then Some a else acc
                   | None => Some a
                   end).
      (* the new best is of this user, is a or the old best, and is no
         earlier than either *)
      assert (Hstep : exists b', acc' = Some b' /\ s_wxid b' = w
                /\ (acc = Some b' \/ b' = a)
                /\ str_ltb (last_active b') (last_active a) = false
                /\ (forall b, acc = Some b ->
                              str_ltb (last_active b') (last_active b) = false)).
      { subst acc'. destruct acc as [b0|].
        - destruct (str_ltb (last_active b0) (last_active a)) eqn:Hlt.
          + exists a. split; [reflexivity|]. split; [exact Ha|]. split; [right; reflexivity|].
            split; [apply str_ltb_irrefl|]. intros b Hb. injection Hb as <-.
            destruct (str_ltb (last_active a) (last_active b0)) eqn:Hrev; [|reflexivity].
            pose proof (str_ltb_trans _ _ _ Hlt Hrev) as Hc.
            rewrite str_ltb_irrefl in Hc. discriminate.
          + exists b0. split; [reflexivity|]. split; [apply Hacc; reflexivity|].
            split; [left; reflexivity|]. split; [exact Hlt|].
            intros b Hb. injection Hb as <-. apply str_ltb_irrefl.
        - exists a. split; [reflexivity|]. split; [exact Ha|]. split; [right; reflexivity|].
          split; [apply str_ltb_irrefl|]. intros b Hb. discriminate. }
      destruct Hstep as (b' & Hb' & Hw' & Hfrom & Hba & Hbacc).
      specialize (IH acc'). rewrite Hb' in IH.
      specialize (IH (fun b Hb => eq_ind b' (fun x => s_wxid x = w) Hw' b
                                    (f_equal (fun o => match o with Some x => x | None => b' end) Hb))).
      fold acc' in IH |- *. rewrite Hb'.
      destruct (fold_left _ t (Some b')) as [s|].
      * destruct IH as (Hin & Hw & Hmax & Hge). specialize (Hge b' eq_refl).
        split; [|split; [exact Hw|split]].
        -- destruct Hin as [Hin|Hin]; [|right; right; exact Hin].
           injection Hin as <-. destruct Hfrom as [Hfrom| ->]; [left; exact Hfrom|].
           right. left. reflexivity.
        -- intros r [<-|Hr] Hrw; [|apply Hmax; assumption].
           apply (not_later_trans _ _ _ Hba Hge).
        -- intros b Hb. apply (not_later_trans _ _ _ (Hbacc b Hb) Hge).
      * destruct IH as [Hnone _]. discriminate.
    + specialize (IH acc Hacc). destruct (fold_left _ t acc) as [s|].
      * destruct IH as (Hin & Hw & Hmax & Hge). split; [|split; [exact Hw|split]].
        -- destruct Hin; [left | right; right]; assumption.
        -- intros r [<-|Hr] Hrw; [|apply Hmax; assumption].
           apply eqb_str_false in Ha. contradiction.
        -- exact Hge.
      * destruct IH as [Hnone Hno]. split; [exact Hnone|].
        intros r [<-|Hr]; [apply eqb_str_false, Ha | apply Hno, Hr].
Qed.


End SessionsTable.

(** ** getOrCreateSession *)

Section GetOrCreate.
Import Database ClaudeExecutor.

Lemma in_clearUser (t : list session) (w : jsstring) (r : session) :
  In r (clearUser t w) <-> In r t /\ s_wxid r <> w.
Proof.
  unfold clearUser. rewrite filter_In, negb_true_iff, eqb_str_false. reflexivity.
Qed.

Lemma create_fresh (ts : jsstring) (fs : list friend) (t : list session)
    (i w : jsstring) (f : friend) :
  get fs w = Some f ->
  (forall r, In r t -> id r <> i) ->
  create ts fs t i w None
  = Ok (t ++ [{| id := i; s_wxid := w; claude_session := None; created_at := ts;
                 last_active := ts; message_count := 0 |}]).
Proof.
  intros Hf Hfresh. unfold create.
  replace (existsb (fun r => eqb_str (id r) i) t) with false.
  - rewrite Hf. reflexivity.
  - symmetry. apply not_true_is_false. intros H.
    apply existsb_exists in H as (r & Hr & Heq). apply eqb_str_true in Heq.
    apply (Hfresh r Hr Heq).
Qed.

Lemma getActive_of_user (t : list session) (w : jsstring) (r : session) :
  In r t -> s_wxid r = w ->
  exists s, getActive t w = Some s /\ In s t /\ s_wxid s = w.
Proof.
  intros Hin Hw. pose proof (getActive_fold w t None) as H. unfold getActive.
  destruct (fold_left _ t None) as [s|].
  - destruct H as ([Hs|Hs] & Hsw & _); [discriminate | discriminate |].
    exists s. split; [reflexivity|]. split; assumption.
  - destruct H as [_ Hno]; [discriminate|]. exfalso. apply (Hno r Hin Hw).
Qed.

Lemma clearUser_idem (t : list session) (w : jsstring) :
  clearUser (clearUser t w) w = clearUser t w.
Proof.
  unfold clearUser. induction t as [|r t IH]; [reflexivity|].
  cbn [List.filter]. destruct (negb (eqb_str (s_wxid r) w)) eqn:Hr.
  - cbn [List.filter]. rewrite Hr, IH. reflexivity.
  - exact IH.
Qed.

Lemma clearUser_snoc_own (t : list session) (w : jsstring) (r : session) :
  s_wxid r = w -> clearUser (t ++ [r]) w = clearUser t w.
Proof.
  intros Hr. unfold clearUser. rewrite List.filter_app. cbn [List.filter].
  replace (eqb_str (s_wxid r) w) with true by (symmetry; apply eqb_str_true, Hr).
  cbn [negb]. apply app_nil_r.
Qed.

(** Creating a session under an id that is not in use and looking the
    user up again. *)
Lemma create_then_getActive (E : env) (wxid i : jsstring) (w : world) (f : friend) :
  get (friends w) wxid = Some f ->
  (forall r, In r (sessions w) -> id r <> i) ->
  exists s w',
    (Store.sessionsDB_create E i wxid ;; Store.sessionsDB_getActive wxid)%js w
    = (Ok (Some s), w')
    /\ s_wxid s = wxid
    /\ In s (sessions w')
    /\ friends w' = friends w
    /\ activeTasks w' = activeTasks w
    /\ clearUser (sessions w') wxid = clearUser (sessions w) wxid.
Proof.
  intros Hf Hfresh.
  unfold Store.sessionsDB_getActive, Store.sessionsDB_create, Store.timestamp,
    bind, record, gets, lift, set_sessions, with_trace, with_sessions, modify.
  cbn [sessions now trace friends activeTasks audit_log rate_limits awaits].
  rewrite (create_fresh _ _ _ _ _ f Hf Hfresh).
  cbn [sessions now trace friends activeTasks audit_log rate_limits awaits].
  set (new := {| id := i; s_wxid := wxid; claude_session := None;
                 created_at := CURRENT_TIMESTAMP E (now w);
                 last_active := CURRENT_TIMESTAMP E (now w); message_count := 0 |}).
  destruct (getActive_of_user (sessions w ++ [new]) wxid new) as (s & Hs & Hin & Hw);
    [apply in_or_app; right; left; reflexivity | reflexivity |].
  rewrite Hs. exists s. eexists. split; [reflexivity|].
  cbn [sessions friends activeTasks]. split; [exact Hw|]. split; [exact Hin|].
  split; [reflexivity|]. split; [reflexivity|].
  apply clearUser_snoc_own. reflexivity.
Qed.

(** X6.  For a registered user, and as long as the id generator yields
    an id no stored session has, [getOrCreateSession] returns a session
    of that user which is stored when it returns; the friends table, the
    in-flight marks and the sessions of the other users are as before:
    once the sessions of this user are left out, the table is the same
    list of rows. *)
Theorem getOrCreateSession_returns_session (E : env) (cfg : config)
    (wxid : jsstring) (w : world) (f : friend) :
  get (friends w) wxid = Some f ->
  (forall tr r, In r (sessions w) -> id r <> uuidv4 E tr) ->
  exists s w',
    getOrCreateSession E cfg wxid w = (Ok (Some s), w')
    /\ s_wxid s = wxid
    /\ In s (sessions w')
    /\ friends w' = friends w
    /\ activeTasks w' = activeTasks w
    /\ clearUser (sessions w') wxid = clearUser (sessions w) wxid.
Proof.
  intros Hf Hfresh.
  pose proof (getActive_fold wxid (sessions w) None) as Hact.
  unfold getOrCreateSession. unfold bind at 1.
  unfold Store.sessionsDB_getActive at 1. unfold bind at 1, record, gets, modify.
  cbn [sessions with_trace]. unfold getActive at 1.
  destruct (fold_left _ (sessions w) None) as [s|] eqn:Hget.
  - destruct Hact as ([Hs|Hs] & Hsw & _); [discriminate | discriminate |].
    unfold bind at 1. unfold bind at 1, gets. cbn [now with_trace].
    destruct (expired _ _ _) eqn:Hexp.
    + unfold bind at 1, Store.sessionsDB_clearUser, bind at 1 2 3, record, gets, ret,
        set_sessions, modify.
      cbn [sessions trace with_sessions with_trace].
      set (tr := (trace w ++ _) ++ _).
      set (w1 := {| friends := friends w; sessions := clearUser (sessions w) wxid;
                    audit_log := audit_log w; rate_limits := rate_limits w;
                    activeTasks := activeTasks w; now := now w; trace := tr ++ [Uuid];
                    awaits := awaits w |}).
      destruct (create_then_getActive E wxid (uuidv4 E tr) w1 f Hf)
        as (s' & w' & Hrun & Hw' & Hin' & Hfr & Hat & Hkeep).
      { intros r Hr. apply in_clearUser in Hr as [Hr _]. apply Hfresh, Hr. }
      exists s', w'. split; [exact Hrun|]. split; [exact Hw'|]. split; [exact Hin'|].
      split; [exact Hfr|]. split; [exact Hat|].
      rewrite Hkeep. apply clearUser_idem.
    + exists s. eexists. split; [reflexivity|]. cbn [sessions friends activeTasks].
      split; [exact Hsw|]. split; [exact Hs|]. split; [reflexivity|].
      split; reflexivity.
  - unfold bind at 1, ret at 1. unfold bind at 1, gets. unfold bind at 1, record, modify.
    cbn [trace with_trace].
    set (tr := trace w ++ _).
    set (w1 := with_trace (tr ++ [Uuid]) (with_trace tr w)).
    destruct (create_then_getActive E wxid (uuidv4 E tr) w1 f Hf)
      as (s' & w' & Hrun & Hw' & Hin' & Hfr & Hat & Hkeep).
    { intros r Hr. apply Hfresh, Hr. }
    exists s', w'. split; [exact Hrun|]. split; [exact Hw'|]. split; [exact Hin'|].
    split; [exact Hfr|]. split; [exact Hat | exact Hkeep].
Qed.

Lemma getOrCreateSession_returns_session_witness :
  let E := Samples.docker_up ∅ [] in
  let cfg := loadConfig Config.empty_yaml in
  let w := Terms.world_of [Samples.a_friend "u1" "Alice" "normal"]
             [Terms.a_session "old" "u1" "2026-01-01 00:00:00";
              Terms.a_session "other" "u2" "2026-01-01 00:00:00"]
             1798761600000 in
  exists s w',
    getOrCreateSession E cfg (utf16 "u1") w = (Ok (Some s), w')
    /\ s_wxid s = utf16 "u1"
    /\ In s (sessions w')
    /\ friends w' = friends w
    /\ activeTasks w' = activeTasks w
    /\ clearUser (sessions w') (utf16 "u1") = clearUser (sessions w) (utf16 "u1").
Proof.
  cbv zeta.
  apply (getOrCreateSession_returns_session _ _ _ _ (Samples.a_friend "u1" "Alice" "normal")).
  - reflexivity.
  - intros tr r Hr Heq.
    assert (Hhd : hd 0%N (id r) = 115%N) by (rewrite Heq; reflexivity).
    destruct Hr as [<-|[<-|[]]]; vm_compute in Hhd; discriminate.
Defined.

End GetOrCreate.

(** ** The rate limiter over sequences of calls *)

Section RateLimitRuns.
Import Database Accounting Terms.

(** X7.  From any table whose counters are not negative and within the
    limits, and with a minute limit of at least 1: the calls of a user
    admitted within one minute window are at most what the stored
    counter of that minute leaves of [maxPerMinute], and the calls
    admitted on one day at most what the counters of that day leave of
    [maxPerDay]. *)
Theorem admitted_within_remaining_quota (maxPerMinute maxPerDay : Z)
    (calls : list call) (t : list rate_row) (w : jsstring) (k d : Z) :
  (1 <= maxPerMinute)%Z ->
  counters_nonneg t ->
  (stored t w k <= maxPerMinute)%Z ->
  (on_day t w d <= maxPerDay)%Z ->
  let admitted := fst (run maxPerMinute maxPerDay calls t) in
  (Z.of_nat (List.length (List.filter (in_minute w k) admitted))
   <= maxPerMinute - stored t w k)%Z
  /\ (Z.of_nat (List.length (List.filter (in_day w d) admitted))
      <= maxPerDay - on_day t w d)%Z.
Proof.
  intros Hmax Hpos Hmin Hday. cbv zeta.
  destruct (run_counts_minute maxPerMinute maxPerDay w k Hmax calls t Hmin) as [He Hl].
  destruct (run_counts_day maxPerMinute maxPerDay w d calls t Hpos Hday) as [He' Hl'].
  cbv zeta in He, Hl, He', Hl'. split; lia.
Qed.

Lemma admitted_within_remaining_quota_witness :
  let t := [{| r_wxid := utf16 "u1"; window_start := 29892696; request_count := 2 |}] in
  let calls := [{| call_time := 1793561760000; call_wxid := utf16 "u1" |};
                {| call_time := 1793561761000; call_wxid := utf16 "u1" |};
                {| call_time := 1793561762000; call_wxid := utf16 "u2" |}] in
  let admitted := fst (run 3 200 calls t) in
  (Z.of_nat (List.length (List.filter (in_minute (utf16 "u1") 29892696) admitted))
   <= 3 - stored t (utf16 "u1") 29892696)%Z
  /\ (Z.of_nat (List.length (List.filter (in_day (utf16 "u1") 20758) admitted))
      <= 200 - on_day t (utf16 "u1") 20758)%Z.
Proof.
  cbv zeta. apply (admitted_within_remaining_quota 3 200).
  - lia.
  - constructor; [vm_compute; discriminate | constructor].
  - vm_compute. discriminate.
  - vm_compute. discriminate.
Defined.

Lemma user_rows_cons (r : rate_row) (t : list rate_row) (w : jsstring) :
  user_rows (r :: t) w
  = if eqb_str (r_wxid r) w then r :: user_rows t w else user_rows t w.
Proof. reflexivity. Qed.

Lemma minuteRow_user_rows (t : list rate_row) (w : jsstring) (k : Z) :
  minuteRow (user_rows t w) w k = minuteRow t w k.
Proof.
  unfold minuteRow. induction t as [|r t IH]; [reflexivity|].
  rewrite user_rows_cons. cbn [find].
  destruct (eqb_str (r_wxid r) w) eqn:Hr; cbn [find andb]; [rewrite Hr, IH|]; auto.
Qed.

Lemma dayCount_user_rows (t : list rate_row) (w : jsstring) (d : Z) :
  dayCount (user_rows t w) w d = dayCount t w d.
Proof.
  unfold dayCount. induction t as [|r t IH]; [reflexivity|].
  rewrite user_rows_cons. cbn [List.filter].
  destruct (eqb_str (r_wxid r) w) eqn:Hr; cbn [List.filter andb]; [rewrite Hr|]; cbn [andb].
  - destruct (d <=? window_start r / MINUTES_PER_DAY)%Z; cbn [map fold_right]; rewrite IH;
      reflexivity.
  - exact IH.
Qed.

Lemma user_rows_increment_same (t : list rate_row) (w : jsstring) (k : Z) :
  user_rows (increment t w k) w = increment (user_rows t w) w k.
Proof.
  induction t as [|r t IH].
  - cbn [increment user_rows List.filter r_wxid].
    replace (eqb_str w w) with true; [reflexivity|]. symmetry. apply eqb_str_true. reflexivity.
  - rewrite increment_cons, (user_rows_cons r t). unfold hit.
    destruct (eqb_str (r_wxid r) w) eqn:Hr; cbn [andb].
    + rewrite increment_cons. unfold hit. rewrite Hr. cbn [andb].
      destruct (window_start r =? k)%Z.
      * rewrite user_rows_cons. cbn [r_wxid]. rewrite Hr. reflexivity.
      * rewrite user_rows_cons, Hr, IH. reflexivity.
    + rewrite user_rows_cons, Hr. exact IH.
Qed.

Lemma user_rows_increment_other (t : list rate_row) (w w' : jsstring) (k : Z) :
  w' <> w -> user_rows (increment t w k) w' = user_rows t w'.
Proof.
  intros Hne. induction t as [|r t IH].
  - cbn [increment user_rows List.filter r_wxid].
    replace (eqb_str w w') with false; [reflexivity|].
    symmetry. apply eqb_str_false. congruence.
  - rewrite increment_cons. destruct (hit w k r) eqn:Hr.
    + rewrite !user_rows_cons. cbn [r_wxid].
      apply hit_true in Hr as [Hr _].
      replace (eqb_str (r_wxid r) w') with false; [reflexivity|].
      symmetry. apply eqb_str_false. congruence.
    + rewrite !user_rows_cons, IH. reflexivity.
Qed.

(** The decision for a user is read off the rows of that user. *)
Lemma checkAndIncrement_user_rows (now : Z) (t : list rate_row) (w : jsstring)
    (maxPerMinute maxPerDay : Z) :
  fst (checkAndIncrement now (user_rows t w) w maxPerMinute maxPerDay)
  = fst (checkAndIncrement now t w maxPerMinute maxPerDay)
  /\ snd (checkAndIncrement now (user_rows t w) w maxPerMinute maxPerDay)
     = user_rows (snd (checkAndIncrement now t w maxPerMinute maxPerDay)) w.
Proof.
  unfold checkAndIncrement. rewrite minuteRow_user_rows, dayCount_user_rows.
  destruct (minuteRow t w (minuteKey now)) as [r|].
  - destruct (maxPerMinute <=? request_count r)%Z; [split; reflexivity|].
    destruct (maxPerDay <=? dayCount t w (dayWindow now))%Z; [split; reflexivity|].
    cbn [fst snd]. rewrite user_rows_increment_same. split; reflexivity.
  - destruct (maxPerDay <=? dayCount t w (dayWindow now))%Z; [split; reflexivity|].
    cbn [fst snd]. rewrite user_rows_increment_same. split; reflexivity.
Qed.

Lemma checkAndIncrement_other_rows (now : Z) (t : list rate_row) (w w' : jsstring)
    (maxPerMinute maxPerDay : Z) :
  w' <> w ->
  user_rows (snd (checkAndIncrement now t w maxPerMinute maxPerDay)) w' = user_rows t w'.
Proof.
  intros Hne. unfold checkAndIncrement.
  destruct (minuteRow t w (minuteKey now)) as [r|].
  - destruct (maxPerMinute <=? request_count r)%Z; [reflexivity|].
    destruct (maxPerDay <=? dayCount t w (dayWindow now))%Z; [reflexivity|].
    apply user_rows_increment_other, Hne.
  - destruct (maxPerDay <=? dayCount t w (dayWindow now))%Z; [reflexivity|].
    apply user_rows_increment_other, Hne.
Qed.

Lemma run_user_rows (maxPerMinute maxPerDay : Z) (w : jsstring) (calls : list call) :
  forall t1 t2 : list rate_row,
    user_rows t1 w = user_rows t2 w ->
    calls_of w (fst (run maxPerMinute maxPerDay calls t1))
    = fst (run maxPerMinute maxPerDay (calls_of w calls) t2)
    /\ user_rows (snd (run maxPerMinute maxPerDay calls t1)) w
       = user_rows (snd (run maxPerMinute maxPerDay (calls_of w calls) t2)) w.
Proof.
  induction calls as [|c cs IH]; intros t1 t2 Ht.
  - cbn. split; [reflexivity | exact Ht].
  - rewrite run_cons. cbv zeta. cbn [fst snd].
    replace (calls_of w (c :: cs))
      with (if eqb_str (call_wxid c) w then c :: calls_of w cs else calls_of w cs)
      by reflexivity.
    destruct (eqb_str (call_wxid c) w) eqn:Hc.
    + apply eqb_str_true in Hc. rewrite run_cons. cbv zeta. cbn [fst snd]. rewrite Hc.
      destruct (checkAndIncrement_user_rows (call_time c) t1 w maxPerMinute maxPerDay)
        as [Hf1 Hs1].
      destruct (checkAndIncrement_user_rows (call_time c) t2 w maxPerMinute maxPerDay)
        as [Hf2 Hs2].
      rewrite Ht in Hf1, Hs1. rewrite Hf2 in Hf1. rewrite Hs2 in Hs1.
      destruct (IH _ _ (eq_sym Hs1)) as [Hadm Hrows].
      rewrite <- Hf1. split; [|exact Hrows].
      destruct (allowed _); [|exact Hadm].
      unfold calls_of at 1. cbn [List.filter].
      replace (eqb_str (call_wxid c) w) with true
        by (symmetry; apply eqb_str_true; exact Hc).
      fold (calls_of w (fst (run maxPerMinute maxPerDay cs
              (snd (checkAndIncrement (call_time c) t1 w maxPerMinute maxPerDay))))).
      rewrite Hadm. reflexivity.
    + apply eqb_str_false in Hc.
      destruct (IH (snd (checkAndIncrement (call_time c) t1 (call_wxid c)
                           maxPerMinute maxPerDay)) t2) as [Hadm Hrows].
      { rewrite checkAndIncrement_other_rows by congruence. exact Ht. }
      split; [|exact Hrows].
      destruct (allowed _); [|exact Hadm].
      unfold calls_of at 1. cbn [List.filter].
      replace (eqb_str (call_wxid c) w) with false
        by (symmetry; apply eqb_str_false; exact Hc).
      exact Hadm.
Qed.

(** X8.  Which calls of a user are admitted does not depend on the calls
    of the other users: the admitted calls of [w] in a sequence are the
    calls admitted when [w] makes its calls alone, and the counters of
    [w] end up the same. *)
Theorem admission_independent_of_other_users (maxPerMinute maxPerDay : Z)
    (calls : list call) (t : list rate_row) (w : jsstring) :
  let together := run maxPerMinute maxPerDay calls t in
  let alone := run maxPerMinute maxPerDay (calls_of w calls) t in
  calls_of w (fst together) = fst alone
  /\ user_rows (snd together) w = user_rows (snd alone) w.
Proof.
  cbv zeta.
  destruct (run_user_rows maxPerMinute maxPerDay w calls t t eq_refl) as [Hadm Hrows].
  split; [exact Hadm | exact Hrows].
Qed.

End RateLimitRuns.

(** ** config.js *)

Section Defaults.

(** X9.  No key that [loadConfig] reads with [||] can be configured to a
    falsy value: whatever config.yaml holds, the numbers are not 0 and
    the texts are not empty (all but [admin_wxid], whose default is the
    empty text).  So a limit, a timeout or the session expiry cannot be
    switched off by writing 0, and a text cannot be blanked. *)
Theorem loadConfig_never_falsy (raw : raw_config) :
  let c := loadConfig raw in
  (timeout c <> 0 /\ expire_minutes c <> 0 /\ max_history c <> 0
   /\ max_per_minute c <> 0 /\ max_per_day c <> 0)%Z
  /\ (cpus c <> 0 /\ admin_cpus c <> 0 /\ pids c <> 0)%N
  /\ Forall (fun s : jsstring => s <> [])
       [ cli_path c; image c; container_prefix c; data_dir c; memory c;
         admin_memory c; tmp_size c; network_admin c; network_trusted c;
         network_normal c; unauthorized_message c; default_level c;
         log_level c; log_file c ].
Proof.
  assert (HZ : forall x d, d <> 0%Z -> or_Z x d <> 0%Z).
  { intros [[|p|p]|] d Hd; cbn; try exact Hd; discriminate. }
  assert (HN : forall x d, d <> 0%N -> or_N x d <> 0%N).
  { intros [[|p]|] d Hd; cbn; try exact Hd; discriminate. }
  assert (HS : forall x d, d <> [] -> or_opt x d <> []).
  { intros [[|u s]|] d Hd; cbn; try exact Hd; discriminate. }
  cbv zeta. unfold loadConfig.
  cbn [timeout expire_minutes max_history max_per_minute max_per_day cpus admin_cpus
       pids cli_path image container_prefix data_dir memory admin_memory tmp_size
       network_admin network_trusted network_normal unauthorized_message
       default_level log_level log_file].
  split; [repeat split; apply HZ; discriminate|].
  split; [repeat split; apply HN; discriminate|].
  repeat constructor; apply HS; vm_compute; discriminate.
Qed.

End Defaults.

(** ** docker-manager.js *)

Section Containers.
Import DockerManager Terms.

Lemma docker_safe_clean (w : jsstring) :
  docker_safe (map (fun u => if docker_name_char u then u else 95%N) w).
Proof.
  unfold docker_safe. apply Forall_map, Forall_forall. intros u _. cbn.
  destruct (docker_name_char u) eqn:Hu; [exact Hu | reflexivity].
Qed.

Lemma clean_safe (w : jsstring) :
  docker_safe w <-> map (fun u => if docker_name_char u then u else 95%N) w = w.
Proof.
  unfold docker_safe. induction w as [|u w IH]; cbn [map].
  - split; [reflexivity | constructor].
  - split.
    + intros H. apply Forall_cons in H as [Hu Hw]. rewrite Hu. f_equal. apply IH, Hw.
    + intros H. injection H as Hu Hw. constructor; [|apply IH, Hw].
      destruct (docker_name_char u) eqn:Hc; [reflexivity|]. subst u. discriminate.
Qed.


(** X11.  Distinct wxids that docker accepts as they are get distinct
    containers, but every wxid with another character shares its
    container with a different wxid. *)
Theorem containerName_collisions (cfg : config) :
  (forall w1 w2, docker_safe w1 -> docker_safe w2 ->
                 containerName cfg w1 = containerName cfg w2 -> w1 = w2)
  /\ (forall w, ~ docker_safe w ->
                exists w', w' <> w /\ containerName cfg w' = containerName cfg w).
Proof.
  split.
  - intros w1 w2 H1 H2 Heq. unfold containerName in Heq.
    apply app_inv_head in Heq. apply clean_safe in H1, H2. congruence.
  - intros w Hw. exists (map (fun u => if docker_name_char u then u else 95%N) w).
    split.
    + intros Heq. apply Hw, clean_safe, Heq.
    + unfold containerName. f_equal.
      apply clean_safe, docker_safe_clean.
Qed.

(** X12.  Whatever the configuration, the user and the permission, the
    arguments of [docker create] from the eighth on are the same: the
    process limit, the read-only root, the dropped capabilities, the
    network of the tier, the two volumes, the environment and the
    labels.  The override for admins writes only into the first seven. *)
Theorem create_args_keeps_sandbox_flags (E : env) (cfg : config)
    (wxid permission dir : jsstring) :
  exists head,
    List.length head = 7%nat
    /\ create_args E cfg wxid permission dir
       = head
         ++ [ utf16 "--pids-limit"; String_of_N (pids cfg);
              utf16 "--tmpfs"; utf16 "/tmp:size=" ++ tmp_size cfg;
              utf16 "--read-only";
              utf16 "--security-opt"; utf16 "no-new-privileges";
              utf16 "--cap-drop"; utf16 "ALL";
              utf16 "--network"; getNetwork cfg permission;
              utf16 "-v"; dir ++ utf16 "/workspace:/home/sandbox/workspace";
              utf16 "-v"; dir ++ utf16 "/claude-config:/home/sandbox/.claude";
              utf16 "-e"; utf16 "WXID=" ++ wxid;
              utf16 "-e"; utf16 "ANTHROPIC_API_KEY=" ++ env_or_empty E "ANTHROPIC_API_KEY";
              utf16 "--label"; utf16 "app=wechat-claude-bridge";
              utf16 "--label"; utf16 "wxid=" ++ wxid;
              utf16 "--label"; utf16 "permission=" ++ permission;
              utf16 "-d";
              utf16 "--restart"; utf16 "unless-stopped";
              image cfg;
              utf16 "tail"; utf16 "-f"; utf16 "/dev/null" ].
Proof.
  unfold create_args. cbv zeta.
  set (args := utf16 "create" :: _).
  destruct (Database.eqb_str permission (utf16 "admin")).
  - set (v1 := or_str _ _). set (v2 := String_of_N _).
    pose proof (indexOf_from_bounds (utf16 "--memory") args 3 0 eq_refl) as H1.
    fold (indexOf args (utf16 "--memory")) in H1.
    set (idx := (indexOf args (utf16 "--memory") + 1)%Z) in *.
    assert (Hlen : List.length args = 39%nat) by reflexivity.
    rewrite (assign_inside args idx v1) by (rewrite Hlen; lia).
    set (args1 := <[Z.to_nat idx := v1]> args).
    assert (H5 : args1 !! 5%nat = Some (utf16 "--cpus")).
    { subst args1. rewrite list_lookup_insert_ne by lia. reflexivity. }
    pose proof (indexOf_from_bounds (utf16 "--cpus") args1 5 0 H5) as H2.
    fold (indexOf args1 (utf16 "--cpus")) in H2.
    set (cpuIdx := (indexOf args1 (utf16 "--cpus") + 1)%Z) in *.
    assert (Hlen1 : List.length args1 = 39%nat).
    { subst args1. rewrite length_insert. exact Hlen. }
    rewrite (assign_inside args1 cpuIdx v2) by (rewrite Hlen1; lia).
    exists (take 7 (<[Z.to_nat cpuIdx := v2]> args1)). split.
    + rewrite length_take, length_insert, Hlen1. reflexivity.
    + rewrite <- (take_drop 7 (<[Z.to_nat cpuIdx := v2]> args1)) at 1. f_equal.
      rewrite drop_insert_lt by lia. subst args1.
      rewrite drop_insert_lt by lia. reflexivity.
  - exists (take 7 args). split; reflexivity.
Qed.

(** X13.  The limits of a tier.  A container that is not an admin's is
    created with the configured memory and CPU limits.  An admin's
    container is created with the admin limits, provided the container
    name is not one of the two flags and the admin memory is not the
    text [--cpus]: the override finds its place by searching the
    argument array for the flag. *)
Theorem create_args_limits (E : env) (cfg : config) (wxid permission dir : jsstring) :
  containerName cfg wxid <> utf16 "--memory" ->
  containerName cfg wxid <> utf16 "--cpus" ->
  or_str (admin_memory cfg) (utf16 "2g") <> utf16 "--cpus" ->
  take 7 (create_args E cfg wxid permission dir)
  = [ utf16 "create"; utf16 "--name"; containerName cfg wxid;
      utf16 "--memory";
      if Database.eqb_str permission (utf16 "admin")
      then or_str (admin_memory cfg) (utf16 "2g") else memory cfg;
      utf16 "--cpus";
      if Database.eqb_str permission (utf16 "admin")
      then String_of_N (match admin_cpus cfg with 0%N => 2%N | n => n end)
      else String_of_N (cpus cfg) ].
Proof.
  intros Hmem Hcpu Hadm. unfold create_args. cbv zeta.
  destruct (Database.eqb_str permission (utf16 "admin")); [|reflexivity].
  assert (F1 : Database.eqb_str (utf16 "create") (utf16 "--memory") = false)
    by (apply eqb_str_false; vm_compute; discriminate).
  assert (F2 : Database.eqb_str (utf16 "--name") (utf16 "--memory") = false)
    by (apply eqb_str_false; vm_compute; discriminate).
  assert (F3 : Database.eqb_str (containerName cfg wxid) (utf16 "--memory") = false)
    by (apply eqb_str_false; exact Hmem).
  assert (T4 : Database.eqb_str (utf16 "--memory") (utf16 "--memory") = true)
    by (apply eqb_str_true; reflexivity).
  assert (G1 : Database.eqb_str (utf16 "create") (utf16 "--cpus") = false)
    by (apply eqb_str_false; vm_compute; discriminate).
  assert (G2 : Database.eqb_str (utf16 "--name") (utf16 "--cpus") = false)
    by (apply eqb_str_false; vm_compute; discriminate).
  assert (G3 : Database.eqb_str (containerName cfg wxid) (utf16 "--cpus") = false)
    by (apply eqb_str_false; exact Hcpu).
  assert (G4 : Database.eqb_str (utf16 "--memory") (utf16 "--cpus") = false)
    by (apply eqb_str_false; vm_compute; discriminate).
  assert (G5 : Database.eqb_str (or_str (admin_memory cfg) (utf16 "2g")) (utf16 "--cpus")
               = false)
    by (apply eqb_str_false; exact Hadm).
  assert (T6 : Database.eqb_str (utf16 "--cpus") (utf16 "--cpus") = true)
    by (apply eqb_str_true; reflexivity).
  set (v1 := or_str (admin_memory cfg) (utf16 "2g")) in *.
  set (v2 := String_of_N _).
  set (args := utf16 "create" :: _).
  assert (H1 : indexOf args (utf16 "--memory") = 3%Z).
  { unfold indexOf, args. cbn [indexOf_from]. rewrite F1, F2, F3, T4. reflexivity. }
  rewrite H1. change (3 + 1)%Z with 4%Z.
  set (args1 := assign args 4 v1).
  assert (H2 : indexOf args1 (utf16 "--cpus") = 5%Z).
  { unfold indexOf, args1, args, assign. cbn [List.length Z.of_nat].
    change (4 <? _)%Z with true. cbv iota. change (Z.to_nat 4) with 4%nat.
    cbn [list_insert insert indexOf_from]. rewrite G1, G2, G3, G4, G5, T6. reflexivity. }
  rewrite H2. reflexivity.
Qed.

Lemma create_args_limits_witness :
  let cfg := loadConfig empty_yaml in
  take 7 (create_args (Samples.docker_up ∅ []) cfg (utf16 "boss") (utf16 "admin")
            (utf16 "/data/boss"))
  = [ utf16 "create"; utf16 "--name"; utf16 "claude-friend-boss";
      utf16 "--memory"; utf16 "2g"; utf16 "--cpus"; utf16 "2" ].
Proof.
  cbv zeta.
  apply (create_args_limits (Samples.docker_up ∅ []) (loadConfig empty_yaml)
           (utf16 "boss") (utf16 "admin") (utf16 "/data/boss"));
    vm_compute; discriminate.
Defined.

End Containers.

(** ** Failures of the docker engine *)

Section EngineFailures.
Import DockerManager Terms.

Lemma try_catch_total {A} (m : M A) (h : string -> M A) (w : world) :
  (forall e w1, exists r, fst (h e w1) = Ok r) ->
  exists r, fst (try_catch m h w) = Ok r.
Proof.
  intros Hh. unfold try_catch. destruct (m w) as [[r|e] w'].
  - exists r. reflexivity.
  - apply Hh.
Qed.

Lemma execCommand_returns (E : env) (cfg : config) (wxid command : jsstring)
    (asRoot : bool) (w : world) :
  exists out,
    execCommand E cfg wxid command asRoot w
    = (Ok out,
       awaited (Docker [ utf16 "exec"; utf16 "-u";
                         if asRoot then utf16 "root" else utf16 "sandbox";
                         containerName cfg wxid; utf16 "sh"; utf16 "-c";
                         command ]) w).
Proof.
  unfold execCommand, try_catch, bind, docker, ret.
  destruct (execFile E (trace w) _) as [out|e]; eexists; reflexivity.
Qed.

(** X14.  A failure of the docker command does not leave the methods
    that query or dismantle a container: [containerExists], [isRunning],
    [stopContainer], [destroyContainer], [execCommand], [getStats],
    [getDiskUsage] and [listContainers] return a value whatever the
    engine answers. *)
Theorem engine_failures_are_contained (E : env) (cfg : config)
    (wxid name command : jsstring) (asRoot : bool) (w : world) :
  (exists r, fst (containerExists E name w) = Ok r)
  /\ (exists r, fst (isRunning E name w) = Ok r)
  /\ (exists r, fst (stopContainer E cfg wxid w) = Ok r)
  /\ (exists r, fst (destroyContainer E cfg wxid w) = Ok r)
  /\ (exists r, fst (execCommand E cfg wxid command asRoot w) = Ok r)
  /\ (exists r, fst (getStats E cfg wxid w) = Ok r)
  /\ (exists r, fst (getDiskUsage E cfg wxid w) = Ok r)
  /\ (exists r, fst (listContainers E w) = Ok r).
Proof.
  repeat split;
    try (apply try_catch_total; intros e w1; eexists; reflexivity).
Qed.

(** X15.  The fallback of [getDiskUsage] is never taken: [execCommand]
    turns a failure into a text of its own, so the disk usage reported
    for a container whose command failed is that error text and not
    ['unknown']. *)
Theorem getDiskUsage_reports_the_error (E : env) (cfg : config) (wxid : jsstring)
    (w : world) :
  getDiskUsage E cfg wxid w
  = execCommand E cfg wxid (utf16 "du -sh /home/sandbox/workspace") false w
  /\ forall e,
       execFile E (trace w)
         [ utf16 "exec"; utf16 "-u"; utf16 "sandbox"; containerName cfg wxid;
           utf16 "sh"; utf16 "-c"; utf16 "du -sh /home/sandbox/workspace" ]
       = Throw e ->
       fst (getDiskUsage E cfg wxid w) = Ok (utf16 "Error: " ++ utf16 e).
Proof.
  assert (Heq : getDiskUsage E cfg wxid w
                = execCommand E cfg wxid (utf16 "du -sh /home/sandbox/workspace") false w).
  { unfold getDiskUsage. unfold try_catch at 1.
    destruct (execCommand_returns E cfg wxid (utf16 "du -sh /home/sandbox/workspace")
                false w) as [out ->]. reflexivity. }
  split; [exact Heq|]. intros e He. rewrite Heq.
  unfold execCommand, try_catch, bind, docker, record, modify, ret. rewrite He.
  reflexivity.
Qed.

(** X16.  [execClaude] rejects exactly when [spawn] throws: before
    anything is started, for an argument that holds a NUL character or
    for a negative timeout, and then nothing is invoked; or when
    starting the process throws.  In every other case it resolves: the
    CLI was invoked once, in the user's container, with the system
    prompt, at most the flags [--resume] with the stored session and
    [--allowedTools] with an empty list, and the user's message as the
    last argument; the result is marked [ok] exactly when the process
    closed with exit code 0, and the output is never the empty text. *)
Theorem execClaude_answers_unless_spawn_throws (E : env) (cfg : config)
    (wxid systemPrompt message : jsstring) (options : exec_options) (w : world) :
  let timeout := match opt_timeout options with
                 | 0%Z => Config.timeout cfg
                 | t => t
                 end in
  let run := execClaude E cfg wxid systemPrompt message options w in
  exists flags,
    let args :=
      [ utf16 "exec"; utf16 "-u"; utf16 "sandbox";
        utf16 "-w"; utf16 "/home/sandbox/workspace";
        utf16 "-e"; utf16 "ANTHROPIC_API_KEY=" ++ env_or_empty E "ANTHROPIC_API_KEY";
        containerName cfg wxid;
        utf16 "claude"; utf16 "--print"; utf16 "--output-format"; utf16 "text";
        utf16 "--system-prompt"; systemPrompt ]
      ++ flags ++ [message] in
    Forall (fun a => In a [utf16 "--resume"; utf16 "--allowedTools"; []]
                     \/ claudeSession options = Some a) flags
    /\ last args = Some message
    /\ if existsb has_nul args || (timeout * 1000 <? 0)%Z
       then (exists e, fst run = Throw e) /\ snd run = w
       else
         snd run = awaited (Spawn args) w
         /\ match spawn E (trace w) args with
            | SpawnThrows e => fst run = Throw e
            | answer =>
                exists r,
                  fst run = Ok r
                  /\ output r <> []
                  /\ (ok r = true <-> exists out err, answer = Close 0 out err)
            end.
Proof.
  cbv zeta. unfold execClaude. cbv zeta.
  set (resume := match claudeSession options with Some (u :: s) => _ | _ => [] end).
  set (allowed := if Database.eqb_str _ _ then _ else []).
  exists (resume ++ allowed).
  split.
  { apply Forall_app. split.
    - subst resume. destruct (claudeSession options) as [[|u s]|]; [constructor| |constructor].
      constructor; [left; left; reflexivity|].
      constructor; [right; reflexivity | constructor].
    - subst allowed. destruct (Database.eqb_str _ _); [|constructor].
      constructor; [left; right; left; reflexivity|].
      constructor; [left; right; right; left; reflexivity | constructor]. }
  split.
  { rewrite !app_assoc. apply last_snoc. }
  cbn [app]. rewrite <- (app_assoc resume allowed [message]).
  set (args := utf16 "exec" :: _).
  destruct (existsb has_nul args); cbn [orb].
  { split; [eexists; reflexivity | reflexivity]. }
  destruct (_ <? 0)%Z.
  { split; [eexists; reflexivity | reflexivity]. }
  destruct (spawn E (trace w) args) as [code out err|msg| |msg]; cbn [fst snd].
  - split; [reflexivity|]. eexists. split; [reflexivity|].
    destruct (Z.eqb_spec code 0) as [->|Hne]; cbn [ok output].
    + split.
      * unfold or_str. destruct (trim out); [vm_compute|]; discriminate.
      * split; [intros _; exists out, err; reflexivity | reflexivity].
    + split; [vm_compute; discriminate|].
      split; [discriminate|]. intros (o & e & H). injection H as H _ _. contradiction.
  - split; [reflexivity|]. eexists. split; [reflexivity|]. cbn [ok output].
    split; [vm_compute; discriminate|].
    split; [discriminate|]. intros (o & e & H). discriminate.
  - split; [reflexivity|]. eexists. split; [reflexivity|]. cbn [ok output].
    split; [vm_compute; discriminate|].
    split; [discriminate|]. intros (o & e & H). discriminate.
  - split; reflexivity.
Qed.

End EngineFailures.

(** ** claude-executor.js: the proxy methods and the session id *)

Section Executor.
Import ClaudeExecutor Terms.

(** X17.  [killProcess] always returns [true]: the command it runs
    cannot throw, so its [catch] block is never entered, whether or not
    the container exists or the engine answers.  The in-flight mark of
    the user is removed, and those of the other users stay. *)
Theorem killProcess_always_succeeds (E : env) (cfg : config) (wxid : jsstring)
    (w : world) :
  exists w',
    killProcess E cfg wxid w = (Ok true, w')
    /\ activeTasks w' = activeTasks w ∖ {[wxid]}
    /\ friends w' = friends w /\ sessions w' = sessions w.
Proof.
  unfold killProcess, try_catch. unfold bind at 1.
  destruct (execCommand_returns E cfg wxid (utf16 "pkill -f claude || true") true w)
    as [out ->].
  unfold bind, activeTasks_delete, bind, gets, set_activeTasks, modify, ret.
  eexists. split; [reflexivity|]. cbn. repeat split; reflexivity.
Qed.

Lemma take_while_all (f : N -> bool) (s : jsstring) :
  Forall (fun u => f u = true) (take_while f s).
Proof.
  induction s as [|u s IH]; cbn [take_while]; [constructor|].
  destruct (f u) eqn:Hu; constructor; assumption.
Qed.

Lemma take_drop_while (f : N -> bool) (s : jsstring) :
  take_while f s ++ drop_while f s = s.
Proof.
  induction s as [|u s IH]; cbn [take_while drop_while]; [reflexivity|].
  destruct (f u); [cbn; rewrite IH|]; reflexivity.
Qed.

Lemma session_id_at_sound (s tok : jsstring) :
  session_id_at s = Some tok ->
  tok <> [] /\ Forall (fun u => is_id_char u = true) tok
  /\ exists word seps post,
       s = word ++ seps ++ tok ++ post
       /\ List.length word = 7%nat
       /\ seps <> [] /\ Forall (fun u => is_sep u = true) seps.
Proof.
  unfold session_id_at. destruct (starts_with_ci (utf16 "session") s) eqn:Hs; [|discriminate].
  cbv zeta.
  pose proof (take_while_all is_sep (skipn 7 s)) as Hseps.
  pose proof (take_drop_while is_sep (skipn 7 s)) as Hsplit.
  pose proof (take_while_all is_id_char (drop_while is_sep (skipn 7 s))) as Htok.
  pose proof (take_drop_while is_id_char (drop_while is_sep (skipn 7 s))) as Hsplit2.
  destruct (take_while is_sep (skipn 7 s)) as [|c seps] eqn:Hc; [discriminate|].
  destruct (take_while is_id_char (drop_while is_sep (skipn 7 s))) as [|u t] eqn:Hu;
    [discriminate|].
  intros H. injection H as <-. split; [discriminate|]. split; [exact Htok|].
  exists (firstn 7 s), (c :: seps), (drop_while is_id_char (drop_while is_sep (skipn 7 s))).
  split; [|split; [|split; [discriminate | exact Hseps]]].
  - rewrite Hsplit2, Hsplit. symmetry. apply firstn_skipn.
  - assert (Hlen : forall p x, starts_with_ci p x = true -> (List.length p <= List.length x)%nat).
    { induction p as [|a p IH]; intros [|b x] Hp; cbn in *; try lia; try discriminate.
      apply andb_true_iff in Hp as [_ Hp]. apply IH in Hp. lia. }
    apply Hlen in Hs. rewrite length_take. change (List.length (utf16 "session")) with 7%nat in Hs.
    lia.
Qed.

(** X18.  The session id that [tryExtractSessionId] stores is a part of
    the error output: it is not empty, holds only hexadecimal digits
    and hyphens, and stands in the output after a word of seven
    characters and at least one colon or white-space character. *)
Theorem session_id_match_sound (stderr tok : jsstring) :
  session_id_match stderr = Some tok ->
  tok <> []
  /\ Forall (fun u => is_id_char u = true) tok
  /\ exists pre word seps post,
       stderr = pre ++ word ++ seps ++ tok ++ post
       /\ starts_with_ci (utf16 "session") word = true
       /\ List.length word = 7%nat
       /\ seps <> [] /\ Forall (fun u => is_sep u = true) seps.
Proof.
  induction stderr as [|u s IH]; cbn [session_id_match].
  - destruct (session_id_at []) eqn:H0; [vm_compute in H0|]; discriminate.
  - destruct (session_id_at (u :: s)) as [t|] eqn:Hat.
    + intros H. injection H as <-.
      destruct (session_id_at_sound _ _ Hat) as (Hne & Hid & word & seps & post & Heq & Hlen & Hs).
      split; [exact Hne|]. split; [exact Hid|].
      exists [], word, seps, post. split; [exact Heq|]. split; [|split; [exact Hlen | exact Hs]].
      unfold session_id_at in Hat.
      destruct (starts_with_ci (utf16 "session") (u :: s)) eqn:Hst; [|discriminate].
      rewrite Heq in Hst. clear - Hst Hlen.
      assert (Hpre : forall p x y, List.length p = List.length x ->
                       starts_with_ci p (x ++ y) = true -> starts_with_ci p x = true).
      { induction p as [|a p IHp]; intros [|b x] y Hl Hp; cbn in *; try lia; try reflexivity.
        apply andb_true_iff in Hp as [Hab Hp]. rewrite Hab. cbn.
        apply (IHp x y); [lia | exact Hp]. }
      apply (Hpre _ word (seps ++ t ++ post)); [|exact Hst].
      rewrite Hlen. reflexivity.
    + intros H. destruct (IH H) as (Hne & Hid & pre & word & seps & post & Heq & Hw & Hlen & Hs).
      split; [exact Hne|]. split; [exact Hid|].
      exists (u :: pre), word, seps, post. split; [cbn; rewrite Heq; reflexivity|].
      split; [exact Hw|]. split; [exact Hlen | exact Hs].
Qed.

Lemma session_id_match_sound_witness :
  let stderr := utf16 "Resuming session: 3f2a-77 (cached)" in
  let tok := utf16 "3f2a-77" in
  tok <> []
  /\ Forall (fun u => is_id_char u = true) tok
  /\ exists pre word seps post,
       stderr = pre ++ word ++ seps ++ tok ++ post
       /\ starts_with_ci (utf16 "session") word = true
       /\ List.length word = 7%nat
       /\ seps <> [] /\ Forall (fun u => is_sep u = true) seps.
Proof.
  cbv zeta. apply (session_id_match_sound (utf16 "Resuming session: 3f2a-77 (cached)")).
  vm_compute. reflexivity.
Defined.

End Executor.

(** ** Reading the container list *)

Section ContainerList.
Import DockerManager Terms.

Lemma free_of_not_in (seps : list N) (sep : N) (s : jsstring) :
  In sep seps -> free_of seps s -> ~ In sep s.
Proof.
  intros Hsep Hs Hin. unfold free_of in Hs. rewrite Forall_forall in Hs.
  apply (Hs sep); [apply list_elem_of_In, Hin | exact Hsep].
Qed.

Lemma split_plain (sep : N) (a : jsstring) : ~ In sep a -> split sep a = [a].
Proof.
  induction a as [|x a IH]; intros Ha; [reflexivity|]. cbn [split].
  destruct (N.eqb_spec x sep) as [->|Hne]; [exfalso; apply Ha; left; reflexivity|].
  rewrite IH; [reflexivity|]. intros H. apply Ha. right. exact H.
Qed.

Lemma split_app (sep : N) (a b : jsstring) :
  ~ In sep a -> split sep (a ++ sep :: b) = a :: split sep b.
Proof.
  induction a as [|x a IH]; intros Ha; cbn [split app].
  - rewrite N.eqb_refl. reflexivity.
  - destruct (N.eqb_spec x sep) as [->|Hne]; [exfalso; apply Ha; left; reflexivity|].
    rewrite IH; [reflexivity|]. intros H. apply Ha. right. exact H.
Qed.

Lemma label_not_in (sep : N) (kv : jsstring * jsstring) :
  In sep [9; 44]%N ->
  free_of [9; 44; 61]%N (fst kv) -> free_of [9; 44; 61]%N (snd kv) ->
  ~ In sep (fst kv ++ [61%N] ++ snd kv).
Proof.
  intros Hsep Hk Hv Hin. apply in_app_or in Hin as [Hin|Hin].
  - revert Hin. apply (free_of_not_in [9; 44; 61]%N); [|exact Hk].
    destruct Hsep as [<-|[<-|[]]]; cbn; tauto.
  - apply in_app_or in Hin as [[Hin|[]]|Hin].
    + subst sep. destruct Hsep as [H|[H|[]]]; discriminate.
    + revert Hin. apply (free_of_not_in [9; 44; 61]%N); [|exact Hv].
      destruct Hsep as [<-|[<-|[]]]; cbn; tauto.
Qed.

Lemma split_labels (labels : list (jsstring * jsstring)) :
  Forall (fun kv => free_of [9; 44; 61]%N (fst kv) /\ free_of [9; 44; 61]%N (snd kv))
    labels ->
  split 44 (MessageRouter.join [44%N] (map (fun kv => fst kv ++ [61%N] ++ snd kv) labels))
  = match labels with
    | [] => [[]]
    | _ => map (fun kv => fst kv ++ [61%N] ++ snd kv) labels
    end.
Proof.
  induction 1 as [|kv labels [Hk Hv] Hrest IH]; [reflexivity|].
  cbn [map MessageRouter.join].
  destruct labels as [|kv' labels].
  - cbn [map]. apply split_plain, label_not_in; [cbn; tauto | assumption | assumption].
  - cbn [map] in *. change ([44%N] ++ ?x) with (44%N :: x).
    rewrite split_app by (apply label_not_in; [cbn; tauto | assumption | assumption]).
    rewrite IH. reflexivity.
Qed.

Lemma labels_no_tab (labels : list (jsstring * jsstring)) :
  Forall (fun kv => free_of [9; 44; 61]%N (fst kv) /\ free_of [9; 44; 61]%N (snd kv))
    labels ->
  ~ In 9%N (MessageRouter.join [44%N] (map (fun kv => fst kv ++ [61%N] ++ snd kv) labels)).
Proof.
  induction 1 as [|kv labels [Hk Hv] Hrest IH]; [intros []|].
  cbn [map MessageRouter.join]. destruct labels as [|kv' labels].
  - cbn [map]. apply label_not_in; [cbn; tauto | assumption | assumption].
  - cbn [map] in *. intros Hin. apply in_app_or in Hin as [Hin|Hin].
    + revert Hin. apply label_not_in; [cbn; tauto | assumption | assumption].
    + destruct Hin as [Hin|Hin]; [discriminate | apply IH, Hin].
Qed.

Lemma label_value_fold (k : jsstring) (labels : list (jsstring * jsstring)) :
  Forall (fun kv => free_of [9; 44; 61]%N (fst kv) /\ free_of [9; 44; 61]%N (snd kv))
    labels ->
  forall acc,
    fold_left
      (fun acc l => match split 61 l with
                    | k' :: rest => if Database.eqb_str k' k then head rest else acc
                    | [] => acc
                    end)
      (map (fun kv => fst kv ++ [61%N] ++ snd kv) labels) acc
    = fold_left (fun acc kv => if Database.eqb_str (fst kv) k then Some (snd kv) else acc)
        labels acc.
Proof.
  induction 1 as [|kv labels [Hk Hv] Hrest IH]; intros acc; [reflexivity|].
  cbn [map fold_left]. change ([61%N] ++ ?x) with (61%N :: x).
  rewrite split_app by (apply (free_of_not_in [9; 44; 61]%N); [cbn; tauto | exact Hk]).
  rewrite split_plain by (apply (free_of_not_in [9; 44; 61]%N); [cbn; tauto | exact Hv]).
  cbn [head]. apply IH.
Qed.

Lemma label_value_labels (k : jsstring) (labels : list (jsstring * jsstring)) :
  k <> [] ->
  Forall (fun kv => free_of [9; 44; 61]%N (fst kv) /\ free_of [9; 44; 61]%N (snd kv))
    labels ->
  label_value
    (split 44 (MessageRouter.join [44%N] (map (fun kv => fst kv ++ [61%N] ++ snd kv) labels)))
    k
  = label_of labels k.
Proof.
  intros Hk Hl. rewrite split_labels by exact Hl. unfold label_value, label_of.
  destruct labels as [|kv labels].
  - cbn. replace (Database.eqb_str [] k) with false; [reflexivity|].
    symmetry. apply eqb_str_false. congruence.
  - apply label_value_fold, Hl.
Qed.

(** X19.  [listContainers] reads back what [docker ps] prints for a
    container: the name, the status, and for the keys [wxid] and
    [permission] the value of the last label with that key, as long as
    the name and the status hold no tab and the label keys and values
    hold no tab, comma or equals sign. *)
Theorem parse_container_reads_ps_line (name status : jsstring)
    (labels : list (jsstring * jsstring)) :
  free_of [9%N] name ->
  free_of [9%N] status ->
  Forall (fun kv => free_of [9; 44; 61]%N (fst kv) /\ free_of [9; 44; 61]%N (snd kv))
    labels ->
  parse_container (ps_line name status labels)
  = {| c_name := name; c_status := Some status;
       c_wxid := label_of labels (utf16 "wxid");
       c_permission := label_of labels (utf16 "permission") |}.
Proof.
  intros Hn Hs Hl. unfold parse_container, ps_line. cbv zeta.
  cbn [app].
  rewrite split_app by (apply (free_of_not_in [9%N]); [cbn; tauto | exact Hn]).
  rewrite split_app by (apply (free_of_not_in [9%N]); [cbn; tauto | exact Hs]).
  rewrite split_plain by (apply labels_no_tab, Hl).
  cbn [lookup list_lookup].
  rewrite !label_value_labels by (try exact Hl; vm_compute; discriminate).
  reflexivity.
Qed.

Lemma parse_container_reads_ps_line_witness :
  parse_container
    (ps_line (utf16 "claude-friend-u1") (utf16 "Up 2 hours")
       [ (utf16 "app", utf16 "wechat-claude-bridge"); (utf16 "permission", utf16 "normal");
         (utf16 "wxid", utf16 "u1") ])
  = {| c_name := utf16 "claude-friend-u1"; c_status := Some (utf16 "Up 2 hours");
       c_wxid := Some (utf16 "u1"); c_permission := Some (utf16 "normal") |}.
Proof.
  apply (parse_container_reads_ps_line (utf16 "claude-friend-u1") (utf16 "Up 2 hours")
           [ (utf16 "app", utf16 "wechat-claude-bridge");
             (utf16 "permission", utf16 "normal"); (utf16 "wxid", utf16 "u1") ]).
  - vm_compute. repeat constructor; intros [H|[]]; discriminate.
  - vm_compute. repeat constructor; intros [H|[]]; discriminate.
  - vm_compute. repeat constructor; intros [H|[H|[H|[]]]]; discriminate.
Defined.

End ContainerList.

Section CommandGate.
Import MessageRouter Terms.

Lemma own_sessions_refl (wxid : jsstring) (w : world) : same_but_own_sessions wxid w w.
Proof. unfold same_but_own_sessions. tauto. Qed.

Lemma own_sessions_trans (wxid : jsstring) (w1 w2 w3 : world) :
  same_but_own_sessions wxid w1 w2 -> same_but_own_sessions wxid w2 w3 ->
  same_but_own_sessions wxid w1 w3.
Proof. unfold same_but_own_sessions. intuition congruence. Qed.

Lemma own_sessions_trace (wxid : jsstring) (w : world) (tr : list event) :
  same_but_own_sessions wxid w (with_trace tr w).
Proof. unfold same_but_own_sessions. cbn. tauto. Qed.

Lemma own_sessions_awaited (wxid : jsstring) (w : world) (e : event) :
  same_but_own_sessions wxid w (awaited e w).
Proof. unfold same_but_own_sessions. cbn. tauto. Qed.

Lemma own_sessions_clearUser (wxid : jsstring) :
  preserves (same_but_own_sessions wxid) (Store.sessionsDB_clearUser wxid).
Proof.
  intros w. unfold same_but_own_sessions. cbn. repeat split. apply clearUser_idem.
Qed.

Lemma own_sessions_status (E : env) (cfg : config) (wxid : jsstring) :
  preserves (same_but_own_sessions wxid) (cmdStatus E cfg wxid).
Proof.
  pose proof (own_sessions_refl wxid) as Hr.
  pose proof (own_sessions_trans wxid) as Ht.
  pose proof (own_sessions_trace wxid) as Htr.
  pose proof (own_sessions_awaited wxid) as Haw.
  unfold cmdStatus, Store.friendsDB_get, Store.sessionsDB_getActive,
    ClaudeExecutor.getContainerStatus, DockerManager.isRunning, DockerManager.getStats,
    DockerManager.getDiskUsage, DockerManager.execCommand.
  repeat frame_step.
  all: try match goal with |- preserves _ (if ?b then _ else _) => destruct b end.
  all: repeat frame_step.
Qed.

(** X20.  A sender whose level is below admin changes nothing through a
    command but the trace and their own sessions: the friends table, the
    audit log, the rate counters, the in-flight marks and the sessions
    of the other users are as before, whatever the message and whatever
    the engine answers.  A command registered for admins is refused, and
    then the world is as it was. *)
Theorem commands_below_admin (E : env) (cfg : config) (wxid perm message : jsstring)
    (n : Z) (w : world) :
  permLevels perm = Some n -> (n < 3)%Z ->
  let r := handleCommand E cfg wxid perm message w in
  same_but_own_sessions wxid w (snd r)
  /\ forall c,
       commands_get (command_word message) = Some c ->
       permission c = utf16 "admin" ->
       r = (Ok (Some (utf16 "⚠️ 权限不足")), w).
Proof.
  intros Hperm Hn. cbv zeta.
  pose proof (own_sessions_refl wxid) as Hr.
  pose proof (own_sessions_trans wxid) as Ht.
  pose proof (own_sessions_trace wxid) as Htr.
  pose proof (own_sessions_awaited wxid) as Haw.
  assert (Hadmin : permLevels (utf16 "admin") = Some 3%Z) by (vm_compute; reflexivity).
  unfold handleCommand. cbv zeta. fold (command_word message).
  destruct (commands_get (command_word message)) as [c|] eqn:Hc.
  - split.
    + unfold commands_get in Hc. apply find_some in Hc as [Hin _].
      assert (Hcases : permission c = utf16 "admin"
                       \/ run c = Help \/ run c = Status \/ run c = Clear).
      { unfold commands in Hin. cbn [In] in Hin.
        repeat (destruct Hin as [<- | Hin]; [cbn; tauto|]). destruct Hin. }
      destruct Hcases as [Ha|Hrun].
      * rewrite Ha, Hadmin, Hperm. cbn [lt_undef].
        destruct (Z.ltb_spec n 3); [apply Hr | lia].
      * destruct (lt_undef _ _); [apply Hr|].
        assert (Hh : preserves (same_but_own_sessions wxid)
                       (handle E cfg (run c) wxid perm
                          (join (utf16 " ") (tail (split_ws (trim message)))))).
        { destruct Hrun as [-> | [-> | ->]]; cbn [handle].
          - apply preserves_ret, Hr.
          - apply own_sessions_status.
          - unfold cmdClear.
            apply preserves_bind; [assumption | | intros ?; apply preserves_ret, Hr].
            unfold ClaudeExecutor.clearSession.
            apply preserves_bind;
              [assumption | apply own_sessions_clearUser | intros ?; apply preserves_ret, Hr]. }
        apply preserves_bind; [assumption | exact Hh | intros a].
        apply preserves_ret, Hr.
    + intros c' Hc' Ha. injection Hc' as <-. rewrite Ha, Hadmin, Hperm. cbn [lt_undef].
      destruct (Z.ltb_spec n 3); [reflexivity | lia].
  - split; [apply Hr | intros c' Hc']. discriminate.
Qed.

Lemma commands_below_admin_witness :
  let E := Samples.docker_up ∅ [] in
  let cfg := loadConfig empty_yaml in
  let w := Samples.world_of_friends
             [Samples.a_friend "u1" "Alice" "trusted"; Samples.a_friend "u2" "Bob" "normal"]
             1793561760000 in
  let r := handleCommand E cfg (utf16 "u1") (utf16 "trusted") (utf16 "/allow Bob admin") w in
  same_but_own_sessions (utf16 "u1") w (snd r)
  /\ forall c,
       commands_get (command_word (utf16 "/allow Bob admin")) = Some c ->
       permission c = utf16 "admin" ->
       r = (Ok (Some (utf16 "⚠️ 权限不足")), w).
Proof.
  cbv zeta.
  apply (commands_below_admin (Samples.docker_up ∅ []) (loadConfig empty_yaml)
           (utf16 "u1") (utf16 "trusted") (utf16 "/allow Bob admin") 2).
  - vm_compute. reflexivity.
  - lia.
Defined.

End CommandGate.

(** ** The effective permission *)

Section EffectivePermission.
Import MessageRouter Terms.

Lemma levels_valid_update_row (w : jsstring) (g : Database.friend -> Database.friend)
    (t : list Database.friend) :
  (forall x, Database.permission_check (Database.permission (g x)) = true) ->
  levels_valid t -> levels_valid (Database.update_row w g t).
Proof.
  intros Hg. unfold levels_valid. induction 1 as [|a t Ha Ht IH]; [constructor|].
  cbn [Database.update_row]. destruct (Database.eqb_str (Database.wxid a) w).
  - constructor; [apply Hg | exact Ht].
  - constructor; [exact Ha | exact IH].
Qed.

(** A successful upsert keeps the levels valid and leaves the friend in
    the table. *)
Lemma upsert_levels_valid (ts : jsstring) (t t' : list Database.friend) (w : jsstring)
    (f : Database.upsert_fields) :
  Database.upsert ts t w f = Ok t' ->
  levels_valid t ->
  levels_valid t' /\ exists r, Database.get t' w = Some r.
Proof.
  unfold Database.upsert. cbv zeta.
  destruct (Database.permission_check (Database.permission (Database.excluded ts w f)))
    eqn:Hchk; cbn [negb]; [|discriminate].
  destruct (Database.get t w) as [r|] eqn:Hget; intros H Hvalid; injection H as <-.
  - split.
    + apply levels_valid_update_row; [|exact Hvalid]. intros x. exact Hchk.
    + eexists. apply (get_update_row t w _ r Hget). intros x. reflexivity.
  - split.
    + unfold levels_valid. apply Forall_app. split; [exact Hvalid|].
      constructor; [exact Hchk | constructor].
    + rewrite get_app, Hget. cbn [Database.excluded Database.wxid].
      replace (Database.eqb_str w w) with true; [eexists; reflexivity|].
      symmetry. apply eqb_str_true. reflexivity.
Qed.

Lemma friendsDB_upsert_returns (E : env) (wxid : jsstring) (f : Database.upsert_fields)
    (w w' : world) (u : unit) :
  Store.friendsDB_upsert E wxid f w = (Ok u, w') ->
  Database.upsert (CURRENT_TIMESTAMP E (now w)) (friends w) wxid f = Ok (friends w').
Proof.
  unfold Store.friendsDB_upsert, Store.timestamp, bind, record, gets, lift, set_friends,
    modify, with_trace.
  cbn [friends now trace].
  destruct (Database.upsert (CURRENT_TIMESTAMP E (now w)) (friends w) wxid f) as [t'|e];
    [|discriminate].
  intros H. injection H as _ <-. reflexivity.
Qed.

Lemma registered_after (E : env) (cfg : config) (wxid nickname remarkName : jsstring)
    (w w' : world) (u : unit) :
  ensureFriendRegistered E cfg wxid nickname remarkName w = (Ok u, w') ->
  levels_valid (friends w) ->
  levels_valid (friends w') /\ exists r, Database.get (friends w') wxid = Some r.
Proof.
  unfold ensureFriendRegistered. unfold bind at 1.
  unfold Store.friendsDB_get, bind at 1, record, gets, modify.
  cbn [friends with_trace fst snd].
  set (w1 := with_trace _ w).
  assert (Hw1 : friends w1 = friends w) by reflexivity.
  destruct (Database.get (friends w) wxid) as [ex|] eqn:Hget.
  - destruct (negb _ || negb _).
    + intros H Hvalid. apply friendsDB_upsert_returns in H. rewrite Hw1 in H.
      apply (upsert_levels_valid _ _ _ _ _ H Hvalid).
    + intros H Hvalid. apply ret_returns in H as [_ <-]. rewrite Hw1.
      split; [exact Hvalid | exists ex; exact Hget].
  - intros H Hvalid. apply friendsDB_upsert_returns in H. rewrite Hw1 in H.
    apply (upsert_levels_valid _ _ _ _ _ H Hvalid).
Qed.

Lemma ingress_level (E : env) (cfg : config) (c : contact) (message : jsstring)
    (w w' : world) (perm : jsstring) :
  levels_valid (friends w) ->
  ingress E cfg c message w = (Ok perm, w') ->
  Database.permission_check perm = true
  /\ levels_valid (friends w')
  /\ exists r,
       Database.get (friends w') (wxid c) = Some r
       /\ perm = if Database.eqb_str (wxid c) (admin_wxid cfg)
                 then utf16 "admin" else Database.permission r.
Proof.
  intros Hvalid H. unfold ingress in H.
  apply bind_returns in H as (u1 & w1 & Hlog & H).
  apply bind_returns in H as (u2 & w2 & Hreg & H).
  assert (Hw1 : friends w1 = friends w).
  { unfold Store.auditDB_log, Store.timestamp, bind, record, gets, set_audit_log, modify
      in Hlog. injection Hlog as _ <-. reflexivity. }
  rewrite <- Hw1 in Hvalid.
  destruct (registered_after _ _ _ _ _ _ _ _ Hreg Hvalid) as [Hvalid2 [r Hr]].
  unfold getEffectivePermission in H.
  destruct (Database.eqb_str (wxid c) (admin_wxid cfg)).
  - apply ret_returns in H as [<- <-].
    split; [vm_compute; reflexivity|]. split; [exact Hvalid2|]. exists r. split; [exact Hr|].
    reflexivity.
  - unfold Store.friendsDB_getPermission, bind, record, gets, modify, ret in H.
    cbn [friends with_trace] in H. unfold Database.getPermission in H. rewrite Hr in H.
    assert (Hchk : Database.permission_check (Database.permission r) = true).
    { destruct (get_Some_wxid _ _ _ Hr) as [_ Hin]. unfold levels_valid in Hvalid2.
      rewrite Forall_forall in Hvalid2. apply Hvalid2, list_elem_of_In, Hin. }
    destruct (Database.permission r) as [|x p] eqn:Hp; [vm_compute in Hchk; discriminate|].
    cbn [or_opt] in H. injection H as <- <-.
    split; [exact Hchk|]. split; [exact Hvalid2|]. exists r. split; [exact Hr | symmetry; exact Hp].
Qed.

(** X21.  On a friends table whose levels are all valid, the permission
    [handleMessage] acts on is one of the four levels: the sender is in
    the table by then, and the level is ['admin'] for the configured
    admin and the stored one for everybody else.  It is never empty, so
    the reply for unauthorized senders is never sent and
    [default_level] is read at registration only; and when
    [handleMessage] returns null, the sender is blocked. *)
Theorem effective_permission_is_a_level (E : env) (cfg : config) (c : contact)
    (message : jsstring) (w : world) :
  levels_valid (friends w) ->
  (forall perm w',
     ingress E cfg c message w = (Ok perm, w') ->
     Database.permission_check perm = true
     /\ levels_valid (friends w')
     /\ exists r,
          Database.get (friends w') (wxid c) = Some r
          /\ perm = if Database.eqb_str (wxid c) (admin_wxid cfg)
                    then utf16 "admin" else Database.permission r)
  /\ (forall w',
        handleMessage E cfg c message w = (Ok None, w') ->
        ingress E cfg c message w = (Ok (utf16 "blocked"), w')).
Proof.
  intros Hvalid. split.
  - intros perm w' H. apply (ingress_level _ _ _ _ _ _ _ Hvalid H).
  - intros w' H. apply handleMessage_returns_null_iff in H as (perm & Hin & Hperm).
    destruct Hperm as [->|[-> _]]; [exact Hin|].
    destruct (ingress_level _ _ _ _ _ _ _ Hvalid Hin) as [Hchk _].
    vm_compute in Hchk. discriminate.
Qed.

Lemma effective_permission_is_a_level_witness :
  let E := Samples.docker_up ∅ (utf16 "hello") in
  let cfg := loadConfig (Samples.yaml_with_admin (utf16 "admin0")) in
  let c := Samples.a_contact "u2" "Bob" in
  let w := Samples.world_of_friends [Samples.a_friend "u2" "Bob" "blocked"] 1793561760000 in
  (forall perm w',
     ingress E cfg c (utf16 "hi") w = (Ok perm, w') ->
     Database.permission_check perm = true
     /\ levels_valid (friends w')
     /\ exists r,
          Database.get (friends w') (wxid c) = Some r
          /\ perm = if Database.eqb_str (wxid c) (admin_wxid cfg)
                    then utf16 "admin" else Database.permission r)
  /\ (forall w',
        handleMessage E cfg c (utf16 "hi") w = (Ok None, w') ->
        ingress E cfg c (utf16 "hi") w = (Ok (utf16 "blocked"), w')).
Proof.
  cbv zeta. apply effective_permission_is_a_level.
  repeat constructor.
Defined.

End EffectivePermission.

(** ** What [execute] and [securityCheck] leave untouched *)

Section ExecuteFrame.
Import ClaudeExecutor MessageRouter Terms.

Lemma mark_refl (wxid : jsstring) (w : world) : same_but_sessions_and_mark wxid w w.
Proof. unfold same_but_sessions_and_mark. tauto. Qed.

Lemma mark_trans (wxid : jsstring) (w1 w2 w3 : world) :
  same_but_sessions_and_mark wxid w1 w2 -> same_but_sessions_and_mark wxid w2 w3 ->
  same_but_sessions_and_mark wxid w1 w3.
Proof. unfold same_but_sessions_and_mark. intuition congruence. Qed.

Lemma mark_trace (wxid : jsstring) (w : world) (tr : list event) :
  same_but_sessions_and_mark wxid w (with_trace tr w).
Proof. unfold same_but_sessions_and_mark. cbn. tauto. Qed.

Lemma mark_awaited (wxid : jsstring) (w : world) (e : event) :
  same_but_sessions_and_mark wxid w (awaited e w).
Proof. unfold same_but_sessions_and_mark. cbn. tauto. Qed.

Lemma mark_set_sessions (wxid : jsstring) (t : list Database.session) :
  preserves (same_but_sessions_and_mark wxid) (set_sessions t).
Proof. intros w. unfold same_but_sessions_and_mark. cbn. tauto. Qed.

Lemma mark_set (wxid : jsstring) :
  preserves (same_but_sessions_and_mark wxid) (activeTasks_set wxid).
Proof.
  intros w. unfold same_but_sessions_and_mark. cbn. repeat split.
  apply set_eq. intros x. rewrite !elem_of_difference, elem_of_union, elem_of_singleton.
  tauto.
Qed.

Lemma mark_delete (wxid : jsstring) :
  preserves (same_but_sessions_and_mark wxid) (activeTasks_delete wxid).
Proof.
  intros w. unfold same_but_sessions_and_mark. cbn. repeat split.
  apply set_eq. intros x. rewrite !elem_of_difference. tauto.
Qed.

Lemma preserves_try_finally (R : world -> world -> Prop) {A} (m : M A) (f : M unit) :
  (forall w1 w2 w3, R w1 w2 -> R w2 w3 -> R w1 w3) ->
  preserves R m -> preserves R f -> preserves R (try_finally m f).
Proof.
  intros Ht Hm Hf w. unfold try_finally. specialize (Hm w).
  destruct (m w) as [r w1]. specialize (Hf w1). cbn [snd] in *.
  destruct (f w1) as [[u|e] w2]; cbn [snd] in *; apply (Ht _ w1); assumption.
Qed.

Lemma mark_getOrCreateSession (E : env) (cfg : config) (wxid : jsstring) :
  preserves (same_but_sessions_and_mark wxid) (getOrCreateSession E cfg wxid).
Proof.
  pose proof (mark_refl wxid) as Hr.
  pose proof (mark_trans wxid) as Ht.
  pose proof (mark_trace wxid) as Htr.
  pose proof (mark_awaited wxid) as Haw.
  pose proof (mark_set_sessions wxid) as Hs.
  assert (Hget : preserves (same_but_sessions_and_mark wxid)
                   (Store.sessionsDB_getActive wxid)).
  { unfold Store.sessionsDB_getActive. repeat frame_step. }
  unfold getOrCreateSession.
  apply preserves_bind; [assumption | exact Hget | intros session].
  apply preserves_bind; [assumption | | intros session'].
  - destruct session as [s|]; [|auto with frame].
    apply preserves_bind; [assumption | auto with frame | intros n].
    destruct (expired _ _ _); [|auto with frame].
    unfold Store.sessionsDB_clearUser. repeat frame_step.
  - destruct session' as [s|]; [auto with frame|].
    apply preserves_bind; [assumption | auto with frame | intros tr].
    apply preserves_bind; [assumption | auto with frame | intros _].
    cbv zeta. apply preserves_bind; [assumption | | intros _; exact Hget].
    unfold Store.sessionsDB_create, Store.timestamp. repeat frame_step.
Qed.

Lemma mark_ensureContainer (E : env) (cfg : config) (wxid permission : jsstring) :
  preserves (same_but_sessions_and_mark wxid)
    (DockerManager.ensureContainer E cfg wxid permission).
Proof.
  pose proof (mark_refl wxid) as Hr.
  pose proof (mark_trans wxid) as Ht.
  pose proof (mark_trace wxid) as Htr.
  pose proof (mark_awaited wxid) as Haw.
  unfold DockerManager.ensureContainer, DockerManager.containerExists,
    DockerManager.isRunning, DockerManager.startContainer, DockerManager.createContainer,
    DockerManager.fixPermissions, DockerManager.userDataDir.
  cbv zeta. repeat frame_step.
  all: try match goal with |- preserves _ (if ?b then _ else _) => destruct b end.
  all: repeat frame_step.
Qed.

(** X22.  [execute] writes nothing but the trace, the sessions and the
    in-flight mark of the sender: the friends table, the audit log, the
    rate counters and the marks of the other users are as before,
    whatever the engine answers and wherever an exception is thrown. *)
Theorem execute_touches_only_sessions (E : env) (cfg : config) (wxid : jsstring)
    (friendInfo : option Database.friend) (message : jsstring) :
  preserves (same_but_sessions_and_mark wxid) (execute E cfg wxid friendInfo message).
Proof.
  pose proof (mark_refl wxid) as Hr.
  pose proof (mark_trans wxid) as Ht.
  pose proof (mark_trace wxid) as Htr.
  pose proof (mark_awaited wxid) as Haw.
  pose proof (mark_set_sessions wxid) as Hs.
  unfold execute, activeTasks_has.
  apply preserves_bind; [assumption | auto with frame | intros busy].
  destruct busy; [auto with frame|].
  apply preserves_bind; [assumption | apply mark_set | intros _].
  apply preserves_try_finally; [assumption | | apply mark_delete].
  apply preserves_try_catch; [assumption | | intros e; auto with frame].
  unfold execute_body.
  apply preserves_bind; [assumption | destruct friendInfo; auto with frame | intros info].
  apply preserves_bind; [assumption | apply mark_ensureContainer | intros _].
  apply preserves_bind; [assumption | apply mark_getOrCreateSession | intros session].
  apply preserves_bind; [assumption | destruct session; auto with frame | intros s].
  apply preserves_bind; [assumption | | intros _].
  { unfold Store.sessionsDB_touch, Store.timestamp. repeat frame_step. }
  apply preserves_bind; [assumption | auto with frame | intros result].
  apply preserves_bind; [assumption | | intros _; auto with frame].
  destruct (DockerManager.stderr result) as [[|u err]|]; auto with frame.
  unfold tryExtractSessionId. destruct (session_id_match (u :: err)); auto with frame.
Qed.

End ExecuteFrame.

(** ** securityCheck *)

Section SecurityCheck.
Import MessageRouter Terms.

Lemma blocked_by_pure (E : env) (patterns : list jsstring) (message : jsstring)
    (w : world) :
  snd (blocked_by E patterns message w) = w.
Proof.
  induction patterns as [|p ps IH]; [reflexivity|].
  cbn [blocked_by]. unfold bind, lift.
  destruct (RegExp_test E p message) as [[|]|e]; [reflexivity | exact IH | reflexivity].
Qed.

Lemma blocked_by_passes (E : env) (patterns : list jsstring) (message : jsstring)
    (w : world) :
  fst (blocked_by E patterns message w) = Ok None
  <-> Forall (fun p => RegExp_test E p message = Ok false) patterns.
Proof.
  induction patterns as [|p ps IH]; cbn [blocked_by].
  - split; [constructor | reflexivity].
  - unfold bind, lift. destruct (RegExp_test E p message) as [[|]|e] eqn:Hp; cbn [fst ret].
    + split; [discriminate|]. intros H. apply Forall_cons in H as [H _]. congruence.
    + rewrite IH. split; [intros H; constructor; [exact Hp | exact H]|].
      intros H. apply Forall_cons in H as [_ H]. exact H.
    + split; [discriminate|]. intros H. apply Forall_cons in H as [H _]. congruence.
Qed.

Lemma blocked_by_stops (E : env) (patterns : list jsstring) (message : jsstring)
    (w : world) (r : outcome (option jsstring)) :
  r <> Ok None ->
  fst (blocked_by E patterns message w) = r
  <-> exists pre p post,
        patterns = pre ++ p :: post
        /\ Forall (fun q => RegExp_test E q message = Ok false) pre
        /\ match RegExp_test E p message with
           | Ok true => r = Ok (Some (utf16 "消息包含不允许的操作"))
           | Ok false => False
           | Throw e => r = Throw e
           end.
Proof.
  intros Hr. induction patterns as [|p ps IH]; cbn [blocked_by].
  - split; [intros H; symmetry in H; contradiction|].
    intros (pre & q & post & H & _). destruct pre; discriminate.
  - unfold bind, lift. destruct (RegExp_test E p message) as [[|]|e] eqn:Hp; cbn [fst ret].
    + split.
      * intros <-. exists [], p, ps. rewrite Hp. split; [reflexivity|].
        split; [constructor | reflexivity].
      * intros ([|q pre] & x & post & Heq & Hpre & Hx).
        -- injection Heq as <- <-. rewrite Hp in Hx. symmetry. exact Hx.
        -- injection Heq as <- _. apply Forall_cons in Hpre as [Hq _]. congruence.
    + rewrite IH. split.
      * intros (pre & x & post & -> & Hpre & Hx). exists (p :: pre), x, post.
        split; [reflexivity|]. split; [constructor; assumption | exact Hx].
      * intros ([|q pre] & x & post & Heq & Hpre & Hx).
        -- injection Heq as <- <-. rewrite Hp in Hx. contradiction.
        -- injection Heq as <- ->. apply Forall_cons in Hpre as [_ Hpre].
           exists pre, x, post. split; [reflexivity|]. split; assumption.
    + split.
      * intros <-. exists [], p, ps. rewrite Hp. split; [reflexivity|].
        split; [constructor | reflexivity].
      * intros ([|q pre] & x & post & Heq & Hpre & Hx).
        -- injection Heq as <- <-. rewrite Hp in Hx. symmetry. exact Hx.
        -- injection Heq as <- _. apply Forall_cons in Hpre as [Hq _]. congruence.
Qed.

(** X23.  [securityCheck] changes nothing.  An admin's message is never
    tested.  The message of anybody else passes exactly when every
    configured pattern is a valid expression that does not match; it is
    refused when the first pattern that does not answer so matches, and
    the check throws when that pattern is malformed. *)
Theorem securityCheck_first_pattern_decides (E : env) (cfg : config)
    (message perm : jsstring) (w : world) :
  let r := securityCheck E cfg message perm w in
  snd r = w
  /\ (perm = utf16 "admin" -> fst r = Ok None)
  /\ (perm <> utf16 "admin" ->
      (fst r = Ok None
       <-> Forall (fun p => RegExp_test E p message = Ok false) (blocked_patterns cfg))
      /\ forall o, o <> Ok None ->
           (fst r = o
            <-> exists pre p post,
                  blocked_patterns cfg = pre ++ p :: post
                  /\ Forall (fun q => RegExp_test E q message = Ok false) pre
                  /\ match RegExp_test E p message with
                     | Ok true => o = Ok (Some (utf16 "消息包含不允许的操作"))
                     | Ok false => False
                     | Throw e => o = Throw e
                     end)).
Proof.
  cbv zeta. unfold securityCheck.
  destruct (Database.eqb_str perm (utf16 "admin")) eqn:Hp.
  - apply eqb_str_true in Hp. split; [reflexivity|]. split; [reflexivity|].
    intros Hne. contradiction.
  - apply eqb_str_false in Hp. split; [apply blocked_by_pure|].
    split; [intros He; contradiction|]. intros _.
    split; [apply blocked_by_passes|]. intros o Ho. apply blocked_by_stops, Ho.
Qed.

End SecurityCheck.

(** ** index.js: what is sent back *)

Section Outbound.
Import Index Bot Terms.

Lemma visible_app (a b : jsstring) : visible (a ++ b) = visible a ++ visible b.
Proof. apply List.filter_app. Qed.

Lemma visible_trimStart (s : jsstring) : visible (trimStart s) = visible s.
Proof.
  induction s as [|u s IH]; [reflexivity|].
  cbn [trimStart]. destruct (is_white_space u) eqn:Hu; [|reflexivity].
  unfold visible at 2. cbn [List.filter]. rewrite Hu. exact IH.
Qed.

(** What the loop adds: chunks that are not empty and that hold the
    visible characters of the remainder, in order. *)
Lemma split_loop_content (maxLen : Z) :
  (1 <= maxLen)%Z ->
  forall (fuel : nat) (remaining : jsstring) (chunks out : list jsstring),
    split_loop fuel maxLen remaining chunks = Some out ->
    exists more, out = chunks ++ more
                 /\ Forall (fun c => c <> []) more
                 /\ visible (concat more) = visible remaining.
Proof.
  intros Hmax. induction fuel as [|fuel IH]; intros remaining chunks out Hrun.
  - discriminate.
  - destruct (Z.leb_spec (JS.length remaining) maxLen) as [Hshort|Hlong].
    + cbn [split_loop] in Hrun.
      destruct (Z.ltb_spec 0 (JS.length remaining)) as [Hpos|Hzero].
      * destruct (Z.leb_spec (JS.length remaining) maxLen); [|lia].
        injection Hrun as <-. exists [remaining]. split; [reflexivity|].
        split; [|cbn; rewrite app_nil_r; reflexivity].
        constructor; [|constructor]. intros ->. unfold JS.length in Hpos. cbn in Hpos. lia.
      * injection Hrun as <-. exists []. rewrite app_nil_r. split; [reflexivity|].
        split; [constructor|]. destruct remaining; [reflexivity|].
        unfold JS.length in Hzero. cbn in Hzero. lia.
    + rewrite split_loop_step in Hrun by lia.
      pose proof (cut_bounds maxLen remaining Hmax) as Hcut.
      apply IH in Hrun as (more & -> & Hne & Hvis).
      exists (firstn (Z.to_nat (cut maxLen remaining)) remaining :: more).
      rewrite <- app_assoc. split; [reflexivity|]. split.
      * constructor; [|exact Hne]. intros Hnil.
        apply (f_equal (@List.length N)) in Hnil. rewrite length_firstn in Hnil.
        unfold JS.length in Hlong. cbn in Hnil. lia.
      * cbn [concat]. rewrite visible_app, Hvis, visible_trimStart, <- visible_app.
        rewrite firstn_skipn. reflexivity.
Qed.

Lemma splitMessage_runs (text : jsstring) (maxLen : Z) (fuel : nat) :
  (1 <= maxLen)%Z -> (List.length text < fuel)%nat -> text <> [] ->
  exists chunks,
    splitMessage fuel text maxLen = Some chunks
    /\ Forall (fun c => (JS.length c <= maxLen)%Z) chunks
    /\ Forall (fun c => c <> []) chunks
    /\ visible (concat chunks) = visible text.
Proof.
  intros Hmax Hfuel Hne. unfold splitMessage.
  destruct (Z.leb_spec (JS.length text) maxLen) as [Hshort|Hlong].
  - exists [text]. split; [reflexivity|].
    split; [constructor; [exact Hshort | constructor]|].
    split; [constructor; [exact Hne | constructor]|].
    cbn. rewrite app_nil_r. reflexivity.
  - destruct (split_loop_terminates maxLen Hmax fuel text []) as [out Hout]; [exact Hfuel|].
    exists out. split; [exact Hout|].
    destruct (split_loop_chunks maxLen Hmax _ _ _ _ Hout) as (more & -> & Hmore).
    destruct (split_loop_content maxLen Hmax _ _ _ _ Hout) as (more' & Heq & Hne' & Hvis).
    cbn [app] in *. subst more'. split; [exact Hmore|]. split; [exact Hne' | exact Hvis].
Qed.



Lemma said_sublist (say : jsstring -> outcome unit) (P : jsstring -> Prop)
    (chunks : list jsstring) :
  Forall P chunks -> Forall P (said say chunks).
Proof.
  induction 1 as [|c cs Hc Hcs IH]; cbn [said]; [constructor|].
  destruct (say c); constructor; assumption.
Qed.

(** X25.  The handler of the 'message' event ends, whatever the router
    and the engine do.  Every chunk it says is within 2000 code units
    and not empty.  It says nothing, and the router is not called, for a
    message that is not text, that is in a room, that the bot sent
    itself, or that is blank; and it says nothing when [handleMessage]
    throws or returns null. *)
Theorem onMessage_says_bounded_chunks (E : env) (cfg : config)
    (say : jsstring -> outcome unit) (msg : message) (w : world) :
  exists fuel0, forall fuel, (fuel0 <= fuel)%nat ->
    exists sent w',
      onMessage E cfg fuel say msg w = (Some sent, w')
      /\ Forall (fun c => (JS.length c <= 2000)%Z /\ c <> []) sent
      /\ (is_text msg = false \/ in_room msg = true \/ is_self msg = true
          \/ trim (text msg) = [] ->
          sent = [] /\ w' = w)
      /\ (forall e,
            fst (MessageRouter.handleMessage E cfg (contact_of msg) (trim (text msg)) w)
            = Throw e -> sent = [])
      /\ (fst (MessageRouter.handleMessage E cfg (contact_of msg) (trim (text msg)) w)
          = Ok None -> sent = []).
Proof.
  unfold onMessage.
  destruct (is_text msg); cbn [negb];
    [|exists 0%nat; intros fuel _; exists [], w; repeat split; constructor].
  destruct (in_room msg);
    [exists 0%nat; intros fuel _; exists [], w; repeat split; constructor|].
  destruct (is_self msg);
    [exists 0%nat; intros fuel _; exists [], w; repeat split; constructor|].
  destruct (trim (text msg)) as [|u t];
    [exists 0%nat; intros fuel _; exists [], w; repeat split; constructor|].
  destruct (MessageRouter.handleMessage E cfg (contact_of msg) (u :: t) w)
    as [[[[|x response]|]|e] w1] eqn:Hrun; cbn [fst].
  - exists 0%nat. intros fuel _. exists [], w1. split; [reflexivity|].
    split; [constructor|]. split; [intros [H|[H|[H|H]]]; discriminate|].
    split; [intros e He; discriminate | intros H; discriminate].
  - exists (S (List.length (x :: response))). intros fuel Hfuel.
    destruct (splitMessage_runs (x :: response) 2000 fuel)
      as (chunks & Hsplit & Hb & Hne & _); [lia | lia | discriminate|].
    rewrite Hsplit. exists (said say chunks), w1. split; [reflexivity|].
    split.
    { apply said_sublist. rewrite Forall_forall in Hb, Hne. apply Forall_forall.
      intros c Hc. split; [apply Hb, Hc | apply Hne, Hc]. }
    split; [intros [H|[H|[H|H]]]; discriminate|].
    split; [intros e He; discriminate | intros H; discriminate].
  - exists 0%nat. intros fuel _. exists [], w1. split; [reflexivity|].
    split; [constructor|]. split; [intros [H|[H|[H|H]]]; discriminate|].
    split; [intros e He; reflexivity | intros H; reflexivity].
  - exists 0%nat. intros fuel _. exists [], w1. split; [reflexivity|].
    split; [constructor|]. split; [intros [H|[H|[H|H]]]; discriminate|].
    split; [intros e' He; reflexivity | intros H; reflexivity].
Qed.

End Outbound.

(** ** The length of a reply of the executor *)

Section ReplyLength.
Import ClaudeExecutor Terms.

Lemma truncate_length (s : jsstring) :
  (JS.length (truncate s) <= maxLen + JS.length TRUNCATION_SUFFIX)%Z.
Proof.
  destruct (Z.leb_spec (JS.length s) maxLen) as [Hshort|Hlong].
  - rewrite truncate_short by exact Hshort. unfold JS.length in *. lia.
  - destruct (truncate_long s Hlong) as [-> Hlen].
    unfold JS.length, maxLen. rewrite length_app, Hlen. lia.
Qed.

Lemma execute_body_reply (E : env) (cfg : config) (wxid : jsstring)
    (friendInfo : option Database.friend) (message reply : jsstring) (w w' : world) :
  execute_body E cfg wxid friendInfo message w = (Ok reply, w') ->
  exists out, reply = truncate out.
Proof.
  unfold execute_body. intros H.
  apply bind_returns in H as (info & w1 & _ & H).
  apply bind_returns in H as (name & w2 & _ & H).
  apply bind_returns in H as (session & w3 & _ & H).
  apply bind_returns in H as (s & w4 & _ & H).
  apply bind_returns in H as (u & w5 & _ & H).
  apply bind_returns in H as (result & w6 & _ & H).
  apply bind_returns in H as (u' & w7 & _ & H).
  apply ret_returns in H as [<- _]. eexists. reflexivity.
Qed.

(** X26.  [execute] always returns a reply, and the reply has at most
    4000 code units and the truncation notice: the busy notice, the
    failure notice, or the output of the CLI cut to that length. *)
Theorem execute_reply_is_bounded (E : env) (cfg : config) (wxid : jsstring)
    (friendInfo : option Database.friend) (message : jsstring) (w : world) :
  exists reply,
    fst (execute E cfg wxid friendInfo message w) = Ok reply
    /\ (JS.length reply <= maxLen + JS.length TRUNCATION_SUFFIX)%Z.
Proof.
  unfold execute. unfold bind at 1, activeTasks_has, gets.
  destruct (bool_decide (wxid ∈ activeTasks w)).
  - exists BUSY_REPLY. split; [reflexivity | vm_compute; discriminate].
  - unfold bind at 1, activeTasks_set, bind, gets, set_activeTasks, modify.
    rewrite finally_result. cbn [fst]. unfold try_catch.
    destruct (execute_body E cfg wxid friendInfo message _) as [[reply|e] w1] eqn:Hbody.
    + exists reply. split; [reflexivity|].
      apply execute_body_reply in Hbody as [out ->]. apply truncate_length.
    + exists EXECUTE_FAILED. split; [reflexivity | vm_compute; discriminate].
Qed.

End ReplyLength.

(** ** Which paths of the router can throw *)

Section Returns.
Import MessageRouter Terms.

Lemma nt_ret {A} (a : A) : never_throws (ret a).
Proof. intros w. exists a. reflexivity. Qed.

Lemma nt_gets {A} (f : world -> A) : never_throws (gets f).
Proof. intros w. eexists. reflexivity. Qed.

Lemma nt_modify (f : world -> world) : never_throws (modify f).
Proof. intros w. eexists. reflexivity. Qed.

Lemma nt_record (e : event) : never_throws (record e).
Proof. intros w. eexists. reflexivity. Qed.

Lemma nt_bind {A B} (m : M A) (k : A -> M B) :
  never_throws m -> (forall a, never_throws (k a)) -> never_throws (bind m k).
Proof.
  intros Hm Hk w. unfold bind. destruct (Hm w) as [a Ha].
  destruct (m w) as [r w1]. cbn [fst] in Ha. subst r. apply Hk.
Qed.

Lemma nt_try_catch {A} (m : M A) (h : string -> M A) :
  (forall e, never_throws (h e)) -> never_throws (try_catch m h).
Proof.
  intros Hh w. unfold try_catch. destruct (m w) as [[a|e] w1].
  - exists a. reflexivity.
  - apply Hh.
Qed.

Lemma nt_if {A} (b : bool) (m1 m2 : M A) :
  never_throws m1 -> never_throws m2 -> never_throws (if b then m1 else m2).
Proof. destruct b; tauto. Qed.

End Returns.

Create HintDb returns.

#[local] Hint Resolve nt_ret nt_gets nt_modify nt_record nt_if : returns.

Ltac nt_step :=
  first
    [ apply nt_try_catch; intros ?
    | apply nt_bind; [|intros ?]
    | solve [auto with returns] ].

Section RouterReturns.
Import MessageRouter Terms.

Lemma nt_friendsDB_get (wxid : jsstring) : never_throws (Store.friendsDB_get wxid).
Proof. unfold Store.friendsDB_get. repeat nt_step. Qed.

Lemma nt_getActive (wxid : jsstring) : never_throws (Store.sessionsDB_getActive wxid).
Proof. unfold Store.sessionsDB_getActive. repeat nt_step. Qed.

Lemma nt_findByNickname (q : jsstring) : never_throws (Store.friendsDB_findByNickname q).
Proof. unfold Store.friendsDB_findByNickname. repeat nt_step. Qed.

Lemma nt_clearUser (wxid : jsstring) : never_throws (Store.sessionsDB_clearUser wxid).
Proof. unfold Store.sessionsDB_clearUser, set_sessions. repeat nt_step. Qed.

Lemma nt_auditDB_log (E : env) (wxid nickname : jsstring) (d : Database.direction)
    (message : jsstring) :
  never_throws (Store.auditDB_log E wxid nickname d message).
Proof. unfold Store.auditDB_log, Store.timestamp, set_audit_log. repeat nt_step. Qed.

Lemma nt_setPermission (wxid p : jsstring) :
  Database.permission_check p = true ->
  never_throws (Store.friendsDB_setPermission wxid p).
Proof.
  intros Hp w.
  unfold Store.friendsDB_setPermission, bind, record, gets, lift, set_friends, modify.
  cbn [friends with_trace]. unfold Database.setPermission.
  destruct (Database.get (friends w) wxid); [rewrite Hp|]; eexists; reflexivity.
Qed.

Lemma nt_upsert (E : env) (wxid : jsstring) (f : Database.upsert_fields) :
  Database.permission_check (or_opt (Database.u_permission f) (utf16 "normal")) = true ->
  never_throws (Store.friendsDB_upsert E wxid f).
Proof.
  intros Hp w.
  unfold Store.friendsDB_upsert, Store.timestamp, bind, record, gets, lift, set_friends,
    modify.
  cbn [friends now with_trace]. unfold Database.upsert. cbv zeta.
  cbn [Database.excluded Database.permission]. rewrite Hp. cbn [negb].
  destruct (Database.get (friends w) wxid); eexists; reflexivity.
Qed.

Lemma nt_rateLimit (wxid : jsstring) (a b : Z) :
  never_throws (Store.rateLimitDB_checkAndIncrement wxid a b).
Proof.
  intros w. unfold Store.rateLimitDB_checkAndIncrement, bind, record, gets, modify.
  cbn [now rate_limits with_trace].
  destruct (Database.checkAndIncrement _ _ _ _ _). eexists. reflexivity.
Qed.

Lemma nt_activeTasks_delete (wxid : jsstring) :
  never_throws (ClaudeExecutor.activeTasks_delete wxid).
Proof. unfold ClaudeExecutor.activeTasks_delete, set_activeTasks. repeat nt_step. Qed.

Lemma nt_getContainerStatus (E : env) (cfg : config) (wxid : jsstring) :
  never_throws (ClaudeExecutor.getContainerStatus E cfg wxid).
Proof.
  unfold ClaudeExecutor.getContainerStatus. cbv zeta.
  apply nt_bind; [apply nt_try_catch; intros e; apply nt_ret | intros running].
  apply nt_bind; [destruct running; [apply nt_try_catch; intros e|]; apply nt_ret
                 | intros st].
  apply nt_bind; [|intros disk; apply nt_ret].
  destruct running; [|apply nt_ret].
  apply nt_bind; [apply nt_try_catch; intros e; apply nt_ret | intros d; apply nt_ret].
Qed.

Lemma nt_clearSession (E : env) (cfg : config) (wxid : jsstring) :
  never_throws (ClaudeExecutor.clearSession E cfg wxid false).
Proof.
  unfold ClaudeExecutor.clearSession.
  apply nt_bind; [apply nt_clearUser | intros _; apply nt_ret].
Qed.

Lemma nt_destroyContainer (E : env) (cfg : config) (wxid : jsstring) :
  never_throws (ClaudeExecutor.destroyContainer E cfg wxid).
Proof.
  unfold ClaudeExecutor.destroyContainer.
  apply nt_bind; [apply nt_clearUser | intros _].
  apply nt_bind; [apply nt_activeTasks_delete | intros _].
  apply nt_try_catch. intros e. apply nt_ret.
Qed.

Lemma nt_stopContainer (E : env) (cfg : config) (wxid : jsstring) :
  never_throws (ClaudeExecutor.stopContainer E cfg wxid).
Proof. apply nt_try_catch. intros e. apply nt_ret. Qed.

Lemma nt_listContainers (E : env) : never_throws (ClaudeExecutor.listContainers E).
Proof. apply nt_try_catch. intros e. apply nt_ret. Qed.

Lemma nt_killProcess (E : env) (cfg : config) (wxid : jsstring) :
  never_throws (ClaudeExecutor.killProcess E cfg wxid).
Proof. apply nt_try_catch. intros e. apply nt_ret. Qed.

Lemma nt_container_lines (cs : list DockerManager.container) :
  never_throws (container_lines cs).
Proof.
  induction cs as [|c cs IH]; cbn [container_lines]; [apply nt_ret|].
  apply nt_bind; [|intros friend].
  - destruct (DockerManager.c_wxid c) as [[|u x]|];
      [apply nt_ret | apply nt_friendsDB_get | apply nt_ret].
  - apply nt_bind; [exact IH | intros rest; apply nt_ret].
Qed.

Lemma nt_stop_each (E : env) (cfg : config) (cs : list DockerManager.container) :
  never_throws (stop_each E cfg cs).
Proof.
  induction cs as [|c cs IH]; cbn [stop_each]; [apply nt_ret|].
  apply nt_bind; [|intros _; exact IH].
  destruct (DockerManager.c_wxid c) as [[|u x]|]; try apply nt_ret.
  apply nt_bind; [apply nt_stopContainer | intros _; apply nt_ret].
Qed.

Lemma nt_handle (E : env) (cfg : config) (h : handler) (wxid perm args : jsstring) :
  h <> Rebuild -> never_throws (handle E cfg h wxid perm args).
Proof.
  intros Hh. destruct h; cbn [handle]; try contradiction.
  - apply nt_ret.
  - unfold cmdStatus.
    apply nt_bind; [apply nt_friendsDB_get | intros friend].
    apply nt_bind; [apply nt_getActive | intros session].
    apply nt_bind; [apply nt_getContainerStatus | intros container; apply nt_ret].
  - unfold cmdClear. apply nt_bind; [apply nt_clearSession | intros _; apply nt_ret].
  - unfold cmdAllow. destruct args as [|a args]; [apply nt_ret|]. cbv zeta.
    set (level := or_opt _ _).
    destruct (Database.eqb_str level (utf16 "trusted")) eqn:H1;
      [|destruct (Database.eqb_str level (utf16 "normal")) eqn:H2;
        [|destruct (Database.eqb_str level (utf16 "admin")) eqn:H3]];
      cbn [orb negb]; try apply nt_ret.
    all: apply nt_bind; [apply nt_findByNickname | intros matches].
    all: destruct matches as [|friend [|x xs]]; try apply nt_ret.
    all: apply nt_bind; [|intros _; apply nt_ret].
    all: apply nt_setPermission.
    + apply eqb_str_true in H1. rewrite H1. vm_compute. reflexivity.
    + apply eqb_str_true in H2. rewrite H2. vm_compute. reflexivity.
    + apply eqb_str_true in H3. rewrite H3. vm_compute. reflexivity.
  - unfold cmdBlock. destruct args as [|a args]; [apply nt_ret|].
    apply nt_bind; [apply nt_findByNickname | intros matches].
    destruct matches as [|friend [|x xs]]; try apply nt_ret.
    apply nt_bind; [apply nt_setPermission; vm_compute; reflexivity | intros _].
    apply nt_bind; [apply nt_destroyContainer | intros _; apply nt_ret].
  - unfold cmdList, Store.friendsDB_listAll. repeat nt_step.
  - unfold cmdLogs. destruct args as [|a args].
    + unfold Store.auditDB_getRecent. repeat nt_step.
    + apply nt_bind; [apply nt_findByNickname | intros matches].
      destruct matches as [|friend xs]; [apply nt_ret|].
      unfold Store.auditDB_getByUser. repeat nt_step.
  - unfold cmdKill. destruct args as [|a args]; [apply nt_ret|].
    apply nt_bind; [apply nt_findByNickname | intros matches].
    destruct matches as [|friend xs]; [apply nt_ret|].
    apply nt_bind; [apply nt_killProcess | intros killed; apply nt_ret].
  - unfold cmdContainers.
    apply nt_bind; [apply nt_listContainers | intros containers].
    destruct containers as [|c cs]; [apply nt_ret|].
    apply nt_bind; [apply nt_container_lines | intros lines; apply nt_ret].
  - unfold cmdRestart. destruct args as [|a args]; [apply nt_ret|].
    apply nt_bind; [apply nt_findByNickname | intros matches].
    destruct matches as [|friend xs]; [apply nt_ret|].
    apply nt_bind; [apply nt_stopContainer | intros _].
    apply nt_bind; [apply nt_clearSession | intros _; apply nt_ret].
  - unfold cmdDestroy. destruct args as [|a args]; [apply nt_ret|].
    apply nt_bind; [apply nt_findByNickname | intros matches].
    destruct matches as [|friend xs]; [apply nt_ret|].
    apply nt_bind; [apply nt_destroyContainer | intros _; apply nt_ret].
  - unfold cmdStopAll.
    apply nt_bind; [apply nt_listContainers | intros containers].
    apply nt_bind; [apply nt_stop_each | intros _; apply nt_ret].
Qed.

Lemma nt_handleCommand (E : env) (cfg : config) (wxid perm message : jsstring) :
  (forall c, commands_get (command_word message) = Some c -> run c <> Rebuild) ->
  never_throws (handleCommand E cfg wxid perm message).
Proof.
  intros Hc. unfold handleCommand. cbv zeta. fold (command_word message).
  destruct (commands_get (command_word message)) as [c|]; [|apply nt_ret].
  destruct (lt_undef _ _); [apply nt_ret|].
  apply nt_bind; [apply nt_handle, Hc; reflexivity | intros r; apply nt_ret].
Qed.


Lemma nt_blocked_by (E : env) (patterns : list jsstring) (message : jsstring) :
  (forall p, In p patterns -> exists b, RegExp_test E p message = Ok b) ->
  never_throws (blocked_by E patterns message).
Proof.
  induction patterns as [|p ps IH]; intros Hp; cbn [blocked_by]; [apply nt_ret|].
  destruct (Hp p) as [b Hb]; [left; reflexivity|].
  intros w. unfold bind, lift. rewrite Hb. destruct b.
  - eexists. reflexivity.
  - apply IH. intros q Hq. apply Hp. right. exact Hq.
Qed.



End RouterReturns.

(** ** /allow and /block *)

Section Grants.
Import MessageRouter Terms.

Lemma get_of_row (t : list Database.friend) (f : Database.friend) :
  NoDup (map Database.wxid t) -> In f t -> Database.get t (Database.wxid f) = Some f.
Proof.
  unfold Database.get. induction t as [|a t IH]; intros Hnd Hin; [destruct Hin|].
  cbn [map] in Hnd. apply NoDup_cons in Hnd as [Ha Hnd]. cbn [find].
  destruct Hin as [->|Hin].
  - replace (Database.eqb_str (Database.wxid f) (Database.wxid f)) with true; [reflexivity|].
    symmetry. apply eqb_str_true. reflexivity.
  - destruct (Database.eqb_str (Database.wxid a) (Database.wxid f)) eqn:Heq.
    + exfalso. apply eqb_str_true in Heq. apply Ha. rewrite Heq.
      apply list_elem_of_In, in_map, Hin.
    + apply IH; assumption.
Qed.

(** What [setPermission] does to the row of a friend in the table. *)
Lemma setPermission_effect (t : list Database.friend) (w p : jsstring) (r : Database.friend) :
  Database.get t w = Some r ->
  Database.permission_check p = true ->
  exists t',
    Database.setPermission t w p = Ok t'
    /\ Database.getPermission t' w = Some p
    /\ forall w', w' <> w -> Database.get t' w' = Database.get t w'.
Proof.
  intros Hget Hp. unfold Database.setPermission. rewrite Hget, Hp.
  eexists. split; [reflexivity|]. split.
  - unfold Database.getPermission.
    rewrite (get_update_row t w _ r Hget) by (intros x; reflexivity).
    cbn [Database.permission]. destruct p; [vm_compute in Hp; discriminate | reflexivity].
  - intros w' Hne. apply get_update_row_other; [exact Hne | intros x; reflexivity].
Qed.

Lemma friendsDB_setPermission_effect (wxid p : jsstring) (r : Database.friend) (w : world) :
  Database.get (friends w) wxid = Some r ->
  Database.permission_check p = true ->
  exists t',
    Store.friendsDB_setPermission wxid p w
    = (Ok tt, with_friends t' (with_trace (trace w ++ [Sql "friends.setPermission"]) w))
    /\ Database.getPermission t' wxid = Some p
    /\ forall w', w' <> wxid -> Database.get t' w' = Database.get (friends w) w'.
Proof.
  intros Hget Hp.
  destruct (setPermission_effect _ _ _ _ Hget Hp) as (t' & Hset & Hperm & Hother).
  exists t'. split; [|split; assumption].
  unfold Store.friendsDB_setPermission, bind, record, gets, lift, set_friends, modify.
  cbn [friends with_trace]. rewrite Hset. reflexivity.
Qed.

(** X29.  [/allow name level], when exactly one friend matches the name
    and the level is one of trusted, normal and admin: the level is
    stored for that friend, the reply names it, and every other row and
    every session is as before.  Rows are assumed to have distinct
    wxids, as the primary key makes them. *)
Theorem cmdAllow_grants (args name level : jsstring) (f : Database.friend) (w : world) :
  NoDup (map Database.wxid (friends w)) ->
  split_ws args = [name; level] ->
  level = utf16 "trusted" \/ level = utf16 "normal" \/ level = utf16 "admin" ->
  Database.findByNickname (friends w) name = [f] ->
  exists w',
    cmdAllow args w
    = (Ok (utf16 "✅ " ++ show_null (Database.nickname f) ++ utf16 " → " ++ level), w')
    /\ Database.getPermission (friends w') (Database.wxid f) = Some level
    /\ (forall x, x <> Database.wxid f ->
                  Database.get (friends w') x = Database.get (friends w) x)
    /\ sessions w' = sessions w.
Proof.
  intros Hnd Hparts Hlevel Hmatch.
  assert (Hin : In f (friends w)).
  { assert (H : In f (Database.findByNickname (friends w) name))
      by (rewrite Hmatch; left; reflexivity).
    unfold Database.findByNickname in H. apply filter_In in H as [H _]. exact H. }
  pose proof (get_of_row _ _ Hnd Hin) as Hget.
  assert (Hchk : Database.permission_check level = true).
  { destruct Hlevel as [->|[->| ->]]; vm_compute; reflexivity. }
  assert (Hvalid : negb (Database.eqb_str level (utf16 "trusted")
                         || Database.eqb_str level (utf16 "normal")
                         || Database.eqb_str level (utf16 "admin")) = false).
  { destruct Hlevel as [->|[->| ->]]; vm_compute; reflexivity. }
  assert (Hne : level <> []).
  { destruct Hlevel as [->|[->| ->]]; vm_compute; discriminate. }
  unfold cmdAllow. destruct args as [|a args]; [vm_compute in Hparts; discriminate|].
  cbv zeta. rewrite Hparts. cbn [lookup list_lookup].
  replace (or_opt (Some level) (utf16 "trusted")) with level
    by (destruct level; [contradiction | reflexivity]).
  rewrite Hvalid. unfold bind at 1.
  unfold Store.friendsDB_findByNickname, bind at 1, record, gets, modify.
  cbn [friends with_trace fst snd]. rewrite Hmatch.
  set (w1 := with_trace _ w).
  destruct (friendsDB_setPermission_effect (Database.wxid f) level f w1 Hget Hchk)
    as (t' & Hrun & Hperm & Hother).
  unfold bind. rewrite Hrun. unfold ret. eexists. split; [reflexivity|].
  cbn [friends sessions with_friends with_trace].
  split; [exact Hperm|]. split; [exact Hother | reflexivity].
Qed.

Lemma cmdAllow_grants_witness :
  let w := Samples.world_of_friends
             [Samples.a_friend "u1" "Alice" "normal"; Samples.a_friend "u2" "Bob" "normal"]
             1793561760000 in
  let f := Samples.a_friend "u2" "Bob" "normal" in
  exists w',
    cmdAllow (utf16 "Bob admin") w
    = (Ok (utf16 "✅ " ++ show_null (Database.nickname f) ++ utf16 " → " ++ utf16 "admin"),
       w')
    /\ Database.getPermission (friends w') (Database.wxid f) = Some (utf16 "admin")
    /\ (forall x, x <> Database.wxid f ->
                  Database.get (friends w') x = Database.get (friends w) x)
    /\ sessions w' = sessions w.
Proof.
  cbv zeta.
  apply (cmdAllow_grants (utf16 "Bob admin") (utf16 "Bob") (utf16 "admin")).
  - assert (Hne : utf16 "u1" <> utf16 "u2") by (vm_compute; discriminate).
    cbn. apply NoDup_cons. split.
    + intros [H|[]]%list_elem_of_In. apply Hne. symmetry. exact H.
    + apply NoDup_cons. split; [intros []%list_elem_of_In | apply NoDup_nil; exact I].
  - vm_compute. reflexivity.
  - right. right. reflexivity.
  - vm_compute. reflexivity.
Defined.

(** X30.  [/block name], when exactly one friend matches the name: the
    friend's level becomes blocked, the friend's sessions and in-flight
    mark are removed, and the reply says so whether or not the
    container could be removed; the rows of the other friends are as
    before. *)
Theorem cmdBlock_blocks (E : env) (cfg : config) (args : jsstring)
    (f : Database.friend) (w : world) :
  NoDup (map Database.wxid (friends w)) ->
  args <> [] ->
  Database.findByNickname (friends w) (trim args) = [f] ->
  exists w',
    cmdBlock E cfg args w
    = (Ok (utf16 "🚫 已拉黑 " ++ show_null (Database.nickname f) ++ utf16 "，容器已销毁"), w')
    /\ Database.getPermission (friends w') (Database.wxid f) = Some (utf16 "blocked")
    /\ (forall x, x <> Database.wxid f ->
                  Database.get (friends w') x = Database.get (friends w) x)
    /\ (forall s, In s (sessions w') -> Database.s_wxid s <> Database.wxid f)
    /\ Database.wxid f ∉ activeTasks w'.
Proof.
  intros Hnd Hargs Hmatch.
  assert (Hin : In f (friends w)).
  { assert (H : In f (Database.findByNickname (friends w) (trim args)))
      by (rewrite Hmatch; left; reflexivity).
    unfold Database.findByNickname in H. apply filter_In in H as [H _]. exact H. }
  pose proof (get_of_row _ _ Hnd Hin) as Hget.
  unfold cmdBlock. destruct args as [|a args]; [contradiction|].
  unfold bind at 1.
  unfold Store.friendsDB_findByNickname, bind at 1, record, gets, modify.
  cbn [friends with_trace fst snd]. rewrite Hmatch.
  set (w1 := with_trace _ w).
  destruct (friendsDB_setPermission_effect (Database.wxid f) (utf16 "blocked") f w1 Hget)
    as (t' & Hrun & Hperm & Hother); [vm_compute; reflexivity|].
  unfold bind at 1. rewrite Hrun.
  unfold bind at 1, ClaudeExecutor.destroyContainer.
  unfold bind at 1, Store.sessionsDB_clearUser, bind at 1 2, record, gets, set_sessions, modify.
  cbn [sessions trace with_friends with_trace with_sessions fst snd].
  unfold bind at 1, ClaudeExecutor.activeTasks_delete, bind at 1, gets, set_activeTasks,
    modify.
  cbn [activeTasks with_activeTasks].
  unfold DockerManager.destroyContainer, try_catch, bind, DockerManager.docker, record,
    modify, ret.
  cbn [trace with_trace].
  destruct (execFile E _ _) as [out|e]; (eexists; split; [reflexivity|]);
    cbn [friends sessions activeTasks with_trace];
    (split; [exact Hperm|]); (split; [exact Hother|]); (split;
      [intros s Hs; apply in_clearUser in Hs as [_ Hs]; exact Hs
      | intros [_ Hout]%elem_of_difference; apply Hout, elem_of_singleton; reflexivity]).
Qed.

Lemma cmdBlock_blocks_witness :
  let E := Samples.docker_down ∅ in
  let cfg := loadConfig empty_yaml in
  let w := Samples.world_of_friends
             [Samples.a_friend "u1" "Alice" "normal"; Samples.a_friend "u2" "Bob" "trusted"]
             1793561760000 in
  let f := Samples.a_friend "u2" "Bob" "trusted" in
  exists w',
    cmdBlock E cfg (utf16 "Bob") w
    = (Ok (utf16 "🚫 已拉黑 " ++ show_null (Database.nickname f) ++ utf16 "，容器已销毁"), w')
    /\ Database.getPermission (friends w') (Database.wxid f) = Some (utf16 "blocked")
    /\ (forall x, x <> Database.wxid f ->
                  Database.get (friends w') x = Database.get (friends w) x)
    /\ (forall s, In s (sessions w') -> Database.s_wxid s <> Database.wxid f)
    /\ Database.wxid f ∉ activeTasks w'.
Proof.
  cbv zeta. apply cmdBlock_blocks.
  - assert (Hne : utf16 "u1" <> utf16 "u2") by (vm_compute; discriminate).
    cbn. apply NoDup_cons. split.
    + intros [H|[]]%list_elem_of_In. apply Hne. symmetry. exact H.
    + apply NoDup_cons. split; [intros []%list_elem_of_In | apply NoDup_nil; exact I].
  - vm_compute. discriminate.
  - vm_compute. reflexivity.
Defined.

End Grants.
